(** * LLM Model Selection Tool: a Rocq model of [ll_model_selection.py] and
    [html_report.py]

    The model follows the two source files:

    - [Py]         the fragments of Python the program relies on:
                   exceptions, console output, [float] (IEEE-754 binary64,
                   on [SpecFloat]), [int(x)], the [.Nf] format;
    - [Report]     [html_report.py]: [generate_html_report];
    - [Selection]  [ll_model_selection.py]: the constants,
                   [get_hardware_capacity], [recommend_models], [main];
    - [Console]    the same three functions on a console that may refuse
                   a line.

    Then come the notions the properties are stated with ([Binary],
    [Float64], [SelectionSpec], [ReportSpec], [ProbeSpec], [ConsoleSpec],
    [CoverageSpec]), the lemmas ([BinaryFacts]: correct rounding in
    binary64; [Float64Facts], [SelectionFacts], [ReportFacts], [ProbeFacts],
    [ConsoleFacts], [CoverageFacts]) and the properties of the program. *)

From Stdlib Require Import ZArith NArith QArith Qround Qpower Bool List String Ascii Lia.
From Stdlib Require Import DecimalString.
From Stdlib Require Import Floats.SpecFloat.
Import ListNotations.

Local Open Scope Z_scope.

(* ================================================================== *)
(** * Python fragments                                                 *)
(* ================================================================== *)

Module Py.

(** ** Exceptions

    The classes that the handlers of the program tell apart, the two that
    [int(x)] and [/] raise, and [OtherException] for every other subclass of
    [Exception].  [OSError] stands for its subclasses too, and so does
    [ImportError]. *)

Inductive exn_class :=
| RuntimeError
| AttributeError
| ImportError
| OSError            (* [IOError] is an alias of [OSError] *)
| OverflowError
| ValueError
| OtherException.

Record exn := mk_exn { exn_cls : exn_class; exn_msg : string }.

(** The result of evaluating an expression that may raise. *)
Inductive outcome (A : Type) :=
| Ret (a : A)
| Raise (e : exn).
Arguments Ret {A} a.
Arguments Raise {A} e.

(** ** Console

    A computation that prints: the lines printed so far travel with the
    outcome, so that what was printed before an exception is kept.  Here
    [print] writes to a console that takes every line; [Console], below,
    has the [print] that a console may refuse. *)

Definition io (A : Type) : Type := list string * outcome A.

Definition ret {A} (a : A) : io A := ([], Ret a).
Definition raise {A} (e : exn) : io A := ([], Raise e).
Definition print (line : string) : io unit := ([line], Ret tt).
Definition lift {A} (o : outcome A) : io A := ([], o).

Definition bind {A B} (m : io A) (k : A -> io B) : io B :=
  match m with
  | (out, Ret a) => let '(out', r) := k a in (out ++ out', r)
  | (out, Raise e) => (out, Raise e)
  end.

(** [try: m except ...: handler] where the handlers together catch every
    exception of the model (the last clause is [except Exception]). *)
Definition try_except {A} (m : io A) (handler : exn -> io A) : io A :=
  match m with
  | (out, Ret a) => (out, Ret a)
  | (out, Raise e) => let '(out', r) := handler e in (out ++ out', r)
  end.

(** [for line in lines: print(line)] *)
Definition print_all (lines : list string) : io unit := (lines, Ret tt).

Definition console {A} (m : io A) : list string := fst m.
Definition result {A} (m : io A) : outcome A := snd m.

Declare Scope io_scope.
Delimit Scope io_scope with io.
Notation "x <- m ;; k" := (bind m (fun x => k))
  (at level 61, m at next level, right associativity) : io_scope.
Notation "' p <- m ;; k" := (bind m (fun x => match x with p => k end))
  (at level 61, p pattern, m at next level, right associativity) : io_scope.
Notation "m ;; k" := (bind m (fun _ => k))
  (at level 61, right associativity) : io_scope.

(** ** Floats: IEEE-754 binary64 *)

Definition prec : Z := 53.
Definition emax : Z := 1024.

Definition float := spec_float.

(** A Python float is a well-formed binary64 datum. *)
Definition valid (f : float) : bool := valid_binary prec emax f.

Definition fadd : float -> float -> float := SFadd prec emax.
Definition fsub : float -> float -> float := SFsub prec emax.
Definition fmul : float -> float -> float := SFmul prec emax.
Definition fdiv : float -> float -> float := SFdiv prec emax.

(** The float nearest to [m * 2^e]; exact whenever [m] fits in 53 bits. *)
Definition of_dyadic (m e : Z) : float := binary_normalize prec emax m e false.
Definition of_int (n : Z) : float := of_dyadic n 0.

(** A decimal literal [n / 10^k] with [n] and [10^k] below [2^53]: both are
    floats and their correctly rounded quotient is the float nearest to the
    literal. *)
Definition of_decimal (n : Z) (k : Z) : float := fdiv (of_int n) (of_int (10 ^ k)).

Definition flt (x y : float) : bool := SFltb x y.
Definition feq (x y : float) : bool := SFeqb x y.
Definition fge (x y : float) : bool :=
  match SFcompare x y with
  | Some Gt | Some Eq => true
  | _ => false
  end.
Definition fle (x y : float) : bool := SFleb x y.

(** ** Numbers

    A Python variable may hold an [int] at one point and a [float] at
    another ([max_params] in [recommend_models]). *)

Inductive num :=
| PyInt (n : Z)
| PyFloat (f : float).

(** [x < k] and [x > k] for an integer literal [k] (exactly representable). *)
Definition num_lt_int (x : num) (k : Z) : bool :=
  match x with
  | PyInt n => n <? k
  | PyFloat f => flt f (of_int k)
  end.

Definition num_gt_int (x : num) (k : Z) : bool :=
  match x with
  | PyInt n => k <? n
  | PyFloat f => flt (of_int k) f
  end.

(** [int(x)]: truncation toward zero; infinities and NaN raise. *)
Definition int_of_float (f : float) : outcome Z :=
  match f with
  | S754_zero _ => Ret 0
  | S754_finite s m e => Ret (cond_Zopp s (Z.shiftl (Zpos m) e))
  | S754_infinity _ =>
      Raise (mk_exn OverflowError "cannot convert float infinity to integer")
  | S754_nan => Raise (mk_exn ValueError "cannot convert float NaN to integer")
  end.

Definition int (x : num) : outcome Z :=
  match x with
  | PyInt n => Ret n
  | PyFloat f => int_of_float f
  end.

(** [a / 1024 ** 3] for an [int] [a >= 0]: the correctly rounded quotient,
    [OverflowError] when it exceeds the floats. *)
Definition truediv_gib (a : N) : outcome float :=
  match of_dyadic (Z.of_N a) (-30) with
  | S754_infinity _ =>
      Raise (mk_exn OverflowError "integer division result too large for a float")
  | f => Ret f
  end.

(** ** Formatting *)

Definition str_of_int (n : Z) : string := NilZero.string_of_int (Z.to_int n).

Fixpoint zeros (p : nat) : string :=
  match p with
  | O => EmptyString
  | S p' => String "0" (zeros p')
  end.

(** The nearest integer to [a / b], ties to even ([0 <= a], [0 < b]). *)
Definition rne_div (a b : Z) : Z :=
  let q := a / b in
  match 2 * (a mod b) ?= b with
  | Lt => q
  | Eq => if Z.even q then q else q + 1
  | Gt => q + 1
  end.

(** [n / 10^p] written with [p] decimals, [0 <= n]. *)
Definition fixed_digits (p : nat) (n : Z) : string :=
  let scale := 10 ^ Z.of_nat p in
  let frac := str_of_int (scale + n mod scale) in
  (str_of_int (n / scale) ++
   match p with
   | O => EmptyString
   | S _ => String "." (substring 1 p frac)
   end)%string.

Definition sign_str (s : bool) : string := if s then "-"%string else EmptyString.

(** [f"{x:.pf}"]: the exact value of [x] rounded to [p] decimals, half to
    even. *)
Definition format_fixed (p : nat) (x : float) : string :=
  match x with
  | S754_nan => "nan"%string
  | S754_infinity s => (sign_str s ++ "inf")%string
  | S754_zero s => (sign_str s ++ fixed_digits p 0)%string
  | S754_finite s m e =>
      let scaled := Zpos m * 10 ^ Z.of_nat p in
      let n := if 0 <=? e then scaled * 2 ^ e else rne_div scaled (2 ^ (- e)) in
      (sign_str s ++ fixed_digits p n)%string
  end.

End Py.

(* ================================================================== *)
(** * html_report.py                                                   *)
(* ================================================================== *)

Module Report.
Import Py.

Local Open Scope string_scope.

(** The text of the templates is written with a backquote standing for each
    double quote of the source; [unq] puts the double quotes back. *)
Definition dq : ascii := ascii_of_nat 34.

Fixpoint unq (s : string) : string :=
  match s with
  | EmptyString => EmptyString
  | String c r => String (if Ascii.eqb c "`" then dq else c) (unq r)
  end.

(** The pieces of a formatted string, written one after the other. *)
Fixpoint join (parts : list string) : string :=
  match parts with
  | [] => EmptyString
  | p :: rest => p ++ join rest
  end.

(** An entry of [gpu_details]: [{'name': ..., 'vram': ...}]. *)
Record gpu_info := mk_gpu { gpu_name : string; gpu_vram : float }.

(** Truth value of an optional list: [None] and [[]] are false. *)
Definition truthy {A} (l : option (list A)) : bool :=
  match l with
  | Some (_ :: _) => true
  | _ => false
  end.

Definition items {A} (l : option (list A)) : list A :=
  match l with
  | Some xs => xs
  | None => []
  end.

Definition nonempty (s : string) : bool :=
  match s with
  | EmptyString => false
  | String _ _ => true
  end.

(** ** The literal text of the three templates *)

Definition tpl_0 : string := unq
"<!DOCTYPE html>
<html lang=`en`>
<head>
    <meta charset=`UTF-8`>
    <meta name=`viewport` content=`width=device-width, initial-scale=1.0`>
    <title>Hardware Analysis Report - LLM Model Selection</title>
    <link href=`https://fonts.googleapis.com/css2?family=Inter:wght@300;400;500;600;700;800&display=swap` rel=`stylesheet`>
    <style>
        * {
            margin: 0;
            padding: 0;
            box-sizing: border-box;
        }
        
        body {
            font-family: 'Inter', -apple-system, BlinkMacSystemFont, 'Segoe UI', sans-serif;
            background: linear-gradient(135deg, #667eea 0%, #764ba2 100%);
            min-height: 100vh;
            padding: 2rem;
            color: #1a1a1a;
        }
        
        .container {
            max-width: 1200px;
            margin: 0 auto;
        }
        
        .header {
            text-align: center;
            margin-bottom: 3rem;
            animation: fadeInDown 0.6s ease-out;
        }
        
        .header h1 {
            color: white;
            font-size: 3rem;
            font-weight: 800;
            margin-bottom: 0.5rem;
            text-shadow: 0 2px 20px rgba(0,0,0,0.2);
        }
        
        .header .subtitle {
            color: rgba(255,255,255,0.9);
            font-size: 1.1rem;
            font-weight: 400;
        }
        
        .report-card {
            background: white;
            border-radius: 24px;
            padding: 2.5rem;
            margin-bottom: 1.5rem;
            box-shadow: 0 20px 60px rgba(0,0,0,0.15);
            animation: fadeInUp 0.6s ease-out;
            transition: transform 0.3s ease, box-shadow 0.3s ease;
        }
        
        .report-card:hover {
            transform: translateY(-4px);
            box-shadow: 0 25px 70px rgba(0,0,0,0.2);
        }
        
        .card-header {
            display: flex;
            align-items: center;
            justify-content: space-between;
            margin-bottom: 2rem;
            padding-bottom: 1.5rem;
            border-bottom: 2px solid #f0f0f0;
        }
        
        .card-title {
            font-size: 1.75rem;
            font-weight: 700;
            color: #1a1a1a;
            display: flex;
            align-items: center;
            gap: 0.75rem;
        }
        
        .card-icon {
            font-size: 2rem;
        }
        
        .badge {
            padding: 0.5rem 1.25rem;
            border-radius: 50px;
            font-weight: 600;
            font-size: 0.875rem;
            text-transform: uppercase;
            letter-spacing: 0.5px;
        }
        
        .tier-badge {
            background: linear-gradient(135deg, ".

Definition tpl_1 : string := unq
", ".

Definition tpl_2 : string := unq
"dd);
            color: white;
            box-shadow: 0 4px 15px ".

Definition tpl_3 : string := unq
"40;
        }
        
        .stats-grid {
            display: grid;
            grid-template-columns: repeat(auto-fit, minmax(200px, 1fr));
            gap: 1.5rem;
            margin-bottom: 2rem;
        }
        
        .stat-box {
            background: linear-gradient(135deg, #f8f9fa 0%, #e9ecef 100%);
            padding: 1.5rem;
            border-radius: 16px;
            border-left: 4px solid ".

Definition tpl_4 : string := unq
";
            transition: all 0.3s ease;
        }
        
        .stat-box:hover {
            transform: translateX(4px);
            box-shadow: 0 8px 20px rgba(0,0,0,0.08);
        }
        
        .stat-label {
            font-size: 0.875rem;
            color: #6b7280;
            font-weight: 500;
            text-transform: uppercase;
            letter-spacing: 0.5px;
            margin-bottom: 0.5rem;
        }
        
        .stat-value {
            font-size: 2rem;
            font-weight: 700;
            color: #1a1a1a;
        }
        
        .stat-unit {
            font-size: 1rem;
            color: #6b7280;
            font-weight: 500;
        }
        
        .backend-display {
            background: linear-gradient(135deg, ".

Definition tpl_5 : string := unq
"15, ".

Definition tpl_6 : string := unq
"05);
            border: 2px solid ".

Definition tpl_7 : string := unq
"40;
            padding: 1.5rem;
            border-radius: 16px;
            display: flex;
            align-items: center;
            gap: 1rem;
            margin-bottom: 2rem;
        }
        
        .backend-icon {
            font-size: 3rem;
        }
        
        .backend-info {
            flex: 1;
        }
        
        .backend-name {
            font-size: 1.5rem;
            font-weight: 700;
            color: ".

Definition tpl_8 : string := unq
";
            margin-bottom: 0.25rem;
        }
        
        .backend-desc {
            color: #6b7280;
            font-size: 0.95rem;
        }
        
        .gpu-grid {
            display: grid;
            gap: 1rem;
            margin-top: 1.5rem;
        }
        
        .gpu-card {
            background: linear-gradient(135deg, #f8f9fa, #ffffff);
            padding: 1.25rem;
            border-radius: 12px;
            display: flex;
            align-items: center;
            gap: 1rem;
            border: 1px solid #e5e7eb;
            transition: all 0.3s ease;
        }
        
        .gpu-card:hover {
            border-color: #76B900;
            box-shadow: 0 4px 12px rgba(118, 185, 0, 0.15);
        }
        
        .gpu-icon {
            font-size: 2rem;
        }
        
        .gpu-name {
            font-weight: 600;
            color: #1a1a1a;
            font-size: 1.1rem;
        }
        
        .gpu-vram {
            color: #6b7280;
            font-size: 0.9rem;
        }
        
        .models-grid {
            display: grid;
            gap: 1rem;
        }
        
        .model-card {
            background: linear-gradient(135deg, #ffffff, #f8f9fa);
            padding: 1.25rem;
            border-radius: 12px;
            display: flex;
            align-items: center;
            gap: 1rem;
            border: 1px solid #e5e7eb;
            transition: all 0.3s ease;
        }
        
        .model-card:hover {
            border-color: ".

Definition tpl_9 : string := unq
";
            box-shadow: 0 4px 12px ".

Definition tpl_10 : string := unq
"30;
            transform: translateX(4px);
        }
        
        .model-icon {
            font-size: 2rem;
        }
        
        .model-name {
            font-weight: 700;
            color: #1a1a1a;
            font-size: 1.1rem;
            margin-bottom: 0.25rem;
        }
        
        .model-desc {
            color: #6b7280;
            font-size: 0.9rem;
        }
        
        .warning-box {
            background: linear-gradient(135deg, #FEF3C7, #FDE68A);
            border-left: 4px solid #F59E0B;
            padding: 1.25rem;
            border-radius: 12px;
            margin-top: 1.5rem;
            display: flex;
            gap: 1rem;
        }
        
        .warning-icon {
            font-size: 1.5rem;
        }
        
        .warning-content {
            flex: 1;
        }
        
        .warning-title {
            font-weight: 700;
            color: #92400E;
            margin-bottom: 0.5rem;
        }
        
        .warning-text {
            color: #78350F;
            font-size: 0.95rem;
            line-height: 1.6;
        }
        
        .footer {
            text-align: center;
            color: rgba(255,255,255,0.8);
            margin-top: 2rem;
            font-size: 0.9rem;
        }
        
        .footer a {
            color: white;
            text-decoration: none;
            font-weight: 600;
        }
        
        @keyframes fadeInDown {
            from {
                opacity: 0;
                transform: translateY(-20px);
            }
            to {
                opacity: 1;
                transform: translateY(0);
            }
        }
        
        @keyframes fadeInUp {
            from {
                opacity: 0;
                transform: translateY(20px);
            }
            to {
                opacity: 1;
                transform: translateY(0);
            }
        }
        
        @media (max-width: 768px) {
            body {
                padding: 1rem;
            }
            
            .header h1 {
                font-size: 2rem;
            }
            
            .report-card {
                padding: 1.5rem;
            }
            
            .stats-grid {
                grid-template-columns: 1fr;
            }
        }
    </style>
</head>
<body>
    <div class=`container`>
        <div class=`header`>
            <h1>🚀 Hardware Analysis Report</h1>
            <div class=`subtitle`>LLM Model Selection & Capacity Assessment</div>
        </div>
        
        <!-- System Overview Card -->
        <div class=`report-card`>
            <div class=`card-header`>
                <div class=`card-title`>
                    <span class=`card-icon`>💻</span>
                    System Overview
                </div>
                <div class=`badge tier-badge`>".

Definition tpl_11 : string := unq
" Tier</div>
            </div>
            
            <div class=`stats-grid`>
                <div class=`stat-box`>
                    <div class=`stat-label`>Operating System</div>
                    <div class=`stat-value`>".

Definition tpl_12 : string := unq
"</div>
                </div>
                <div class=`stat-box`>
                    <div class=`stat-label`>Total RAM</div>
                    <div class=`stat-value`>".

Definition tpl_13 : string := unq
" <span class=`stat-unit`>GB</span></div>
                </div>
                <div class=`stat-box`>
                    <div class=`stat-label`>Usable AI Memory</div>
                    <div class=`stat-value`>".

Definition tpl_14 : string := unq
" <span class=`stat-unit`>GB</span></div>
                </div>
                <div class=`stat-box`>
                    <div class=`stat-label`>Max Model Size</div>
                    <div class=`stat-value`>~".

Definition tpl_15 : string := unq
" <span class=`stat-unit`>B</span></div>
                </div>
            </div>
            
            <div class=`backend-display`>
                <div class=`backend-icon`>".

Definition tpl_16 : string := unq
"</div>
                <div class=`backend-info`>
                    <div class=`backend-name`>".

Definition tpl_17 : string := unq
"</div>
                    <div class=`backend-desc`>Detected compute backend for AI workloads</div>
                </div>
            </div>
            
            ".

Definition tpl_18 : string := unq
"
        </div>
        
        <!-- Model Recommendations Card -->
        <div class=`report-card`>
            <div class=`card-header`>
                <div class=`card-title`>
                    <span class=`card-icon`>🎯</span>
                    Recommended Models
                </div>
                <div class=`badge` style=`background: #E0E7FF; color: #4338CA;`>4-bit Quantization</div>
            </div>
            
            <div class=`models-grid`>
                ".

Definition tpl_19 : string := unq
"
            </div>
            
            ".

Definition tpl_20 : string := unq
"
        </div>
        
        <div class=`footer`>
            Generated on ".

Definition tpl_21 : string := unq
" | <a href=`https://github.com`>LLM Model Selection Tool</a>
        </div>
    </div>
</body>
</html>".

Definition warning_box : string := unq
"
            <div class=`warning-box`>
                <div class=`warning-icon`>⚠️</div>
                <div class=`warning-content`>
                    <div class=`warning-title`>CPU Performance Notice</div>
                    <div class=`warning-text`>
                        CPU inference will be significantly slower than GPU/MPS acceleration. 
                        Consider using GGUF format models with llama.cpp for better CPU performance.
                    </div>
                </div>
            </div>
            ".

Definition gpu_card_0 : string := unq
"
            <div class=`gpu-card`>
                <div class=`gpu-icon`>🎮</div>
                <div class=`gpu-info`>
                    <div class=`gpu-name`>".

Definition gpu_card_1 : string := unq
"</div>
                    <div class=`gpu-vram`>".

Definition gpu_card_2 : string := unq
" GB VRAM</div>
                </div>
            </div>
            ".

Definition model_card_0 : string := unq
"
            <div class=`model-card`>
                <div class=`model-icon`>🤖</div>
                <div class=`model-info`>
                    <div class=`model-name`>".

Definition model_card_1 : string := unq
"</div>
                    <div class=`model-desc`>".

Definition model_card_2 : string := unq
"</div>
                </div>
            </div>
            ".

(** ** [generate_html_report] *)

(** [backend_info.get(device_type, ('Unknown', ...))]: name, icon, colour. *)
Definition backend_info (device_type : string) : string * string * string :=
  if device_type =? "cuda" then ("NVIDIA CUDA", "🎮", "#76B900")
  else if device_type =? "mps" then ("Apple Metal (MPS)", "🍎", "#147EFB")
  else if device_type =? "cpu" then ("CPU Only", "💻", "#FF6B6B")
  else ("Unknown", "❓", "#888888").

Definition gpu_card (gpu : gpu_info) : string :=
  join [gpu_card_0; gpu_name gpu; gpu_card_1; format_fixed 2 (gpu_vram gpu); gpu_card_2].

Definition build_gpu_html (gpu_details : option (list gpu_info)) : string :=
  if truthy gpu_details
  then fold_left (fun html gpu => html ++ gpu_card gpu) (items gpu_details) ""
  else "".

Definition model_card (model : string * string) : string :=
  let '(model_name, description) := model in
  join [model_card_0; model_name; model_card_1; description; model_card_2].

Definition build_models_html (recommended_models : option (list (string * string))) : string :=
  if truthy recommended_models
  then fold_left (fun html model => html ++ model_card model) (items recommended_models) ""
  else "".

(** Performance tier badge: name and colour. *)
Definition tier_badge (vram_gb : float) : string * string :=
  if fge vram_gb (of_int 48) then ("Enterprise", "#9333EA")
  else if fge vram_gb (of_int 24) then ("Professional", "#3B82F6")
  else if fge vram_gb (of_int 16) then ("Advanced", "#10B981")
  else if fge vram_gb (of_int 8) then ("Standard", "#F59E0B")
  else ("Entry", "#EF4444").

(** The replacement field that holds the device section. *)
Definition gpu_section (gpu_html : string) : string :=
  if nonempty gpu_html
  then join [unq "<div class=`gpu-grid`>"; gpu_html; "</div>"]
  else "".

(** The replacement field that holds the CPU warning panel. *)
Definition warning_section (device_type : string) : string :=
  if device_type =? "cpu" then warning_box else "".

(** The template up to the field of the operating system, between the RAM
    field and the device section, and so on: the literal text and the
    replacement fields in the order of the source. *)
Definition style_part (tier_color backend_color : string) : list string :=
  [tpl_0; tier_color; tpl_1; tier_color; tpl_2; tier_color; tpl_3;
   backend_color; tpl_4; backend_color; tpl_5; backend_color; tpl_6;
   backend_color; tpl_7; backend_color; tpl_8; backend_color; tpl_9;
   backend_color; tpl_10].

Definition overview_part (tier system ram vram max_params backend_icon backend_name : string)
  : list string :=
  [tier; tpl_11; system; tpl_12; ram; tpl_13; vram; tpl_14; max_params; tpl_15;
   backend_icon; tpl_16; backend_name; tpl_17].

Definition models_part (models_html : string) : list string :=
  [tpl_18; models_html; tpl_19].

Definition footer_part (timestamp : string) : list string :=
  [tpl_20; timestamp; tpl_21].

(** [timestamp] is [datetime.now().strftime(...)], read from the clock. *)
Definition generate_html_report
  (timestamp : string)
  (system : string) (ram_gb : float) (device_type : string) (vram_gb : float)
  (max_params : Z) (gpu_details : option (list gpu_info))
  (recommended_models : option (list (string * string))) : string :=
  let '(backend_name, backend_icon, backend_color) := backend_info device_type in
  let gpu_html := build_gpu_html gpu_details in
  let models_html := build_models_html recommended_models in
  let '(tier, tier_color) := tier_badge vram_gb in
  join (style_part tier_color backend_color
        ++ overview_part tier system (format_fixed 1 ram_gb) (format_fixed 1 vram_gb)
             (str_of_int max_params) backend_icon backend_name
        ++ [gpu_section gpu_html]
        ++ models_part models_html
        ++ [warning_section device_type]
        ++ footer_part timestamp).

End Report.

(* ================================================================== *)
(** * ll_model_selection.py                                            *)
(* ================================================================== *)

Module Selection.
Import Py.
Import Report.

Local Open Scope string_scope.
Local Open Scope io_scope.

(** ** Constants *)

Definition MPS_USABLE_MEMORY_RATIO : float := of_dyadic 3 (-2).    (* 0.75 *)
Definition CPU_USABLE_MEMORY_RATIO : float := of_dyadic 1 (-1).    (* 0.5 *)
Definition CONTEXT_OVERHEAD_GB : float := of_int 2.                (* 2.0 *)
Definition QUANT_4BIT_GB_PER_BILLION : float := of_dyadic 3 (-2).  (* 0.75 *)

Definition VRAM_TIER_ENTERPRISE : float := of_int 48.
Definition VRAM_TIER_PROFESSIONAL : float := of_int 24.
Definition VRAM_TIER_ADVANCED : float := of_int 16.
Definition VRAM_TIER_STANDARD : float := of_int 8.

(** ** The collaborators

    What the operating system, the accelerator drivers, the clock, the file
    system and the viewer answer during one run.  A query of [psutil], of
    [torch], of the file system or of the viewer may raise; the name of the
    platform and the clock are read without failure, and the console
    accepts every line. *)

(** [torch.cuda.get_device_properties(i)]: the two attributes read. *)
Record device_properties := mk_props { name : string; total_memory : N }.

Record world := mk_world {
  platform_system : string;                              (* platform.system() *)
  virtual_memory_total : outcome N;                      (* psutil.virtual_memory().total *)
  cuda_is_available : outcome bool;                      (* torch.cuda.is_available() *)
  cuda_device_count : outcome Z;                         (* torch.cuda.device_count() *)
  cuda_get_device_properties : nat -> outcome device_properties;
  mps_is_available : outcome bool;                       (* torch.backends.mps.is_available() *)
  now_strftime : string;                                 (* datetime.now().strftime(...) *)
  path_absolute : string -> outcome string;              (* Path(p).absolute() *)
  path_write_text : string -> string -> outcome unit;    (* Path(p).write_text(text) *)
  webbrowser_open : string -> outcome bool               (* webbrowser.open(url) *)
}.

(** ** [get_hardware_capacity] *)

(** The local variables that the probes assign. *)
Record probe_state := mk_state {
  device_type : string;
  vram_gb : float;
  gpu_details : list gpu_info
}.

(** The body of a [try] block: what it printed, the variables as it left
    them, and the exception that ended it, if any. *)
Definition block : Type := list string * (probe_state * option exn).

(** [for i in range(gpu_count): ...] *)
Fixpoint cuda_devices (w : world) (indices : list nat) (st : probe_state) : block :=
  match indices with
  | [] => ([], (st, None))
  | i :: rest =>
      match cuda_get_device_properties w i with
      | Raise e => ([], (st, Some e))
      | Ret props =>
          match truediv_gib (total_memory props) with
          | Raise e => ([], (st, Some e))
          | Ret v_mem =>
              let line := join ["  - GPU "; str_of_int (Z.of_nat i); ": "; name props;
                                " | "; format_fixed 2 v_mem; " GB VRAM"] in
              let st' := mk_state (device_type st)
                                  (fadd (vram_gb st) v_mem)
                                  (gpu_details st ++ [mk_gpu (name props) v_mem]) in
              let '(out, r) := cuda_devices w rest st' in
              (line :: out, r)
          end
      end
  end.

(** The [try] block of step 1. *)
Definition cuda_block (w : world) (st : probe_state) : block :=
  match cuda_is_available w with
  | Raise e => ([], (st, Some e))
  | Ret false => ([], (st, None))
  | Ret true =>
      let st1 := mk_state "cuda" (vram_gb st) (gpu_details st) in
      match cuda_device_count w with
      | Raise e => ([], (st1, Some e))
      | Ret gpu_count =>
          let line := join ["* Backend: NVIDIA CUDA ("; str_of_int gpu_count; " devices)"] in
          let '(out, r) := cuda_devices w (seq 0 (Z.to_nat gpu_count)) st1 in
          (line :: out, r)
      end
  end.

(** The [except] clauses of step 1. *)
Definition cuda_handler (e : exn) : list string :=
  match exn_cls e with
  | RuntimeError | AttributeError =>
      [join ["  Warning: CUDA detection failed: "; exn_msg e]]
  | ImportError =>
      ["  Warning: CUDA not available (PyTorch built without CUDA support)"]
  | _ =>
      [join ["  Warning: Unexpected error during CUDA detection: "; exn_msg e]]
  end.

(** The [try] block of step 2. *)
Definition mps_block (w : world) (ram_gb : float) (st : probe_state) : block :=
  match mps_is_available w with
  | Raise e => ([], (st, Some e))
  | Ret false => ([], (st, None))
  | Ret true =>
      let vram := fmul ram_gb MPS_USABLE_MEMORY_RATIO in
      (["* Backend: Apple Metal Performance Shaders (MPS)";
        join ["* Unified Memory: "; format_fixed 2 ram_gb;
              " GB (Est. Usable for AI: "; format_fixed 2 vram; " GB)"]],
       (mk_state "mps" vram (gpu_details st), None))
  end.

(** The [except] clauses of step 2. *)
Definition mps_handler (e : exn) : list string :=
  match exn_cls e with
  | RuntimeError | AttributeError =>
      [join ["  Warning: MPS detection failed: "; exn_msg e]]
  | _ =>
      [join ["  Warning: Unexpected error during MPS detection: "; exn_msg e]]
  end.

(** A [try] statement all of whose handlers only print. *)
Definition try_block (b : block) (handler : exn -> list string) : list string * probe_state :=
  match b with
  | (out, (st, None)) => (out, st)
  | (out, (st, Some e)) => ((out ++ handler e)%list, st)
  end.

Definition is_zero (x : float) : bool := feq x (of_int 0).

(** Steps 1 to 3, after [ram_gb] has been computed. *)
Definition probe (w : world) (ram_gb : float) : list string * probe_state :=
  let st0 := mk_state "cpu" (S754_zero false) [] in
  (* 1. Check NVIDIA GPU *)
  let '(out1, st1) := try_block (cuda_block w st0) cuda_handler in
  (* 2. Check Apple Silicon *)
  let '(out2, st2) :=
    if is_zero (vram_gb st1)
    then try_block (mps_block w ram_gb st1) mps_handler
    else ([], st1) in
  (* 3. Fallback to CPU *)
  let '(out3, st3) :=
    if is_zero (vram_gb st2)
    then
      let vram := fmul ram_gb CPU_USABLE_MEMORY_RATIO in
      (["* Backend: CPU Only (Not recommended for large models)";
        join ["* Estimated Usable Memory: "; format_fixed 2 vram; " GB"]],
       mk_state "cpu" vram (gpu_details st2))
    else ([], st2) in
  ((out1 ++ out2 ++ out3)%list, st3).

(** What [get_hardware_capacity] returns:
    [(vram_gb, device_type, ram_gb, system, gpu_details)]. *)
Record capacity := mk_capacity {
  cap_vram_gb : float;
  cap_device_type : string;
  cap_ram_gb : float;
  cap_system : string;
  cap_gpu_details : list gpu_info
}.

Definition get_hardware_capacity (w : world) : io capacity :=
  let system := platform_system w in
  total <- lift (virtual_memory_total w) ;;
  ram_gb <- lift (truediv_gib total) ;;
  print (join ["### Hardware Audit: "; system; " ###"]) ;;
  print (join ["* System RAM: "; format_fixed 2 ram_gb; " GB"]) ;;
  let '(out, st) := probe w ram_gb in
  print_all out ;;
  ret (mk_capacity (vram_gb st) (device_type st) ram_gb system (gpu_details st)).

(** ** [recommend_models] *)

(** [max_params] after the two [if] statements. *)
Definition max_params_of (vram_gb : float) : num :=
  let max_params :=
    if flt (of_int 0) QUANT_4BIT_GB_PER_BILLION
    then PyFloat (fdiv (fsub vram_gb CONTEXT_OVERHEAD_GB) QUANT_4BIT_GB_PER_BILLION)
    else PyInt 0 in
  if num_lt_int max_params 2 then PyInt 2 else max_params.

Inductive tier_name := Enterprise | Professional | Advanced | Standard | Entry.

(** The branch of the [if]/[elif] chain that is taken. *)
Definition tier_of (vram_gb : float) : tier_name :=
  if fge vram_gb VRAM_TIER_ENTERPRISE then Enterprise
  else if fge vram_gb VRAM_TIER_PROFESSIONAL then Professional
  else if fge vram_gb VRAM_TIER_ADVANCED then Advanced
  else if fge vram_gb VRAM_TIER_STANDARD then Standard
  else Entry.

(** The list assigned to [models] in each branch. *)
Definition tier_models (t : tier_name) : list (string * string) :=
  match t with
  | Enterprise =>
      [("Llama-3.1-70B / Llama-3.3-70B", "High performance flagship models");
       ("Qwen2.5-72B", "Excellent reasoning and multilingual capabilities");
       ("Mixtral 8x7B", "Mixture of Experts architecture for efficiency")]
  | Professional =>
      [("Llama-3.1-70B", "Heavily quantized, may be slower but very capable");
       ("Mixtral 8x7B", "Comfortable fit with good performance");
       ("Command R (35B)", "Optimized for RAG and tool use");
       ("Qwen2.5-32B", "Strong reasoning with multilingual support")]
  | Advanced =>
      [("Llama-3.1-13B / Llama-2-13B", "Balanced performance and efficiency");
       ("Mistral-7B", "Quantized with plenty of headroom");
       ("Qwen2.5-14B", "Strong performance in this tier")]
  | Standard =>
      [("Llama-3.1-8B", "Gold standard for consumer hardware");
       ("Mistral-7B", "Excellent general-purpose model");
       ("Gemma-7B", "Google's efficient open model");
       ("Qwen2.5-7B", "Strong multilingual capabilities")]
  | Entry =>
      [("Phi-3-mini (3.8B)", "Highly capable for its size");
       ("Gemma-2B", "Efficient small model");
       ("TinyLlama (1.1B)", "Minimal resource requirements")]
  end.

Definition nl : string := String (ascii_of_nat 10) EmptyString.

(** The two lines printed for CPU inference. *)
Definition cpu_note : list string :=
  [nl ++ "⚠️  Note: CPU inference will be significantly slower than GPU/MPS.";
   "   Consider using GGUF format models with llama.cpp for better CPU performance."].

Definition recommend_models (vram_gb : float) (device_type : string)
  : io (Z * list (string * string)) :=
  let max_params := max_params_of vram_gb in
  print (nl ++ "### Feasible Local Deployment (4-bit Quantization) ###") ;;
  print (join ["* Effective VRAM Cap: "; format_fixed 2 vram_gb; " GB"]) ;;
  shown <- lift (int max_params) ;;
  print (join ["* Theoretical Max Parameter Count: ~"; str_of_int shown; "B"]) ;;
  print (nl ++ "Recommended Models (4-bit Quantization):") ;;
  let models := tier_models (tier_of vram_gb) in
  print_all (map (fun '(model_name, description) =>
                    join ["- "; model_name; ": "; description]) models) ;;
  (if device_type =? "cpu" then print_all cpu_note else ret tt) ;;
  n <- lift (int max_params) ;;
  ret (n, models).

(** ** [main] *)

Definition default_output_path : string := "hardware_report.html".

(** The two [except] clauses of [main]. *)
Definition main_handler (e : exn) : io unit :=
  match exn_cls e with
  | OSError => print (join [nl; "❌ Error saving report: "; exn_msg e])
  | _ => print (join [nl; "❌ Unexpected error: "; exn_msg e])
  end.

Definition main (w : world) (output_path : string) : io unit :=
  (* Get hardware information *)
  cap <- get_hardware_capacity w ;;
  (* Get model recommendations *)
  '(max_params, models) <- recommend_models (cap_vram_gb cap) (cap_device_type cap) ;;
  (* Generate HTML report *)
  let html_content :=
    generate_html_report (now_strftime w)
      (cap_system cap) (cap_ram_gb cap) (cap_device_type cap) (cap_vram_gb cap) max_params
      (match cap_gpu_details cap with [] => None | l => Some l end)
      (Some models) in
  (* Save report to file *)
  try_except
    (lift (path_write_text w output_path html_content) ;;
     shown <- lift (path_absolute w output_path) ;;
     print (join [nl; "✅ HTML report generated: "; shown]) ;;
     print "   Opening in browser..." ;;
     (* Open in default browser *)
     target <- lift (path_absolute w output_path) ;;
     lift (webbrowser_open w (join ["file://"; target])) ;;
     ret tt)
    main_handler.

(** The status with which [python ll_model_selection.py] ends: 0 when
    [main()] returns, 1 when an exception leaves it. *)
Definition exit_status (w : world) : Z :=
  match result (main w default_output_path) with
  | Ret _ => 0
  | Raise _ => 1
  end.

(** The report that the run hands to [write_text], if it gets that far. *)
Definition report_of (w : world) : outcome string :=
  match result (get_hardware_capacity w) with
  | Raise e => Raise e
  | Ret cap =>
      match result (recommend_models (cap_vram_gb cap) (cap_device_type cap)) with
      | Raise e => Raise e
      | Ret (max_params, models) =>
          Ret (generate_html_report (now_strftime w)
                 (cap_system cap) (cap_ram_gb cap) (cap_device_type cap) (cap_vram_gb cap)
                 max_params
                 (match cap_gpu_details cap with [] => None | l => Some l end)
                 (Some models))
      end
  end.

End Selection.

(* ================================================================== *)
(** * ll_model_selection.py on a console that may refuse a line        *)
(* ================================================================== *)

(** In [Selection] every [print] succeeds, as on a console whose encoding
    has every character (UTF-8).  [print] writes to [sys.stdout], and the
    stream raises when it cannot take the text: [UnicodeEncodeError], a
    subclass of [ValueError], when its encoding lacks a character of the
    line.  The functions that print are given here with the stream as an
    argument; they follow the same statements of the source, and what they
    do not print they take from [Selection]. *)

Module Console.
Import Py.
Import Report.
Import Selection.

Local Open Scope string_scope.
Local Open Scope io_scope.

(** [sys.stdout]: what writing a line to it answers. *)
Definition stdout : Type := string -> outcome unit.

(** [print(line)] *)
Definition print (out : stdout) (line : string) : io unit :=
  match out line with
  | Ret _ => ([line], Ret tt)
  | Raise e => ([], Raise e)
  end.

(** [for line in lines: print(line)] *)
Fixpoint print_all (out : stdout) (lines : list string) : io unit :=
  match lines with
  | [] => ret tt
  | line :: rest => print out line ;; print_all out rest
  end.

(** ** [get_hardware_capacity] *)

(** [for i in range(gpu_count): ...]: the line of a device is printed
    before the device is appended and its memory added. *)
Fixpoint cuda_devices (out : stdout) (w : world) (indices : list nat) (st : probe_state)
  : block :=
  match indices with
  | [] => ([], (st, None))
  | i :: rest =>
      match cuda_get_device_properties w i with
      | Raise e => ([], (st, Some e))
      | Ret props =>
          match truediv_gib (total_memory props) with
          | Raise e => ([], (st, Some e))
          | Ret v_mem =>
              let line := join ["  - GPU "; str_of_int (Z.of_nat i); ": "; name props;
                                " | "; format_fixed 2 v_mem; " GB VRAM"] in
              match out line with
              | Raise e => ([], (st, Some e))
              | Ret _ =>
                  let st' := mk_state (device_type st)
                                      (fadd (vram_gb st) v_mem)
                                      (gpu_details st ++ [mk_gpu (name props) v_mem]) in
                  let '(lines, r) := cuda_devices out w rest st' in
                  (line :: lines, r)
              end
          end
      end
  end.

(** The [try] block of step 1. *)
Definition cuda_block (out : stdout) (w : world) (st : probe_state) : block :=
  match cuda_is_available w with
  | Raise e => ([], (st, Some e))
  | Ret false => ([], (st, None))
  | Ret true =>
      let st1 := mk_state "cuda" (vram_gb st) (gpu_details st) in
      match cuda_device_count w with
      | Raise e => ([], (st1, Some e))
      | Ret gpu_count =>
          let line := join ["* Backend: NVIDIA CUDA ("; str_of_int gpu_count; " devices)"] in
          match out line with
          | Raise e => ([], (st1, Some e))
          | Ret _ =>
              let '(lines, r) := cuda_devices out w (seq 0 (Z.to_nat gpu_count)) st1 in
              (line :: lines, r)
          end
      end
  end.

(** The [try] block of step 2: the two assignments come before the two
    lines. *)
Definition mps_block (out : stdout) (w : world) (ram_gb : float) (st : probe_state) : block :=
  match mps_is_available w with
  | Raise e => ([], (st, Some e))
  | Ret false => ([], (st, None))
  | Ret true =>
      let vram := fmul ram_gb MPS_USABLE_MEMORY_RATIO in
      let st' := mk_state "mps" vram (gpu_details st) in
      let line1 := "* Backend: Apple Metal Performance Shaders (MPS)" in
      let line2 := join ["* Unified Memory: "; format_fixed 2 ram_gb;
                         " GB (Est. Usable for AI: "; format_fixed 2 vram; " GB)"] in
      match out line1 with
      | Raise e => ([], (st', Some e))
      | Ret _ =>
          match out line2 with
          | Raise e => ([line1], (st', Some e))
          | Ret _ => ([line1; line2], (st', None))
          end
      end
  end.

(** A [try] statement all of whose handlers only print: an exception of
    the [print] of a handler leaves the statement. *)
Definition try_block (out : stdout) (b : block) (handler : exn -> list string)
  : io probe_state :=
  match b with
  | (lines, (st, None)) => (lines, Ret st)
  | (lines, (st, Some e)) =>
      let '(lines', r) := print_all out (handler e) in
      ((lines ++ lines')%list,
       match r with
       | Ret _ => Ret st
       | Raise e' => Raise e'
       end)
  end.

(** Steps 1 to 3, after [ram_gb] has been computed. *)
Definition probe (out : stdout) (w : world) (ram_gb : float) : io probe_state :=
  let st0 := mk_state "cpu" (S754_zero false) [] in
  (* 1. Check NVIDIA GPU *)
  st1 <- try_block out (cuda_block out w st0) cuda_handler ;;
  (* 2. Check Apple Silicon *)
  st2 <- (if is_zero (vram_gb st1)
          then try_block out (mps_block out w ram_gb st1) mps_handler
          else ret st1) ;;
  (* 3. Fallback to CPU *)
  if is_zero (vram_gb st2)
  then
    let vram := fmul ram_gb CPU_USABLE_MEMORY_RATIO in
    print out "* Backend: CPU Only (Not recommended for large models)" ;;
    print out (join ["* Estimated Usable Memory: "; format_fixed 2 vram; " GB"]) ;;
    ret (mk_state "cpu" vram (gpu_details st2))
  else ret st2.

Definition get_hardware_capacity (out : stdout) (w : world) : io capacity :=
  let system := platform_system w in
  total <- lift (virtual_memory_total w) ;;
  ram_gb <- lift (truediv_gib total) ;;
  print out (join ["### Hardware Audit: "; system; " ###"]) ;;
  print out (join ["* System RAM: "; format_fixed 2 ram_gb; " GB"]) ;;
  st <- probe out w ram_gb ;;
  ret (mk_capacity (vram_gb st) (device_type st) ram_gb system (gpu_details st)).

(** ** [recommend_models] *)

Definition recommend_models (out : stdout) (vram_gb : float) (device_type : string)
  : io (Z * list (string * string)) :=
  let max_params := max_params_of vram_gb in
  print out (nl ++ "### Feasible Local Deployment (4-bit Quantization) ###") ;;
  print out (join ["* Effective VRAM Cap: "; format_fixed 2 vram_gb; " GB"]) ;;
  shown <- lift (int max_params) ;;
  print out (join ["* Theoretical Max Parameter Count: ~"; str_of_int shown; "B"]) ;;
  print out (nl ++ "Recommended Models (4-bit Quantization):") ;;
  let models := tier_models (tier_of vram_gb) in
  print_all out (map (fun '(model_name, description) =>
                        join ["- "; model_name; ": "; description]) models) ;;
  (if device_type =? "cpu" then print_all out cpu_note else ret tt) ;;
  n <- lift (int max_params) ;;
  ret (n, models).

(** ** [main] *)

(** The two [except] clauses of [main]. *)
Definition main_handler (out : stdout) (e : exn) : io unit :=
  match exn_cls e with
  | OSError => print out (join [nl; "❌ Error saving report: "; exn_msg e])
  | _ => print out (join [nl; "❌ Unexpected error: "; exn_msg e])
  end.

Definition main (out : stdout) (w : world) (output_path : string) : io unit :=
  (* Get hardware information *)
  cap <- get_hardware_capacity out w ;;
  (* Get model recommendations *)
  '(max_params, models) <- recommend_models out (cap_vram_gb cap) (cap_device_type cap) ;;
  (* Generate HTML report *)
  let html_content :=
    generate_html_report (now_strftime w)
      (cap_system cap) (cap_ram_gb cap) (cap_device_type cap) (cap_vram_gb cap) max_params
      (match cap_gpu_details cap with [] => None | l => Some l end)
      (Some models) in
  (* Save report to file *)
  try_except
    (lift (path_write_text w output_path html_content) ;;
     shown <- lift (path_absolute w output_path) ;;
     print out (join [nl; "✅ HTML report generated: "; shown]) ;;
     print out "   Opening in browser..." ;;
     (* Open in default browser *)
     target <- lift (path_absolute w output_path) ;;
     lift (webbrowser_open w (join ["file://"; target])) ;;
     ret tt)
    (main_handler out).

(** The status with which [python ll_model_selection.py] ends: 0 when
    [main()] returns, 1 when an exception leaves it. *)
Definition exit_status (out : stdout) (w : world) : Z :=
  match result (main out w default_output_path) with
  | Ret _ => 0
  | Raise _ => 1
  end.

(** The report that the run hands to [write_text], if it gets that far. *)
Definition report_of (out : stdout) (w : world) : outcome string :=
  match result (get_hardware_capacity out w) with
  | Raise e => Raise e
  | Ret cap =>
      match result (recommend_models out (cap_vram_gb cap) (cap_device_type cap)) with
      | Raise e => Raise e
      | Ret (max_params, models) =>
          Ret (generate_html_report (now_strftime w)
                 (cap_system cap) (cap_ram_gb cap) (cap_device_type cap) (cap_vram_gb cap)
                 max_params
                 (match cap_gpu_details cap with [] => None | l => Some l end)
                 (Some models))
      end
  end.

End Console.

(* ================================================================== *)
(** * Binary floating point: values and rounding                       *)
(* ================================================================== *)

(** The value of a float is counted in units of [2^emin], the spacing of
    the subnormal numbers, which makes it an integer; the real numbers that
    the operations round are fractions [A / B] of such units. *)

Module Binary.
Import Py.

(** Number of binary digits of a natural number. *)
Definition dig (z : Z) : Z := if z =? 0 then 0 else Z.log2 z + 1.

(** Where a remainder [r] of a division by [b] lies in [[0, b)]. *)
Definition location_of (r b : Z) : location :=
  if r =? 0 then loc_Exact else loc_Inexact (2 * r ?= b).

(** [mrs] holds the quotient [A / B] and the position of the remainder. *)
Definition Loc (A B : Z) (mrs : shr_record) : Prop :=
  shr_m mrs = A / B /\ loc_of_shr_record mrs = location_of (A mod B) B.

(** The value of the infinities: the first power of two beyond the finite
    floats. *)
Definition omega (prec emax : Z) : Z := 2 ^ (emax - emin prec emax).

(** How many low bits a magnitude of [dig z] digits loses. *)
Definition shift_of (prec : Z) (z : Z) : Z := Z.max 0 (dig z - prec).

(** Round to nearest, ties to even, of the fraction [A / B]. *)
Definition rnd (prec : Z) (A B : Z) : Z :=
  let sh := shift_of prec (A / B) in rne_div A (B * 2 ^ sh) * 2 ^ sh.

(** The float of sign [s] and magnitude [z]. *)
Definition encode (prec emax : Z) (s : bool) (z : Z) : spec_float :=
  if z <=? 0 then S754_zero s
  else if omega prec emax <=? z then S754_infinity s
  else match z / 2 ^ shift_of prec z with
       | Zpos m => S754_finite s m (emin prec emax + shift_of prec z)
       | _ => S754_nan
       end.

(** The second half of [binary_round_aux], after the mantissa was rounded. *)
Definition finish (prec emax : Z) (s : bool) (M t : Z) : spec_float :=
  let '(mrs, e) := shr_fexp prec emax M t loc_Exact in
  match shr_m mrs with
  | Z0 => S754_zero s
  | Zpos m => if e <=? emax - prec then S754_finite s m e else S754_infinity s
  | _ => S754_nan
  end.

(** Magnitudes that a float can hold. *)
Definition on_grid (prec : Z) (z : Z) : Prop := z mod 2 ^ shift_of prec z = 0.

(** The value of a float, the infinities at [+- omega]. *)
Definition xval (prec emax : Z) (f : spec_float) : Z :=
  match f with
  | S754_finite s m e => cond_Zopp s (Zpos m * 2 ^ (e - emin prec emax))
  | S754_infinity s => cond_Zopp s (omega prec emax)
  | _ => 0
  end.

Definition is_nan (f : spec_float) : bool :=
  match f with S754_nan => true | _ => false end.

Definition is_finite (f : spec_float) : bool :=
  match f with S754_zero _ | S754_finite _ _ _ => true | _ => false end.

(** Signed rounding of the fraction [a / b], and saturation at the
    infinities. *)
Definition rndS (prec : Z) (a b : Z) : Z := Z.sgn a * rnd prec (Z.abs a) b.
Definition clamp (prec emax : Z) (z : Z) : Z :=
  Z.max (- omega prec emax) (Z.min (omega prec emax) z).

End Binary.

(* ================================================================== *)
(** * What the properties are stated with                              *)
(* ================================================================== *)

Module Float64.
Import Py.
Import Binary.

(** The value of a float in units of [2^-1074], the spacing of the
    subnormal numbers: an integer, with the infinities at [+- 2^2098]. *)
Definition units (f : float) : Z := xval prec emax f.

(** The value of a finite float as a rational number. *)
Definition value (f : float) : Q :=
  match f with
  | S754_finite s m e => (inject_Z (cond_Zopp s (Zpos m)) * 2 ^ e)%Q
  | _ => 0%Q
  end.

Definition infinity : Z := omega prec emax.

(** The float nearest to [a / b] units, ties to even, as the operations
    of binary64 round. *)
Definition round (a b : Z) : Z := clamp prec emax (rndS prec a b).

End Float64.

Module SelectionSpec.
Import Py.
Import Selection.
Import Float64.

(** [(vram_gb - CONTEXT_OVERHEAD_GB) / QUANT_4BIT_GB_PER_BILLION] *)
Definition quotient (vram_gb : float) : float :=
  fdiv (fsub vram_gb CONTEXT_OVERHEAD_GB) QUANT_4BIT_GB_PER_BILLION.

(** The same on values, in units of [2^-1074]: subtract 2.0 and round, then
    divide by 0.75 and round. *)
Definition quotient_units (z : Z) : Z :=
  round (round (z - 2 ^ 1075) 1 * 2 ^ 1074) (3 * 2 ^ 1072).

(** What [recommend_models] returns as [max_params], if it returns. *)
Definition max_params (vram_gb : float) : outcome Z := int (max_params_of vram_gb).

(** The exception raised by [int(float('inf'))]. *)
Definition overflow_error : exn :=
  mk_exn OverflowError "cannot convert float infinity to integer".

(** [2^1023], about [8.99e307]. *)
Definition memory_bound : float := of_dyadic 1 1023.

(** [2^51], about [2.25e15]: below it the quotient is exact enough for its
    integer part to be that of the exact quotient. *)
Definition exact_bound : float := of_dyadic 1 51.

(** The name shown for a tier. *)
Definition tier_label (t : tier_name) : string :=
  match t with
  | Enterprise => "Enterprise"
  | Professional => "Professional"
  | Advanced => "Advanced"
  | Standard => "Standard"
  | Entry => "Entry"
  end.

End SelectionSpec.

Module ReportSpec.
Import Py.
Import Report.
Import Selection.

Local Open Scope string_scope.

(** [needle] occurs in [hay]. *)
Definition contains (needle hay : string) : Prop :=
  exists before after, hay = before ++ needle ++ after.

(** The opening tag of the device section and of the warning panel. *)
Definition gpu_grid_tag : string := unq "<div class=`gpu-grid`>".
Definition warning_box_tag : string := unq "<div class=`warning-box`>".

(** The document with its two optional fields given: everything else is
    computed as in [generate_html_report]. *)
Definition document
  (timestamp system : string) (ram_gb : float) (device_type : string) (vram_gb : float)
  (max_params : Z) (recommended_models : option (list (string * string)))
  (device_field warning_field : string) : string :=
  let '(backend_name, backend_icon, backend_color) := backend_info device_type in
  let '(tier, tier_color) := tier_badge vram_gb in
  join (style_part tier_color backend_color
        ++ overview_part tier system (format_fixed 1 ram_gb) (format_fixed 1 vram_gb)
             (str_of_int max_params) backend_icon backend_name
        ++ [device_field]
        ++ models_part (build_models_html recommended_models)
        ++ [warning_field]
        ++ footer_part timestamp).

(** No character of [s] opens a tag. *)
Fixpoint plain (s : string) : bool :=
  match s with
  | EmptyString => true
  | String c r => negb (Ascii.eqb c "<") && plain r
  end.

(** [s] differs from [m] at a position that both have. *)
Fixpoint mismatch (m s : string) : bool :=
  match m, s with
  | String a m', String b s' => if Ascii.eqb a b then mismatch m' s' else true
  | _, _ => false
  end.

(** At no position of [s] does an occurrence of [m] start, whatever
    follows [s]. *)
Fixpoint clean (m s : string) : bool :=
  match s with
  | EmptyString => true
  | String _ s' => mismatch m s && clean m s'
  end.

(** The box of the overview that shows [value] under [label], up to the
    end of the value. *)
Definition stat_box (label value : string) : string :=
  (unq "<div class=`stat-label`>" ++ label ++ "</div>" ++ nl
   ++ "                    " ++ unq "<div class=`stat-value`>") ++ value.

Definition unit_GB : string := unq " <span class=`stat-unit`>GB</span></div>".

Definition plain_models (models : option (list (string * string))) : bool :=
  forallb (fun model => plain (fst model) && plain (snd model)) (items models).

Definition plain_gpus (gpus : option (list gpu_info)) : bool :=
  forallb (fun gpu => plain (gpu_name gpu)) (items gpus).

(** What [recommend_models] prints before the note for CPU inference. *)
Definition recommendation_lines (vram_gb : float) (shown : Z) : list string :=
  [nl ++ "### Feasible Local Deployment (4-bit Quantization) ###";
   join ["* Effective VRAM Cap: "; format_fixed 2 vram_gb; " GB"];
   join ["* Theoretical Max Parameter Count: ~"; str_of_int shown; "B"];
   nl ++ "Recommended Models (4-bit Quantization):"]
  ++ map (fun '(model_name, description) => join ["- "; model_name; ": "; description])
       (tier_models (tier_of vram_gb)).

End ReportSpec.

Module ProbeSpec.
Import Py.
Import Report.
Import Selection.
Import Binary.
Import Float64.

Local Open Scope string_scope.

(** [a / (1024 ** 3)]: the float nearest to [a / 2^30]. *)
Definition gib (a : N) : float := of_dyadic (Z.of_N a) (-30).

(** [vram_gb] after the loop over the devices: the sum from the left,
    starting from [0.0], each addition rounded. *)
Definition float_sum (l : list float) : float := fold_left fadd l (S754_zero false).

(** The entry of [gpu_details] for a device. *)
Definition gpu_of (p : device_properties) : gpu_info :=
  mk_gpu (name p) (gib (total_memory p)).

(** What the loop prints for device [i]. *)
Definition gpu_line (i : nat) (p : device_properties) : string :=
  join ["  - GPU "; str_of_int (Z.of_nat i); ": "; name p;
        " | "; format_fixed 2 (gib (total_memory p)); " GB VRAM"].

(** What the loop prints for the devices [start], [start + 1], ... *)
Definition gpu_lines (start : nat) (props : list device_properties) : list string :=
  map (fun '(i, p) => gpu_line i p) (combine (seq start (List.length props)) props).

(** The local variables before the first probe. *)
Definition initial : probe_state := mk_state "cpu" (S754_zero false) [].

(** The exception that ends the [try] block of step 1, if one does, and
    the one that ends the [try] block of step 2, if that step is run and an
    exception ends it. *)
Definition cuda_failure (w : world) : option exn := snd (snd (cuda_block w initial)).
Definition mps_failure (w : world) (ram_gb : float) : option exn :=
  let st1 := snd (try_block (cuda_block w initial) cuda_handler) in
  if is_zero (vram_gb st1) then snd (snd (mps_block w ram_gb st1)) else None.

(** The exception [e] is raised in step 1 before the memory of any device
    has been read: by [is_available()], by [device_count()], or by
    [get_device_properties(0)]. *)
Inductive fails_early (w : world) (e : exn) : Prop :=
| fails_is_available :
    cuda_is_available w = Raise e -> fails_early w e
| fails_device_count :
    cuda_is_available w = Ret true -> cuda_device_count w = Raise e -> fails_early w e
| fails_first_device n :
    cuda_is_available w = Ret true -> cuda_device_count w = Ret n -> 0 < n ->
    cuda_get_device_properties w 0 = Raise e -> fails_early w e.

(** The same machine with a backend reported as not available. *)
Definition without_cuda (w : world) : world :=
  mk_world (platform_system w) (virtual_memory_total w) (Ret false)
    (cuda_device_count w) (cuda_get_device_properties w) (mps_is_available w)
    (now_strftime w) (path_absolute w) (path_write_text w) (webbrowser_open w).

Definition without_mps (w : world) : world :=
  mk_world (platform_system w) (virtual_memory_total w) (cuda_is_available w)
    (cuda_device_count w) (cuda_get_device_properties w) (Ret false)
    (now_strftime w) (path_absolute w) (path_write_text w) (webbrowser_open w).


(** The memories of the devices, in GiB. *)
Definition device_gb (props : list device_properties) : list float :=
  map (fun p => gib (total_memory p)) props.


(** What a run prints when it falls back to the CPU, after the warnings
    [warnings] of the probes. *)
Definition cpu_console (w : world) (total : N) (warnings : list string) : list string :=
  [join ["### Hardware Audit: "; platform_system w; " ###"];
   join ["* System RAM: "; format_fixed 2 (gib total); " GB"]]
  ++ warnings
  ++ ["* Backend: CPU Only (Not recommended for large models)";
      join ["* Estimated Usable Memory: ";
            format_fixed 2 (fmul (gib total) CPU_USABLE_MEMORY_RATIO); " GB"]].

(** The warning that a failed query leaves on the console. *)
Definition warning_of (handler : exn -> list string) (query : outcome bool) : list string :=
  match query with
  | Raise e => handler e
  | Ret _ => []
  end.

(** A backend is detected when its [is_available()] returns [True]; it is
    not when the query returns [False] or raises. *)
Definition detected (query : outcome bool) : Prop := query = Ret true.

(** The sizes that the operating system and the driver report are C
    integers: byte counts below [2^64], a device count below [2^31]. *)
Definition native_sizes (w : world) : Prop :=
  (forall total, virtual_memory_total w = Ret total -> (total < 2 ^ 64)%N) /\
  (forall i p, cuda_get_device_properties w i = Ret p -> (total_memory p < 2 ^ 64)%N) /\
  (forall n, cuda_device_count w = Ret n -> n < 2 ^ 31).

(** A float that is a sum of at most [k] device memories. *)
Definition within (k : Z) (f : float) : Prop :=
  valid f = true /\ is_finite f = true /\ 0 <= units f <= k * 2 ^ 1108.

(** ** Machines to run the program on *)

Definition home (p : string) : outcome string := Ret ("/home/user/" ++ p).

(** A Linux machine on which files are written and the viewer opens. *)
Definition workstation (ram : outcome N) (cuda : outcome bool) (count : outcome Z)
  (device : nat -> outcome device_properties) (mps : outcome bool) : world :=
  mk_world "Linux" ram cuda count device mps "January 21, 2026 at 10:00 AM"
    home (fun _ _ => Ret tt) (fun _ => Ret true).

Definition GiB : N := (2 ^ 30)%N.

Definition no_device (i : nat) : outcome device_properties :=
  Raise (mk_exn RuntimeError "invalid device ordinal").

(** 16 GiB of RAM and no accelerator. *)
Definition cpu_machine : world :=
  workstation (Ret (16 * GiB)%N) (Ret false) (Ret 0) no_device (Ret false).

(** 64 GiB of RAM and two GPUs of 24 GiB. *)
Definition gpu_cards : list device_properties :=
  [mk_props "NVIDIA GeForce RTX 4090" (24 * GiB)%N;
   mk_props "NVIDIA GeForce RTX 4090" (24 * GiB)%N].

Definition gpu_machine : world :=
  workstation (Ret (64 * GiB)%N) (Ret true) (Ret 2)
    (fun i => match nth_error gpu_cards i with
              | Some p => Ret p
              | None => no_device i
              end)
    (Ret false).

(** 16 GiB of RAM and two GPUs, the second of which cannot be queried. *)
Definition cuda_error : exn := mk_exn RuntimeError "CUDA error: unknown error".

Definition faulty_gpu_machine : world :=
  workstation (Ret (16 * GiB)%N) (Ret true) (Ret 2)
    (fun i => match i with
              | O => Ret (mk_props "NVIDIA GeForce RTX 3070" (8 * GiB)%N)
              | _ => Raise cuda_error
              end)
    (Ret false).

(** 16 GiB of RAM and one device that reports no memory. *)
Definition zero_memory_machine : world :=
  workstation (Ret (16 * GiB)%N) (Ret true) (Ret 1)
    (fun i => match i with
              | O => Ret (mk_props "Virtual GPU" 0%N)
              | _ => no_device i
              end)
    (Ret false).

(** A machine on which [torch.cuda.is_available()] raises. *)
Definition broken_driver_machine : world :=
  workstation (Ret (16 * GiB)%N) (Raise cuda_error) (Ret 0) no_device (Ret false).

(** A machine on which [psutil] cannot read the memory counters. *)
Definition meminfo_error : exn :=
  mk_exn OSError "[Errno 13] Permission denied: '/proc/meminfo'".

Definition no_meminfo_machine : world :=
  workstation (Raise meminfo_error) (Ret false) (Ret 0) no_device (Ret false).

End ProbeSpec.

Module ConsoleSpec.
Import Py.
Import Report.
Import Selection.
Import Binary.
Import Float64.
Import SelectionSpec.
Import ReportSpec.
Import ProbeSpec.

Local Open Scope string_scope.

(** The console takes each of the lines. *)
Definition accepts (out : Console.stdout) (lines : list string) : Prop :=
  Forall (fun line => out line = Ret tt) lines.

(** The console takes every line: its encoding has every character. *)
Definition encodes_all (out : Console.stdout) : Prop :=
  forall line, out line = Ret tt.

(** A console with the UTF-8 encoding. *)
Definition utf8 : Console.stdout := fun _ => Ret tt.

(** A line of 7-bit characters. *)
Fixpoint is_ascii (s : string) : bool :=
  match s with
  | EmptyString => true
  | String c rest => (nat_of_ascii c <? 128)%nat && is_ascii rest
  end.

(** The first line of the note for CPU inference. *)
Definition note_line : string :=
  nl ++ "⚠️  Note: CPU inference will be significantly slower than GPU/MPS.".

(** [UnicodeEncodeError], a [ValueError], of the ASCII codec. *)
Definition codec_error (what : string) : exn :=
  mk_exn ValueError ("'ascii' codec can't encode " ++ what ++ ": ordinal not in range(128)").

(** The error of the ASCII codec for the lines of the program that are not
    ASCII: the note (a warning sign and its variation selector after the
    line feed), the announcement of the report and the messages of the
    handlers of [main] (one sign after the line feed).  For another line
    the position is left out. *)
Definition ascii_error (line : string) : exn :=
  if prefix (nl ++ "⚠") line then codec_error "characters in position 1-2"
  else if prefix (nl ++ "✅") line then codec_error "character '\u2705' in position 1"
  else if prefix (nl ++ "❌") line then codec_error "character '\u274c' in position 1"
  else codec_error "characters".

(** A console with the ASCII encoding. *)
Definition ascii_console : Console.stdout :=
  fun line => if is_ascii line then Ret tt else Raise (ascii_error line).

(** The two steps of [main] before the report is made. *)
Definition analysis (out : Console.stdout) (w : world) : io (Z * list (string * string)) :=
  (cap <- Console.get_hardware_capacity out w ;;
   Console.recommend_models out (cap_vram_gb cap) (cap_device_type cap))%io.

(** The [try] statement of [main]. *)
Definition saving (out : Console.stdout) (w : world) (output_path html_content : string)
  : io unit :=
  try_except
    (lift (path_write_text w output_path html_content) ;;
     shown <- lift (path_absolute w output_path) ;;
     Console.print out (join [nl; "✅ HTML report generated: "; shown]) ;;
     Console.print out "   Opening in browser..." ;;
     target <- lift (path_absolute w output_path) ;;
     lift (webbrowser_open w (join ["file://"; target])) ;;
     ret tt)%io
    (Console.main_handler out).

(** The line that announces the report, and the line of the last handler
    of [main] for the exception [e]. *)
Definition announcement (shown : string) : string :=
  join [nl; "✅ HTML report generated: "; shown].

Definition unexpected_error (e : exn) : string :=
  join [nl; "❌ Unexpected error: "; exn_msg e].

End ConsoleSpec.

Module CoverageSpec.
Import Py.
Import Report.
Import Selection.
Import Binary.
Import Float64.
Import SelectionSpec.
Import ReportSpec.
Import ProbeSpec.
Import ConsoleSpec.

Local Open Scope string_scope.

(** The tiers from the smallest to the largest. *)
Definition tier_rank (t : tier_name) : nat :=
  match t with
  | Entry => 0
  | Standard => 1
  | Advanced => 2
  | Professional => 3
  | Enterprise => 4
  end.




(** The values between which [max_params] lies in a tier; [None] for no
    upper bound. *)
Definition params_range (t : tier_name) : Z * option Z :=
  match t with
  | Entry => (2, Some 7)
  | Standard => (8, Some 18)
  | Advanced => (18, Some 29)
  | Professional => (29, Some 61)
  | Enterprise => (61, None)
  end.

Definition in_range (n : Z) (r : Z * option Z) : Prop :=
  fst r <= n /\ match snd r with Some hi => n <= hi | None => True end.

(** What a run prints when it settles on the unified memory, after the
    warning [warnings] of step 1. *)
Definition mps_console (w : world) (total : N) (warnings : list string) : list string :=
  [join ["### Hardware Audit: "; platform_system w; " ###"];
   join ["* System RAM: "; format_fixed 2 (gib total); " GB"]]
  ++ warnings
  ++ ["* Backend: Apple Metal Performance Shaders (MPS)";
      join ["* Unified Memory: "; format_fixed 2 (gib total);
            " GB (Est. Usable for AI: ";
            format_fixed 2 (fmul (gib total) MPS_USABLE_MEMORY_RATIO); " GB)"]].

(** [vram_gb] is the sum of the memories listed in [gpu_details]. *)
Definition consistent (st : probe_state) : Prop :=
  vram_gb st = float_sum (map gpu_vram (gpu_details st)).

(** How a result of [get_hardware_capacity] hangs together. *)
Definition settled (cap : capacity) : Prop :=
  (cap_device_type cap = "cuda" /\
   cap_gpu_details cap <> [] /\
   cap_vram_gb cap = float_sum (map gpu_vram (cap_gpu_details cap)) /\
   is_zero (cap_vram_gb cap) = false) \/
  (cap_device_type cap = "mps" /\
   cap_vram_gb cap = fmul (cap_ram_gb cap) MPS_USABLE_MEMORY_RATIO /\
   is_zero (cap_vram_gb cap) = false /\
   is_zero (float_sum (map gpu_vram (cap_gpu_details cap))) = true) \/
  (cap_device_type cap = "cpu" /\
   cap_vram_gb cap = fmul (cap_ram_gb cap) CPU_USABLE_MEMORY_RATIO /\
   is_zero (float_sum (map gpu_vram (cap_gpu_details cap))) = true).

(** The exception [e] is raised in step 1 by [get_device_properties] once
    the devices [props], one at least, have been read. *)
Definition fails_after (w : world) (props : list device_properties) (e : exn) : Prop :=
  cuda_is_available w = Ret true /\
  (exists n, cuda_device_count w = Ret n /\ Z.of_nat (List.length props) < n) /\
  props <> [] /\
  (forall i p, nth_error props i = Some p -> cuda_get_device_properties w i = Ret p) /\
  cuda_get_device_properties w (List.length props) = Raise e.

(** Every device reports no memory. *)
Definition no_memory (props : list device_properties) : Prop :=
  forall p, In p props -> total_memory p = 0%N.

(** What [main] prints before it writes the report: the output of
    [get_hardware_capacity] and of [recommend_models]. *)
Definition analysis_console (w : world) : list string :=
  console (cap <- get_hardware_capacity w ;;
           recommend_models (cap_vram_gb cap) (cap_device_type cap))%io.

(** The two lines printed once the report has been written. *)
Definition saved_lines (shown : string) : list string :=
  [join [nl; "✅ HTML report generated: "; shown]; "   Opening in browser..."].

(** A machine without a viewer. *)
Definition no_viewer : exn := mk_exn OSError "could not locate runnable browser".

Definition headless_machine : world :=
  mk_world "Linux" (Ret (16 * GiB)%N) (Ret false) (Ret 0) no_device (Ret false)
    "January 21, 2026 at 10:00 AM" home (fun _ _ => Ret tt) (fun _ => Raise no_viewer).

(** [<div class="cls">] and [<div class="cls">body</div>]. *)
Definition open_div (cls : string) : string :=
  "<div class=" ++ String dq cls ++ String dq ">".

Definition div (cls body : string) : string :=
  open_div cls ++ body ++ "</div>".

Definition unit_B : string := unq " <span class=`stat-unit`>B</span></div>".

Definition starts_with (p s : string) : Prop := exists rest, s = p ++ rest.
Definition ends_with (p s : string) : Prop := exists before, s = before ++ p.

(** The three values that [backend_info.get] returns for a device type. *)
Definition backend_name (device_type : string) : string :=
  fst (fst (backend_info device_type)).
Definition backend_icon (device_type : string) : string :=
  snd (fst (backend_info device_type)).

(** The document as the list of its literal texts and replacement fields. *)
Definition segments (ts sys : string) (ram : float) (dev : string) (vram : float)
  (mp : Z) (gpus : option (list gpu_info)) (models : option (list (string * string)))
  : list string :=
  (style_part (snd (tier_badge vram)) (snd (backend_info dev))
   ++ overview_part (fst (tier_badge vram)) sys (format_fixed 1 ram) (format_fixed 1 vram)
        (str_of_int mp) (backend_icon dev) (backend_name dev)
   ++ [gpu_section (build_gpu_html gpus)]
   ++ models_part (build_models_html models)
   ++ [warning_section dev]
   ++ footer_part ts)%list.

(** A whole device section, as text. *)
Definition device_section_text : string :=
  gpu_section (build_gpu_html (Some [mk_gpu "NVIDIA GeForce RTX 4090" (of_int 24)])).

(** The line that step 1 prints once it has found CUDA. *)
Definition cuda_found_line (gpu_count : Z) : string :=
  join ["* Backend: NVIDIA CUDA ("; str_of_int gpu_count; " devices)"].

(** A MacBook: 32 GiB of unified memory, no CUDA. *)
Definition mac_machine : world :=
  mk_world "Darwin" (Ret (32 * GiB)%N) (Ret false) (Ret 0) no_device (Ret true)
    "January 21, 2026 at 10:00 AM" home (fun _ _ => Ret tt) (fun _ => Ret true).

End CoverageSpec.

(* ================================================================== *)
(** * Facts about binary floating point                                *)
(* ================================================================== *)

Module BinaryFacts.
Import Py.
Import Binary.

(** ** Digits and rounding of fractions *)

Lemma digits2_pos_log2 p : Zpos (digits2_pos p) = Z.log2 (Zpos p) + 1.
Proof.
  induction p as [p IH|p IH|]; simpl digits2_pos; try reflexivity.
  - rewrite Pos2Z.inj_succ, IH.
    change (Zpos p~1) with (2 * Zpos p + 1).
    rewrite Z.log2_succ_double by lia. lia.
  - rewrite Pos2Z.inj_succ, IH.
    change (Zpos p~0) with (2 * Zpos p).
    rewrite Z.log2_double by lia. lia.
Qed.

Lemma Zdigits2_dig z : 0 <= z -> Zdigits2 z = dig z.
Proof.
  intros Hz. unfold Binary.dig. destruct z as [|p|p]; simpl; try lia.
  apply digits2_pos_log2.
Qed.

Lemma dig_0 : dig 0 = 0.
Proof. reflexivity. Qed.

Lemma dig_pos z : 0 < z -> dig z = Z.log2 z + 1.
Proof. intros H. unfold Binary.dig. destruct (Z.eqb_spec z 0); lia. Qed.

Lemma dig_nonneg z : 0 <= dig z.
Proof. unfold Binary.dig. destruct (z =? 0); [lia|]. pose proof (Z.log2_nonneg z). lia. Qed.

Lemma dig_bounds z : 0 < z -> 2 ^ (dig z - 1) <= z < 2 ^ dig z.
Proof.
  intros H. rewrite dig_pos by assumption.
  replace (Z.log2 z + 1 - 1) with (Z.log2 z) by lia.
  apply Z.log2_spec; assumption.
Qed.

Lemma dig_unique z k : 0 < k -> 2 ^ (k - 1) <= z < 2 ^ k -> dig z = k.
Proof.
  intros Hk [H1 H2].
  assert (0 < z) by (pose proof (Z.pow_pos_nonneg 2 (k - 1)); lia).
  rewrite dig_pos by assumption.
  rewrite (Z.log2_unique z (k - 1)); try lia.
  replace (Z.succ (k - 1)) with k by lia. lia.
Qed.

Lemma dig_le z k : 0 <= z -> 0 <= k -> (z < 2 ^ k <-> dig z <= k).
Proof.
  intros Hz Hk. destruct (Z.eq_dec z 0) as [->|Hn].
  - rewrite dig_0. pose proof (Z.pow_pos_nonneg 2 k). lia.
  - rewrite dig_pos by lia. rewrite Z.log2_lt_pow2 by lia. lia.
Qed.

Lemma dig_mono a b : 0 <= a <= b -> dig a <= dig b.
Proof.
  intros [Ha Hab]. destruct (Z.eq_dec a 0) as [->|Hn].
  - rewrite dig_0. apply dig_nonneg.
  - rewrite !dig_pos by lia. pose proof (Z.log2_le_mono a b Hab). lia.
Qed.

Lemma dig_mul_pow2 z k : 0 < z -> 0 <= k -> dig (z * 2 ^ k) = dig z + k.
Proof.
  intros Hz Hk.
  assert (0 < z * 2 ^ k) by (pose proof (Z.pow_pos_nonneg 2 k); nia).
  rewrite !dig_pos by lia.
  rewrite Z.log2_mul_pow2 by lia. lia.
Qed.

Lemma dig_div_pow2 z k : 0 <= z -> 0 <= k -> dig (z / 2 ^ k) = Z.max 0 (dig z - k).
Proof.
  intros Hz Hk. destruct (Z.eq_dec z 0) as [->|Hn].
  - rewrite Z.div_0_l by (pose proof (Z.pow_pos_nonneg 2 k); lia). rewrite dig_0. lia.
  - rewrite <- Z.shiftr_div_pow2 by lia.
    destruct (Z.eq_dec (Z.shiftr z k) 0) as [E|E].
    + rewrite E, dig_0. rewrite Z.shiftr_div_pow2 in E by lia.
      assert (z < 2 ^ k).
      { apply Z.div_small_iff in E; [|pose proof (Z.pow_pos_nonneg 2 k); lia]. lia. }
      apply dig_le in H; lia.
    + assert (0 <= Z.shiftr z k) by (apply Z.shiftr_nonneg; lia).
      rewrite (dig_pos (Z.shiftr z k)) by lia.
      rewrite Z.log2_shiftr by lia.
      rewrite dig_pos by lia.
      assert (k <= Z.log2 z).
      { rewrite Z.shiftr_div_pow2 in E by lia.
        apply Z.log2_le_pow2; [lia|].
        destruct (Z.le_gt_cases (2 ^ k) z); [assumption|].
        exfalso. apply E. apply Z.div_small. lia. }
      lia.
Qed.

(** rne_div *)
Lemma rne_div_spec a b : 0 < b ->
  let R := rne_div a b in
  (2 * a - b < 2 * b * R < 2 * a + b) \/
  ((2 * b * R = 2 * a - b \/ 2 * b * R = 2 * a + b) /\ Z.even R = true).
Proof.
  intros Hb R. subst R. unfold rne_div.
  pose proof (Z.div_mod a b ltac:(lia)) as E.
  pose proof (Z.mod_pos_bound a b Hb) as Hr.
  set (q := a / b) in *. set (r := a mod b) in *.
  destruct (Z.compare_spec (2 * r) b) as [C|C|C].
  - right. destruct (Z.even q) eqn:Ev.
    + split; [left; nia | assumption].
    + split; [right; nia |]. rewrite Z.even_add, Ev. reflexivity.
  - left. nia.
  - left. nia.
Qed.

Lemma even_succ_false a : Z.even a = true -> Z.even (a + 1) = true -> False.
Proof.
  intros H1 H2. rewrite Z.even_add in H2. rewrite H1 in H2. discriminate.
Qed.

Lemma rne_div_mono a1 b1 a2 b2 : 0 < b1 -> 0 < b2 ->
  a1 * b2 <= a2 * b1 -> rne_div a1 b1 <= rne_div a2 b2.
Proof.
  intros Hb1 Hb2 H.
  pose proof (rne_div_spec a1 b1 Hb1) as S1.
  pose proof (rne_div_spec a2 b2 Hb2) as S2. cbv zeta in S1, S2.
  set (R1 := rne_div a1 b1) in *. set (R2 := rne_div a2 b2) in *.
  destruct (Z.le_gt_cases R1 R2) as [|G]; [assumption|exfalso].
  assert (R2 + 1 <= R1) as G' by lia.
  assert (2 * b1 * b2 * (R2 + 1) <= 2 * b1 * b2 * R1) as K by nia.
  destruct S1 as [S1|[S1 E1]]; destruct S2 as [S2|[S2 E2]].
  - nia.
  - destruct S2; nia.
  - destruct S1; nia.
  - destruct S1 as [S1|S1]; destruct S2 as [S2|S2]; try nia.
    assert (R1 = R2 + 1) by nia. subst R1.
    rewrite H0 in E1. eapply even_succ_false; eauto.
Qed.

Lemma rne_div_exact k b : 0 < b -> rne_div (k * b) b = k.
Proof.
  intros Hb. unfold rne_div.
  rewrite Z.mod_mul by lia. rewrite Z.div_mul by lia.
  change (2 * 0) with 0. destruct (Z.compare_spec 0 b); try lia.
Qed.

Lemma rne_div_ratio a1 b1 a2 b2 : 0 < b1 -> 0 < b2 ->
  a1 * b2 = a2 * b1 -> rne_div a1 b1 = rne_div a2 b2.
Proof.
  intros. apply Z.le_antisymm; apply rne_div_mono; lia.
Qed.

Lemma rne_div_nonneg a b : 0 <= a -> 0 < b -> 0 <= rne_div a b.
Proof.
  intros Ha Hb. rewrite <- (rne_div_exact 0 b Hb). apply rne_div_mono; lia.
Qed.

Lemma rne_div_floor a b : 0 < b -> a / b <= rne_div a b <= a / b + 1.
Proof.
  intros Hb. unfold rne_div.
  destruct (2 * (a mod b) ?= b); [destruct (Z.even (a / b))|..]; lia.
Qed.

(** ** Shifting right with a round bit and a sticky bit *)

Lemma Loc_of_loc A B : Loc A B (shr_record_of_loc (A / B) (location_of (A mod B) B)).
Proof.
  split.
  - destruct (location_of (A mod B) B) as [|[ | | ]]; reflexivity.
  - destruct (location_of (A mod B) B) as [|[ | | ]]; reflexivity.
Qed.

Lemma shr_1_nonneg mrs : 0 <= shr_m mrs ->
  shr_1 mrs = Build_shr_record (shr_m mrs / 2) (Z.odd (shr_m mrs)) (shr_r mrs || shr_s mrs).
Proof.
  destruct mrs as [m r s]. simpl. intros Hm.
  rewrite <- Z.div2_div.
  destruct m as [|[p|p|]|p]; try lia; reflexivity.
Qed.

Lemma mod_double A B : 0 < B ->
  A mod (2 * B) = (A / B) mod 2 * B + A mod B.
Proof.
  intros HB.
  pose proof (Z.div_mod A B ltac:(lia)).
  pose proof (Z.mod_pos_bound A B HB).
  pose proof (Z.div_mod (A / B) 2 ltac:(lia)).
  pose proof (Z.mod_pos_bound (A / B) 2 ltac:(lia)).
  symmetry. apply (Z.mod_unique A (2 * B) (A / B / 2)); nia.
Qed.

Lemma div_double A B : 0 < B -> A / (2 * B) = A / B / 2.
Proof.
  intros HB. rewrite Z.mul_comm. symmetry. apply Z.div_div; lia.
Qed.

Lemma shr_1_Loc A B mrs : 0 <= A -> 0 < B -> Loc A B mrs -> Loc A (2 * B) (shr_1 mrs).
Proof.
  intros HA HB [Hm Hl].
  assert (0 <= A / B) by (apply Z.div_pos; lia).
  rewrite shr_1_nonneg by lia.
  pose proof (Z.mod_pos_bound A B HB) as Hr.
  split.
  - cbn [shr_m]. rewrite Hm. symmetry. apply div_double; assumption.
  - rewrite mod_double by assumption. rewrite Hm.
    rewrite Zmod_odd.
    destruct mrs as [m r s]. cbn [shr_m shr_r shr_s loc_of_shr_record] in *. subst m.
    unfold Binary.location_of in *.
    destruct (Z.odd (A / B)).
    + destruct (Z.eqb_spec (A mod B) 0) as [E|E].
      * rewrite E. replace (1 * B + 0 =? 0) with false by (symmetry; apply Z.eqb_neq; lia).
        replace (2 * (1 * B + 0) ?= 2 * B) with Eq by (symmetry; apply Z.compare_eq_iff; lia).
        destruct r, s; try discriminate. reflexivity.
      * replace (1 * B + A mod B =? 0) with false by (symmetry; apply Z.eqb_neq; lia).
        replace (2 * (1 * B + A mod B) ?= 2 * B) with Gt
          by (symmetry; apply Z.compare_gt_iff; lia).
        destruct r, s; try discriminate; reflexivity.
    + replace (0 * B + A mod B) with (A mod B) by lia.
      destruct (Z.eqb_spec (A mod B) 0) as [E|E].
      * destruct r, s; try discriminate. reflexivity.
      * replace (2 * (A mod B) ?= 2 * B) with Lt
          by (symmetry; apply Z.compare_lt_iff; lia).
        destruct r, s; try discriminate; reflexivity.
Qed.

Lemma iter_pos_shr_1_Loc A p : 0 <= A -> forall B mrs, 0 < B -> Loc A B mrs ->
  Loc A (B * 2 ^ Zpos p) (iter_pos shr_1 p mrs).
Proof.
  intros HA. induction p as [p IH|p IH|]; intros B mrs HB HL; simpl iter_pos.
  - assert (0 < 2 ^ Zpos p) by (apply Z.pow_pos_nonneg; lia).
    replace (B * 2 ^ Zpos p~1) with (2 * B * 2 ^ Zpos p * 2 ^ Zpos p).
    + apply IH; [nia|]. apply IH; [lia|]. apply shr_1_Loc; assumption.
    + replace (Zpos p~1) with (1 + Zpos p + Zpos p) by lia.
      rewrite !Z.pow_add_r by lia. rewrite Z.pow_1_r. ring.
  - assert (0 < 2 ^ Zpos p) by (apply Z.pow_pos_nonneg; lia).
    replace (B * 2 ^ Zpos p~0) with (B * 2 ^ Zpos p * 2 ^ Zpos p).
    + apply IH; [nia|]. apply IH; [lia|]. assumption.
    + replace (Zpos p~0) with (Zpos p + Zpos p) by lia.
      rewrite !Z.pow_add_r by lia. ring.
  - change (2 ^ 1) with 2. rewrite Z.mul_comm. apply shr_1_Loc; assumption.
Qed.

Lemma shr_Loc A B mrs e n : 0 <= A -> 0 < B -> 0 <= n -> Loc A B mrs ->
  Loc A (B * 2 ^ n) (fst (shr mrs e n)) /\ snd (shr mrs e n) = e + n.
Proof.
  intros HA HB Hn HL. unfold shr. destruct n as [|p|p]; try lia; simpl fst; simpl snd.
  - rewrite Z.mul_1_r. split; [assumption|lia].
  - split; [|reflexivity]. apply iter_pos_shr_1_Loc; assumption.
Qed.

Lemma round_Loc A B mrs : 0 < B -> Loc A B mrs ->
  round_nearest_even (shr_m mrs) (loc_of_shr_record mrs) = rne_div A B.
Proof.
  intros HB [Hm Hl]. rewrite Hm, Hl. unfold Binary.location_of, rne_div, round_nearest_even.
  pose proof (Z.mod_pos_bound A B HB).
  destruct (Z.eqb_spec (A mod B) 0) as [E|E].
  - rewrite E. replace (2 * 0 ?= B) with Lt by (symmetry; apply Z.compare_lt_iff; lia).
    reflexivity.
  - destruct (2 * (A mod B) ?= B); reflexivity.
Qed.

(** ** The operations of a format *)

Section Format.
Variables prec emax : Z.
Hypothesis Hprec : 0 < prec.
Hypothesis Hemax : prec < emax.

#[local] Set Default Proof Using "Hprec Hemax".

Local Abbreviation emin := (SpecFloat.emin prec emax).
Local Abbreviation fexp := (SpecFloat.fexp prec emax).
Local Abbreviation valid := (valid_binary prec emax).
Local Abbreviation omega := (Binary.omega prec emax).
Local Abbreviation shift_of := (Binary.shift_of prec).
Local Abbreviation rnd := (Binary.rnd prec).
Local Abbreviation encode := (Binary.encode prec emax).
Local Abbreviation finish := (Binary.finish prec emax).
Local Abbreviation on_grid := (Binary.on_grid prec).
Local Abbreviation xval := (Binary.xval prec emax).
Local Abbreviation rndS := (Binary.rndS prec).
Local Abbreviation clamp := (Binary.clamp prec emax).

Lemma fexp_eq k : fexp k = Z.max (k - prec) emin.
Proof. reflexivity. Qed.

Lemma emin_eq : emin = 3 - emax - prec.
Proof. reflexivity. Qed.

Lemma binary_round_aux_finish s A B e :
  0 <= A -> 0 < B -> e <= fexp (dig (A / B) + e) ->
  binary_round_aux prec emax s (A / B) e (location_of (A mod B) B)
  = finish s (rne_div A (B * 2 ^ (fexp (dig (A / B) + e) - e))) (fexp (dig (A / B) + e)).
Proof.
  intros HA HB Hn.
  assert (0 <= A / B) as Hm by (apply Z.div_pos; lia).
  unfold binary_round_aux, Binary.finish.
  unfold shr_fexp at 1. rewrite Zdigits2_dig by assumption.
  set (t := fexp (dig (A / B) + e)) in *.
  destruct (shr_Loc A B (shr_record_of_loc (A / B) (location_of (A mod B) B)) e (t - e))
    as [HL He]; try lia.
  { apply Loc_of_loc. }
  destruct (shr (shr_record_of_loc (A / B) (location_of (A mod B) B)) e (t - e)) as [mrs' e'].
  cbn [fst snd] in HL, He. subst e'.
  assert (0 < B * 2 ^ (t - e)) as HB'.
  { pose proof (Z.pow_pos_nonneg 2 (t - e)). nia. }
  rewrite (round_Loc A _ mrs' HB' HL).
  replace (e + (t - e)) with t by lia. reflexivity.
Qed.

Lemma finish_encode s M t :
  emin <= t -> 0 <= M <= 2 ^ prec -> (emin < t -> 2 ^ (prec - 1) <= M) ->
  finish s M t = encode s (M * 2 ^ (t - emin)).
Proof.
  intros Ht [HM0 HM1] HMt.
  assert (0 < 2 ^ (t - emin)) as Hp by (apply Z.pow_pos_nonneg; lia).
  unfold Binary.finish, shr_fexp. rewrite Zdigits2_dig by assumption. rewrite fexp_eq.
  unfold Binary.encode.
  destruct (Z.eq_dec M 0) as [->|HMn].
  - (* zero *)
    rewrite dig_0. simpl Z.mul.
    assert (t = emin) as -> by (destruct (Z.eq_dec t emin); [assumption|];
      assert (0 < 2 ^ (prec - 1)) by (apply Z.pow_pos_nonneg; lia); lia).
    replace (Z.max (0 + emin - prec) emin - emin) with 0 by lia.
    reflexivity.
  - assert (0 < M) as HMp by lia.
    assert (0 < M * 2 ^ (t - emin)) as Hz by nia.
    replace (M * 2 ^ (t - emin) <=? 0) with false by (symmetry; apply Z.leb_gt; lia).
    assert (dig (M * 2 ^ (t - emin)) = dig M + (t - emin)) as Hdz
      by (apply dig_mul_pow2; lia).
    destruct (Z.eq_dec M (2 ^ prec)) as [->|HMlt].
    + (* carry *)
      assert (dig (2 ^ prec) = prec + 1) as Hd.
      { apply dig_unique; [lia|]. replace (prec + 1 - 1) with prec by lia.
        split; [lia|]. apply Z.pow_lt_mono_r; lia. }
      rewrite Hd in *.
      replace (Z.max (prec + 1 + t - prec) emin - t) with 1 by lia.
      unfold shr. cbn [iter_pos]. rewrite shr_1_nonneg by (cbn [shr_record_of_loc shr_m]; lia).
      cbn [shr_record_of_loc shr_m shr_r shr_s].
      assert (2 ^ prec / 2 = 2 ^ (prec - 1)) as Hhalf.
      { replace prec with (1 + (prec - 1)) at 1 by lia.
        rewrite Z.pow_add_r by lia. rewrite Z.pow_1_r, Z.mul_comm.
        apply Z.div_mul. lia. }
      rewrite Hhalf.
      assert (0 < 2 ^ (prec - 1)) as Hpp by (apply Z.pow_pos_nonneg; lia).
      unfold Binary.shift_of. rewrite Hdz.
      replace (Z.max 0 (prec + 1 + (t - emin) - prec)) with (t - emin + 1) by lia.
      assert (2 ^ prec * 2 ^ (t - emin) / 2 ^ (t - emin + 1) = 2 ^ (prec - 1)) as Hq.
      { rewrite <- Z.pow_add_r by lia.
        replace (prec + (t - emin)) with ((prec - 1) + (t - emin + 1)) by lia.
        rewrite Z.pow_add_r by lia. apply Z.div_mul.
        pose proof (Z.pow_pos_nonneg 2 (t - emin + 1)). lia. }
      rewrite Hq.
      replace (emin + (t - emin + 1)) with (t + 1) by lia.
      assert ((omega <=? 2 ^ prec * 2 ^ (t - emin)) = negb (t + 1 <=? emax - prec)) as Hov.
      { unfold Binary.omega. rewrite <- Z.pow_add_r by lia.
        destruct (Z.leb_spec (t + 1) (emax - prec)); simpl.
        - apply Z.leb_gt. apply Z.pow_lt_mono_r; lia.
        - apply Z.leb_le. apply Z.pow_le_mono_r; lia. }
      rewrite Hov.
      destruct (2 ^ (prec - 1)) eqn:E; try lia.
      destruct (t + 1 <=? emax - prec); reflexivity.
    + (* no carry *)
      assert (M < 2 ^ prec) as HMlt' by lia.
      assert (dig M <= prec) as Hd by (apply dig_le; lia).
      assert (emin < t -> dig M = prec) as Hdn.
      { intros Hlt. apply dig_unique; [lia|]. split; [apply HMt; assumption|lia]. }
      assert (Z.max (dig M + t - prec) emin - t <= 0) as Hn2 by lia.
      assert ((omega <=? M * 2 ^ (t - emin)) = negb (t <=? emax - prec)) as Hov.
      { unfold Binary.omega. destruct (Z.leb_spec t (emax - prec)); simpl.
        - apply Z.leb_gt. apply dig_le; [lia|lia|]. rewrite Hdz. rewrite emin_eq in *. lia.
        - apply Z.leb_le.
          assert (dig M = prec) by (apply Hdn; rewrite emin_eq in *; lia).
          destruct (Z.le_gt_cases (2 ^ (emax - emin)) (M * 2 ^ (t - emin))) as [|G];
            [assumption|].
          apply dig_le in G; [|lia|rewrite emin_eq in *; lia]. rewrite Hdz in G. lia. }
      rewrite Hov.
      unfold Binary.shift_of. rewrite Hdz.
      replace (Z.max 0 (dig M + (t - emin) - prec)) with (t - emin) by lia.
      rewrite Z.div_mul by lia.
      replace (emin + (t - emin)) with t by lia.
      unfold shr.
      destruct (Z.max (dig M + t - prec) emin - t) eqn:En2; try lia;
      cbn [shr_record_of_loc shr_m];
      destruct M; try lia;
      destruct (t <=? emax - prec); reflexivity.
Qed.

Lemma div_le_cross a1 b1 a2 b2 : 0 < b1 -> 0 < b2 ->
  a1 * b2 <= a2 * b1 -> a1 / b1 <= a2 / b2.
Proof.
  intros H1 H2 H.
  pose proof (Z.div_mod a1 b1 ltac:(lia)). pose proof (Z.mod_pos_bound a1 b1 H1).
  pose proof (Z.div_mod a2 b2 ltac:(lia)). pose proof (Z.mod_pos_bound a2 b2 H2).
  destruct (Z.le_gt_cases (a1 / b1) (a2 / b2)) as [|G]; [assumption|exfalso].
  assert (a2 / b2 + 1 <= a1 / b1) by lia.
  assert (b1 * b2 * (a2 / b2 + 1) <= b1 * b2 * (a1 / b1)) by nia.
  nia.
Qed.

Lemma div_ratio a1 b1 a2 b2 : 0 < b1 -> 0 < b2 ->
  a1 * b2 = a2 * b1 -> a1 / b1 = a2 / b2.
Proof. intros. apply Z.le_antisymm; apply div_le_cross; lia. Qed.

Lemma dig_scaled_div A B k : 0 <= A -> 0 < B -> 0 <= k -> 0 < A / B ->
  dig (A * 2 ^ k / B) = dig (A / B) + k.
Proof.
  intros HA HB Hk Hm.
  pose proof (dig_bounds _ Hm) as [D1 D2].
  pose proof (Z.div_mod A B ltac:(lia)). pose proof (Z.mod_pos_bound A B HB).
  assert (0 < 2 ^ k) by (apply Z.pow_pos_nonneg; lia).
  pose proof (dig_nonneg (A / B)).
  assert (0 < dig (A / B)).
  { rewrite dig_pos by assumption. pose proof (Z.log2_nonneg (A / B)). lia. }
  apply dig_unique; [lia|].
  replace (dig (A / B) + k - 1) with (dig (A / B) - 1 + k) by lia.
  rewrite !Z.pow_add_r by lia.
  assert (B * 2 ^ (dig (A / B) - 1) <= A) by nia.
  assert (A < B * 2 ^ dig (A / B)) by nia.
  split.
  - apply Z.div_le_lower_bound; [lia|]. nia.
  - apply Z.div_lt_upper_bound; [lia|]. nia.
Qed.

Lemma binary_round_aux_rnd s A B e A' B' :
  0 <= A -> 0 < B -> 0 <= A' -> 0 < B' ->
  e <= fexp (dig (A / B) + e) ->
  A * 2 ^ Z.max 0 (e - emin) * B' = A' * B * 2 ^ Z.max 0 (emin - e) ->
  binary_round_aux prec emax s (A / B) e (location_of (A mod B) B) = encode s (rnd A' B').
Proof.
  intros HA HB HA' HB' Hn Hval.
  rewrite binary_round_aux_finish by assumption.
  set (m := A / B) in *. set (t := fexp (dig m + e)) in *.
  assert (0 <= m) as Hm by (apply Z.div_pos; lia).
  assert (t = Z.max (dig m + e - prec) emin) as Ht by reflexivity.
  assert (0 < 2 ^ (t - e)) as Hpn by (apply Z.pow_pos_nonneg; lia).
  assert (0 < B * 2 ^ (t - e)) as HBn by nia.
  set (M := rne_div A (B * 2 ^ (t - e))).
  assert (A / (B * 2 ^ (t - e)) = m / 2 ^ (t - e)) as Hm'.
  { unfold m. symmetry. apply Z.div_div; lia. }
  pose proof (rne_div_floor A (B * 2 ^ (t - e)) HBn) as HMf. fold M in HMf. rewrite Hm' in HMf.
  pose proof (dig_div_pow2 m (t - e) Hm ltac:(lia)) as Hdm'.
  assert (0 <= m / 2 ^ (t - e)) as Hm'0 by (apply Z.div_pos; lia).
  assert (m / 2 ^ (t - e) < 2 ^ prec) as Hm'1 by (apply dig_le; lia).
  rewrite finish_encode; try lia.
  2:{ intros Hlt. assert (dig (m / 2 ^ (t - e)) = prec) as Hd by lia.
      assert (0 < m / 2 ^ (t - e)) as Hpos.
      { destruct (Z.eq_dec (m / 2 ^ (t - e)) 0) as [E|E]; [|lia].
        rewrite E, dig_0 in Hd. lia. }
      pose proof (dig_bounds _ Hpos) as [D1 _]. rewrite Hd in D1. lia. }
  f_equal. unfold Binary.rnd.
  assert (0 < 2 ^ Z.max 0 (e - emin)) by (apply Z.pow_pos_nonneg; lia).
  assert (0 < 2 ^ Z.max 0 (emin - e)) by (apply Z.pow_pos_nonneg; lia).
  assert (shift_of (A' / B') = t - emin) as Hsh.
  { unfold Binary.shift_of.
    destruct (Z.le_gt_cases emin e) as [Hle|Hgt].
    - replace (Z.max 0 (emin - e)) with 0 in * by lia.
      replace (Z.max 0 (e - emin)) with (e - emin) in * by lia.
      rewrite Z.pow_0_r, Z.mul_1_r in Hval.
      rewrite (div_ratio A' B' (A * 2 ^ (e - emin)) B) by lia.
      destruct (Z.eq_dec m 0) as [E|E].
      + assert (e = emin) as -> by (rewrite E, dig_0 in Ht; lia).
        rewrite Z.sub_diag, Z.pow_0_r, Z.mul_1_r. fold m. rewrite E, dig_0 in *. lia.
      + rewrite dig_scaled_div by (fold m; lia). fold m. lia.
    - replace (Z.max 0 (emin - e)) with (emin - e) in * by lia.
      replace (Z.max 0 (e - emin)) with 0 in * by lia.
      rewrite Z.pow_0_r, Z.mul_1_r in Hval.
      rewrite (div_ratio A' B' A (B * 2 ^ (emin - e))) by nia.
      rewrite <- Z.div_div by lia. fold m.
      rewrite dig_div_pow2 by lia. lia. }
  rewrite Hsh. f_equal. unfold M.
  assert (0 < 2 ^ (t - emin)) by (apply Z.pow_pos_nonneg; lia).
  apply rne_div_ratio; try nia.
  destruct (Z.le_gt_cases emin e) as [Hle|Hgt].
  - replace (Z.max 0 (emin - e)) with 0 in * by lia.
    replace (Z.max 0 (e - emin)) with (e - emin) in * by lia.
    rewrite Z.pow_0_r, Z.mul_1_r in Hval.
    replace (t - emin) with ((e - emin) + (t - e)) by lia.
    rewrite Z.pow_add_r by lia. nia.
  - replace (Z.max 0 (emin - e)) with (emin - e) in * by lia.
    replace (Z.max 0 (e - emin)) with 0 in * by lia.
    rewrite Z.pow_0_r, Z.mul_1_r in Hval.
    replace (t - e) with ((emin - e) + (t - emin)) by lia.
    rewrite Z.pow_add_r by lia. nia.
Qed.

Lemma shift_of_nonneg z : 0 <= shift_of z.
Proof. unfold Binary.shift_of. lia. Qed.

Lemma shift_of_mono a b : 0 <= a <= b -> shift_of a <= shift_of b.
Proof. intros H. unfold Binary.shift_of. pose proof (dig_mono a b H). lia. Qed.

Lemma omega_pos : 0 < omega.
Proof. unfold Binary.omega. apply Z.pow_pos_nonneg; [lia|]. rewrite emin_eq. lia. Qed.

Lemma rne_div_le_int a b k : 0 < b -> a <= k * b -> rne_div a b <= k.
Proof.
  intros Hb H. rewrite <- (rne_div_exact k b Hb). apply rne_div_mono; nia.
Qed.

Lemma rne_div_ge_int a b k : 0 < b -> k * b <= a -> k <= rne_div a b.
Proof.
  intros Hb H. rewrite <- (rne_div_exact k b Hb). apply rne_div_mono; nia.
Qed.

Lemma div_lt_inv a b k : 0 < b -> a / b < k -> a < k * b.
Proof.
  intros Hb H. pose proof (Z.div_mod a b ltac:(lia)). pose proof (Z.mod_pos_bound a b Hb). nia.
Qed.

Lemma div_ge_inv a b k : 0 < b -> k <= a / b -> k * b <= a.
Proof.
  intros Hb H. pose proof (Z.div_mod a b ltac:(lia)). pose proof (Z.mod_pos_bound a b Hb). nia.
Qed.

(** the mantissa chosen by [rnd] has at most [prec] bits, or is [2^prec] *)
Lemma rnd_mantissa A B : 0 <= A -> 0 < B ->
  let sh := shift_of (A / B) in
  let R := rne_div A (B * 2 ^ sh) in
  0 <= R <= 2 ^ prec /\ (0 < sh -> 2 ^ (prec - 1) <= R).
Proof.
  intros HA HB sh R.
  assert (0 <= sh) as Hsh by apply shift_of_nonneg.
  assert (0 < 2 ^ sh) as Hp by (apply Z.pow_pos_nonneg; lia).
  assert (0 < B * 2 ^ sh) as HB' by nia.
  assert (0 <= A / B) as Hq by (apply Z.div_pos; lia).
  assert (0 < 2 ^ prec) by (apply Z.pow_pos_nonneg; lia).
  split; [split|].
  - apply rne_div_nonneg; lia.
  - apply rne_div_le_int; [assumption|].
    assert (A / B < 2 ^ (prec + sh)) as Hlt.
    { apply dig_le; [lia|lia|]. unfold sh, Binary.shift_of. lia. }
    apply div_lt_inv in Hlt; [|assumption].
    rewrite Z.pow_add_r in Hlt by lia. nia.
  - intros Hpos. apply rne_div_ge_int; [assumption|].
    assert (dig (A / B) = prec + sh) as Hd by (unfold sh, Binary.shift_of in *; lia).
    assert (0 < A / B) as Hqp.
    { destruct (Z.eq_dec (A / B) 0) as [E|E]; [|lia]. rewrite E, dig_0 in Hd. lia. }
    pose proof (dig_bounds _ Hqp) as [D1 _]. rewrite Hd in D1.
    replace (prec + sh - 1) with (prec - 1 + sh) in D1 by lia.
    rewrite Z.pow_add_r in D1 by lia.
    apply div_ge_inv in D1; [|assumption]. nia.
Qed.

Lemma rnd_nonneg A B : 0 <= A -> 0 < B -> 0 <= rnd A B.
Proof.
  intros HA HB. unfold Binary.rnd. cbv zeta.
  pose proof (rnd_mantissa A B HA HB) as [[H _] _]. cbv zeta in H.
  assert (0 < 2 ^ shift_of (A / B)) by (apply Z.pow_pos_nonneg; [lia|apply shift_of_nonneg]).
  nia.
Qed.

Lemma rnd_mono A1 B1 A2 B2 : 0 <= A1 -> 0 < B1 -> 0 < B2 ->
  A1 * B2 <= A2 * B1 -> rnd A1 B1 <= rnd A2 B2.
Proof.
  intros HA1 HB1 HB2 H.
  assert (0 <= A2) as HA2 by nia.
  pose proof (div_le_cross A1 B1 A2 B2 HB1 HB2 H) as Hq.
  assert (0 <= A1 / B1) as Hq1 by (apply Z.div_pos; lia).
  pose proof (shift_of_mono (A1 / B1) (A2 / B2) ltac:(lia)) as Hsh.
  pose proof (rnd_mantissa A1 B1 HA1 HB1) as [[R1a R1b] R1c].
  pose proof (rnd_mantissa A2 B2 HA2 HB2) as [[R2a R2b] R2c].
  cbv zeta in *. unfold Binary.rnd. cbv zeta.
  set (sh1 := shift_of (A1 / B1)) in *. set (sh2 := shift_of (A2 / B2)) in *.
  set (R1 := rne_div A1 (B1 * 2 ^ sh1)) in *. set (R2 := rne_div A2 (B2 * 2 ^ sh2)) in *.
  assert (0 <= sh1) by apply shift_of_nonneg.
  assert (0 < 2 ^ sh1) by (apply Z.pow_pos_nonneg; lia).
  destruct (Z.eq_dec sh1 sh2) as [E|E].
  - assert (R1 <= R2).
    { unfold R1, R2. rewrite <- E. apply rne_div_mono; nia. }
    rewrite <- E. nia.
  - assert (sh1 + 1 <= sh2) as Hlt by lia.
    specialize (R2c ltac:(lia)).
    assert (2 ^ sh2 = 2 ^ (sh1 + 1) * 2 ^ (sh2 - sh1 - 1)) as E2.
    { rewrite <- Z.pow_add_r by lia. f_equal. lia. }
    assert (0 < 2 ^ (sh2 - sh1 - 1)) by (apply Z.pow_pos_nonneg; lia).
    rewrite Z.pow_add_r, Z.pow_1_r in E2 by lia.
    assert (2 ^ prec = 2 ^ (prec - 1) * 2) as E3.
    { rewrite <- (Z.pow_1_r 2) at 3. rewrite <- Z.pow_add_r by lia. f_equal. lia. }
    assert (0 < 2 ^ (prec - 1)) by (apply Z.pow_pos_nonneg; lia).
    rewrite E2.
    assert (R1 * 2 ^ sh1 <= 2 ^ (prec - 1) * 2 * 2 ^ sh1) by nia.
    assert (2 ^ (prec - 1) * (2 ^ sh1 * 2) <= R2 * (2 ^ sh1 * 2)) by nia.
    nia.
Qed.

Lemma rnd_ratio A1 B1 A2 B2 : 0 <= A1 -> 0 <= A2 -> 0 < B1 -> 0 < B2 ->
  A1 * B2 = A2 * B1 -> rnd A1 B1 = rnd A2 B2.
Proof. intros. apply Z.le_antisymm; apply rnd_mono; lia. Qed.

Lemma rnd_exact z : 0 <= z -> on_grid z -> rnd z 1 = z.
Proof.
  intros Hz Hg. unfold Binary.rnd. cbv zeta. rewrite Z.div_1_r, Z.mul_1_l.
  unfold Binary.on_grid in Hg.
  assert (0 < 2 ^ shift_of z) by (apply Z.pow_pos_nonneg; [lia|apply shift_of_nonneg]).
  apply Z.div_exact in Hg; [|lia].
  set (P := 2 ^ shift_of z) in *. set (k := z / P) in *.
  assert (rne_div z P = k) as ->; [|lia].
  transitivity (rne_div (k * P) P); [f_equal; lia|apply rne_div_exact; lia].
Qed.

Lemma rnd_on_grid A B : 0 <= A -> 0 < B -> on_grid (rnd A B).
Proof.
  intros HA HB. pose proof (rnd_mantissa A B HA HB) as [[Ra Rb] Rc]. cbv zeta in *.
  unfold Binary.rnd. cbv zeta.
  set (sh := shift_of (A / B)) in *. set (R := rne_div A (B * 2 ^ sh)) in *.
  assert (0 <= sh) as Hsh by apply shift_of_nonneg.
  assert (0 < 2 ^ sh) by (apply Z.pow_pos_nonneg; lia).
  unfold Binary.on_grid.
  destruct (Z.eq_dec R 0) as [E|E].
  { rewrite E. simpl. apply Z.mod_0_l.
    apply Z.pow_nonzero; [lia|apply shift_of_nonneg]. }
  assert (dig (R * 2 ^ sh) = dig R + sh) as Hd by (apply dig_mul_pow2; lia).
  destruct (Z.eq_dec R (2 ^ prec)) as [E2|E2].
  - assert (dig R = prec + 1) as HdR.
    { rewrite E2. apply dig_unique; [lia|]. replace (prec + 1 - 1) with prec by lia.
      split; [lia|apply Z.pow_lt_mono_r; lia]. }
    unfold Binary.shift_of at 1. rewrite Hd, HdR.
    replace (Z.max 0 (prec + 1 + sh - prec)) with (sh + 1) by lia.
    rewrite E2, <- Z.pow_add_r by lia.
    replace (prec + sh) with ((prec - 1) + (sh + 1)) by lia.
    rewrite Z.pow_add_r by lia. apply Z.mod_mul.
    apply Z.pow_nonzero; lia.
  - assert (dig R <= prec) as HdR by (apply dig_le; lia).
    unfold Binary.shift_of at 1. rewrite Hd.
    set (k := Z.max 0 (dig R + sh - prec)).
    assert (0 <= k <= sh) as Hk by (unfold k; lia).
    replace sh with ((sh - k) + k) at 1 by lia.
    rewrite Z.pow_add_r by lia. rewrite Z.mul_assoc. apply Z.mod_mul.
    apply Z.pow_nonzero; lia.
Qed.

Lemma valid_encode s z : valid_binary prec emax (encode s z) = true.
Proof.
  unfold Binary.encode.
  destruct (Z.leb_spec z 0) as [|Hz]; [reflexivity|].
  destruct (Z.leb_spec omega z) as [|Ho]; [reflexivity|].
  destruct (z / 2 ^ shift_of z) as [|m|m] eqn:Em; try reflexivity.
  cbn [valid_binary]. unfold bounded, canonical_mantissa.
  rewrite digits2_pos_log2. rewrite <- dig_pos by lia. rewrite <- Em.
  pose proof (shift_of_nonneg z) as Hsh.
  rewrite dig_div_pow2 by lia.
  assert (dig z <= emax - emin) as Hd.
  { apply dig_le; [lia| rewrite emin_eq; lia |]. exact Ho. }
  pose proof (dig_nonneg z).
  rewrite fexp_eq. unfold Binary.shift_of in *. rewrite emin_eq in *.
  apply andb_true_iff. split.
  - apply Z.eqb_eq. lia.
  - apply Z.leb_le. lia.
Qed.

Lemma xval_encode s z : 0 <= z -> on_grid z ->
  xval (encode s z) = cond_Zopp s (Z.min z omega).
Proof.
  intros Hz Hg. unfold Binary.encode.
  destruct (Z.leb_spec z 0) as [|Hz'].
  { assert (z = 0) as -> by lia. pose proof omega_pos.
    rewrite Z.min_l by lia. destruct s; reflexivity. }
  destruct (Z.leb_spec omega z) as [|Ho].
  { cbn [Binary.xval]. rewrite Z.min_r by lia. reflexivity. }
  rewrite Z.min_l by lia.
  unfold Binary.on_grid in Hg.
  assert (0 < 2 ^ shift_of z) by (apply Z.pow_pos_nonneg; [lia|apply shift_of_nonneg]).
  apply Z.div_exact in Hg; [|lia].
  destruct (z / 2 ^ shift_of z) as [|m|m] eqn:Em; try lia.
  cbn [Binary.xval]. f_equal. replace (emin + shift_of z - emin) with (shift_of z) by lia. lia.
Qed.

(** What validity says about a finite float. *)
Lemma valid_finite s m e : valid (S754_finite s m e) = true ->
  emin <= e <= emax - prec /\ dig (Zpos m) <= prec /\ (emin < e -> dig (Zpos m) = prec).
Proof.
  cbn [valid_binary]. unfold bounded, canonical_mantissa. intros H.
  apply andb_true_iff in H as [H1 H2]. apply Z.eqb_eq in H1. apply Z.leb_le in H2.
  rewrite digits2_pos_log2 in H1. rewrite <- dig_pos in H1 by lia.
  rewrite fexp_eq in H1. lia.
Qed.

Lemma valid_finite_value s m e : valid (S754_finite s m e) = true ->
  let z := Zpos m * 2 ^ (e - emin) in
  0 < z < omega /\ on_grid z /\ dig z = dig (Zpos m) + (e - emin).
Proof.
  intros H z. apply valid_finite in H as [[He1 He2] [Hd1 Hd2]].
  assert (0 < 2 ^ (e - emin)) by (apply Z.pow_pos_nonneg; lia).
  assert (dig z = dig (Zpos m) + (e - emin)) as Hdz by (apply dig_mul_pow2; lia).
  assert (0 < z) by (unfold z; nia).
  assert (z mod 2 ^ (e - emin) = 0) as Hmod by (apply Z.mod_mul; lia).
  clearbody z.
  split; [split|split]; try assumption.
  - unfold Binary.omega. apply dig_le; [lia|rewrite emin_eq; lia|]. lia.
  - unfold Binary.on_grid, Binary.shift_of. rewrite Hdz.
    replace (Z.max 0 (dig (Z.pos m) + (e - emin) - prec)) with (e - emin) by lia.
    exact Hmod.
Qed.

Lemma xval_bounds f : valid f = true -> - omega <= xval f <= omega.
Proof.
  intros H. pose proof omega_pos.
  destruct f as [s|s| |s m e]; cbn [Binary.xval]; try lia.
  - destruct s; cbn [cond_Zopp]; lia.
  - apply valid_finite_value in H as [H1 _]. destruct s; cbn [cond_Zopp]; lia.
Qed.

Lemma finite_lt m1 e1 m2 e2 :
  valid (S754_finite false m1 e1) = true -> valid (S754_finite false m2 e2) = true ->
  e1 < e2 -> Zpos m1 * 2 ^ (e1 - emin) < Zpos m2 * 2 ^ (e2 - emin).
Proof.
  intros V1 V2 He.
  apply valid_finite in V1 as [[A1 A2] [A3 A4]].
  apply valid_finite in V2 as [[B1 B2] [B3 B4]].
  specialize (B4 ltac:(lia)).
  assert (Zpos m1 < 2 ^ prec) by (apply dig_le; lia).
  pose proof (dig_bounds (Zpos m2) ltac:(lia)) as [D1 _]. rewrite B4 in D1.
  replace (e2 - emin) with ((e1 - emin) + 1 + (e2 - e1 - 1)) by lia.
  rewrite !Z.pow_add_r by lia. rewrite Z.pow_1_r.
  assert (0 < 2 ^ (e1 - emin)) by (apply Z.pow_pos_nonneg; lia).
  assert (0 < 2 ^ (e2 - e1 - 1)) by (apply Z.pow_pos_nonneg; lia).
  assert (2 ^ prec = 2 ^ (prec - 1) * 2) as E3.
  { rewrite <- (Z.pow_1_r 2) at 3. rewrite <- Z.pow_add_r by lia. f_equal. lia. }
  assert (Zpos m1 * 2 ^ (e1 - emin) < Zpos m2 * 2 * 2 ^ (e1 - emin)) by nia.
  nia.
Qed.

Lemma compare_finite m1 e1 m2 e2 :
  valid (S754_finite false m1 e1) = true -> valid (S754_finite false m2 e2) = true ->
  match e1 ?= e2 with
  | Lt => Lt
  | Gt => Gt
  | Eq => Pos.compare_cont Eq m1 m2
  end = (Zpos m1 * 2 ^ (e1 - emin) ?= Zpos m2 * 2 ^ (e2 - emin)).
Proof.
  intros V1 V2. symmetry.
  destruct (Z.compare_spec e1 e2) as [E|L|G].
  - subst e2. pose proof (valid_finite _ _ _ V1) as [[A1 _] _].
    assert (0 < 2 ^ (e1 - emin)) by (apply Z.pow_pos_nonneg; lia).
    change (Pos.compare_cont Eq m1 m2) with (Zpos m1 ?= Zpos m2).
    destruct (Z.compare_spec (Zpos m1) (Zpos m2)) as [E|L|G].
    + apply Z.compare_eq_iff. congruence.
    + apply Z.compare_lt_iff. nia.
    + apply Z.compare_gt_iff. nia.
  - apply Z.compare_lt_iff. apply finite_lt; assumption.
  - apply Z.compare_gt_iff. apply finite_lt; assumption.
Qed.

Lemma valid_sign_irrelevant s s' m e :
  valid (S754_finite s m e) = true -> valid (S754_finite s' m e) = true.
Proof. intros H. exact H. Qed.

Lemma compare_opp a b : CompOpp (a ?= b) = (- a ?= - b).
Proof.
  destruct (Z.compare_spec a b); cbn [cond_Zopp]; symmetry;
    [apply Z.compare_eq_iff|apply Z.compare_gt_iff|apply Z.compare_lt_iff]; lia.
Qed.

(** On valid operands that are not NaN, the comparison of floats is the
    comparison of their (extended) values. *)
Lemma SFcompare_xval x y : valid x = true -> valid y = true ->
  is_nan x = false -> is_nan y = false ->
  SFcompare x y = Some (xval x ?= xval y).
Proof.
  intros Vx Vy Nx Ny. pose proof omega_pos as Ho.
  destruct x as [sx|sx| |sx mx ex]; try discriminate;
  destruct y as [sy|sy| |sy my ey]; try discriminate; cbn [SFcompare xval].
  - reflexivity.
  - f_equal. destruct sy; cbn [cond_Zopp]; symmetry;
      [apply Z.compare_gt_iff|apply Z.compare_lt_iff]; lia.
  - f_equal. apply valid_finite_value in Vy as [Hy _].
    destruct sy; cbn [cond_Zopp]; symmetry;
      [apply Z.compare_gt_iff|apply Z.compare_lt_iff]; lia.
  - f_equal. destruct sx; cbn [cond_Zopp]; symmetry;
      [apply Z.compare_lt_iff|apply Z.compare_gt_iff]; lia.
  - f_equal. destruct sx, sy; cbn [cond_Zopp]; symmetry;
      first [apply Z.compare_eq_iff|apply Z.compare_lt_iff|apply Z.compare_gt_iff]; lia.
  - f_equal. apply valid_finite_value in Vy as [Hy _].
    destruct sx, sy; cbn [cond_Zopp]; symmetry;
      first [apply Z.compare_lt_iff|apply Z.compare_gt_iff]; lia.
  - f_equal. apply valid_finite_value in Vx as [Hx _].
    destruct sx; cbn [cond_Zopp]; symmetry;
      [apply Z.compare_lt_iff|apply Z.compare_gt_iff]; lia.
  - f_equal. apply valid_finite_value in Vx as [Hx _].
    destruct sx, sy; cbn [cond_Zopp]; symmetry;
      first [apply Z.compare_lt_iff|apply Z.compare_gt_iff]; lia.
  - f_equal.
    pose proof (valid_finite_value _ _ _ Vx) as [Hx _].
    pose proof (valid_finite_value _ _ _ Vy) as [Hy _].
    destruct sx, sy; cbn [cond_Zopp].
    + rewrite <- compare_opp, <- (compare_finite mx ex my ey Vx Vy).
      destruct (ex ?= ey); reflexivity.
    + symmetry. apply Z.compare_lt_iff. lia.
    + symmetry. apply Z.compare_gt_iff. lia.
    + apply compare_finite; assumption.
Qed.

Lemma rndS_mono a1 b1 a2 b2 : 0 < b1 -> 0 < b2 ->
  a1 * b2 <= a2 * b1 -> rndS a1 b1 <= rndS a2 b2.
Proof.
  intros Hb1 Hb2 H. unfold Binary.rndS.
  pose proof (rnd_nonneg (Z.abs a1) b1 (Z.abs_nonneg _) Hb1).
  pose proof (rnd_nonneg (Z.abs a2) b2 (Z.abs_nonneg _) Hb2).
  destruct (Z.lt_trichotomy a1 0) as [N1|[Z1|P1]];
  destruct (Z.lt_trichotomy a2 0) as [N2|[Z2|P2]]; try nia;
  repeat match goal with
  | Hn : ?a < 0 |- _ => rewrite (Z.sgn_neg a Hn)
  | Hn : 0 < ?a |- _ => rewrite (Z.sgn_pos a Hn)
  | Hn : ?a = 0 |- _ => rewrite Hn; change (Z.sgn 0) with 0
  end; try lia.
  - pose proof (rnd_mono (Z.abs a2) b2 (Z.abs a1) b1 (Z.abs_nonneg _) Hb2 Hb1 ltac:(nia)).
    lia.
  - pose proof (rnd_mono (Z.abs a1) b1 (Z.abs a2) b2 (Z.abs_nonneg _) Hb1 Hb2 ltac:(nia)).
    lia.
Qed.

Lemma rndS_ratio a1 b1 a2 b2 : 0 < b1 -> 0 < b2 ->
  a1 * b2 = a2 * b1 -> rndS a1 b1 = rndS a2 b2.
Proof. intros. apply Z.le_antisymm; apply rndS_mono; lia. Qed.

Lemma rndS_exact z : on_grid (Z.abs z) -> rndS z 1 = z.
Proof.
  intros H. unfold Binary.rndS. rewrite rnd_exact by (try apply Z.abs_nonneg; assumption).
  rewrite Z.mul_comm. apply Z.abs_sgn.
Qed.

Lemma clamp_mono a b : a <= b -> clamp a <= clamp b.
Proof. unfold Binary.clamp. lia. Qed.

Lemma clamp_small z : - omega <= z <= omega -> clamp z = z.
Proof. unfold Binary.clamp. lia. Qed.

Lemma encode_not_nan s z : is_nan (encode s z) = false.
Proof.
  unfold Binary.encode.
  destruct (Z.leb_spec z 0) as [|Hz]; [reflexivity|].
  destruct (Z.leb_spec omega z) as [|Ho]; [reflexivity|].
  pose proof (dig_bounds z Hz) as [D1 D2].
  assert (0 < dig z) by (rewrite dig_pos by lia; pose proof (Z.log2_nonneg z); lia).
  assert (0 <= shift_of z <= dig z - 1) as Hsh by (unfold Binary.shift_of; lia).
  assert (0 < 2 ^ shift_of z) by (apply Z.pow_pos_nonneg; lia).
  assert (2 ^ shift_of z <= z).
  { apply Z.le_trans with (2 ^ (dig z - 1)); [apply Z.pow_le_mono_r; lia|assumption]. }
  assert (1 <= z / 2 ^ shift_of z) by (apply Z.div_le_lower_bound; lia).
  destruct (z / 2 ^ shift_of z); try lia. reflexivity.
Qed.

(** The float that [encode] builds from a rounded magnitude. *)
Lemma xval_encode_rnd s A B : 0 <= A -> 0 < B ->
  xval (encode s (rnd A B)) = clamp (cond_Zopp s (rnd A B)).
Proof.
  intros HA HB. pose proof omega_pos.
  pose proof (rnd_nonneg A B HA HB).
  rewrite xval_encode; try assumption.
  - unfold Binary.clamp. destruct s; cbn [cond_Zopp]; lia.
  - apply rnd_on_grid; assumption.
Qed.

Lemma iter_xO m d : Zpos (Pos.iter xO m d) = Zpos m * 2 ^ Zpos d.
Proof.
  revert m. induction d using Pos.peano_ind; intros m.
  - simpl. lia.
  - rewrite Pos.iter_succ. rewrite Pos2Z.inj_xO, IHd.
    rewrite Pos2Z.inj_succ, Z.pow_succ_r by lia. ring.
Qed.

Lemma shl_align_spec m e e' :
  snd (shl_align m e e') = Z.min e e' /\
  Zpos (fst (shl_align m e e')) = Zpos m * 2 ^ (e - Z.min e e').
Proof.
  unfold shl_align. destruct (e' - e) as [|d|d] eqn:E; cbn [fst snd].
  - replace (Z.min e e') with e by lia. rewrite Z.sub_diag. simpl. lia.
  - replace (Z.min e e') with e by lia. rewrite Z.sub_diag. simpl. lia.
  - replace (Z.min e e') with e' by lia. rewrite iter_xO.
    replace (e - e') with (Zpos d) by lia. split; reflexivity.
Qed.

Lemma binary_round_encode s mx ex : emin <= ex ->
  binary_round prec emax s mx ex = encode s (rnd (Zpos mx * 2 ^ (ex - emin)) 1).
Proof.
  intros He. unfold binary_round.
  rewrite digits2_pos_log2, <- dig_pos by lia.
  set (t := fexp (dig (Zpos mx) + ex)).
  pose proof (shl_align_spec mx ex t) as [S1 S2].
  destruct (shl_align mx ex t) as [mz ez]. cbn [fst snd] in S1, S2.
  assert (t = Z.max (dig (Zpos mx) + ex - prec) emin) as Ht by reflexivity.
  assert (emin <= ez <= ex) as Hez by lia.
  assert (0 < 2 ^ (ex - ez)) by (apply Z.pow_pos_nonneg; lia).
  assert (dig (Zpos mz) = dig (Zpos mx) + (ex - ez)) as Hd.
  { rewrite S2, S1. apply dig_mul_pow2; lia. }
  pose proof (binary_round_aux_rnd s (Zpos mz) 1 ez
                (Zpos mx * 2 ^ (ex - emin)) 1) as R.
  rewrite Z.div_1_r, Z.mod_1_r in R. change (location_of 0 1) with loc_Exact in R.
  apply R; try lia.
  - rewrite Hd. replace (dig (Zpos mx) + (ex - ez) + ez) with (dig (Zpos mx) + ex) by lia.
    fold t. lia.
  - replace (Z.max 0 (emin - ez)) with 0 by lia.
    replace (Z.max 0 (ez - emin)) with (ez - emin) by lia.
    rewrite S2, S1. fold (Z.min ex t) in *.
    replace (ex - emin) with ((ex - Z.min ex t) + (Z.min ex t - emin)) by lia.
    rewrite Z.pow_add_r by lia. rewrite Z.pow_0_r. ring.
Qed.

Lemma binary_normalize_spec m e sz : emin <= e ->
  let f := binary_normalize prec emax m e sz in
  valid f = true /\ is_nan f = false /\ xval f = clamp (rndS (m * 2 ^ (e - emin)) 1).
Proof.
  intros He f. subst f.
  assert (0 < 2 ^ (e - emin)) as Hp by (apply Z.pow_pos_nonneg; lia).
  pose proof omega_pos.
  destruct m as [|m|m]; cbn [binary_normalize].
  - split; [reflexivity|split; [reflexivity|]].
    cbn [Binary.xval]. unfold Binary.rndS. simpl Z.sgn. unfold Binary.clamp. lia.
  - rewrite binary_round_encode by assumption.
    split; [apply valid_encode; assumption|split; [apply encode_not_nan|]].
    rewrite xval_encode_rnd by lia. unfold Binary.rndS.
    rewrite Z.sgn_pos by nia. rewrite Z.abs_eq by nia. cbn [cond_Zopp]. f_equal. lia.
  - rewrite binary_round_encode by assumption.
    split; [apply valid_encode; assumption|split; [apply encode_not_nan|]].
    rewrite xval_encode_rnd by lia. unfold Binary.rndS.
    rewrite Z.sgn_neg by nia. f_equal. cbn [cond_Zopp].
    replace (Z.abs (Z.neg m * 2 ^ (e - emin))) with (Zpos m * 2 ^ (e - emin)) by nia.
    lia.
Qed.

Lemma emin_nonpos : emin <= 0.
Proof. rewrite emin_eq. lia. Qed.

Lemma valid_finite_xval s m e : valid (S754_finite s m e) = true ->
  let x := xval (S754_finite s m e) in
  Z.abs x = Zpos m * 2 ^ (e - emin) /\ 0 < Z.abs x < omega /\ on_grid (Z.abs x) /\
  Z.sgn x = (if s then -1 else 1) /\ emin <= e.
Proof.
  intros V x. subst x. pose proof (valid_finite_value _ _ _ V) as [Hz [Hg _]].
  pose proof (valid_finite _ _ _ V) as [[He _] _].
  cbn [Binary.xval]. set (z := Zpos m * 2 ^ (e - emin)) in *. clearbody z.
  destruct s; cbn [cond_Zopp].
  - rewrite Z.abs_neq by lia. rewrite Z.opp_involutive. rewrite Z.sgn_neg by lia. tauto.
  - rewrite Z.abs_eq by lia. rewrite Z.sgn_pos by lia. tauto.
Qed.

(** A finite float is the rounding of its own value. *)
Lemma xval_self x : valid x = true -> is_finite x = true ->
  xval x = clamp (rndS (xval x) 1).
Proof.
  intros V F. pose proof omega_pos.
  destruct x as [s|s| |s m e]; try discriminate.
  - cbn [Binary.xval]. unfold Binary.rndS, Binary.clamp. change (Z.sgn 0) with 0. lia.
  - pose proof (valid_finite_xval _ _ _ V) as [_ [Hb [Hg _]]]. cbv zeta in *.
    rewrite rndS_exact by assumption. unfold Binary.clamp. lia.
Qed.

Lemma xval_opp s m e : xval (S754_finite (negb s) m e) = - xval (S754_finite s m e).
Proof. cbn [Binary.xval]. destruct s; cbn [negb cond_Zopp]; lia. Qed.

Lemma aligned_value s m e ez : emin <= ez <= e ->
  cond_Zopp s (Zpos (fst (shl_align m e ez))) * 2 ^ (ez - emin)
  = xval (S754_finite s m e).
Proof.
  intros He. pose proof (shl_align_spec m e ez) as [_ S2]. rewrite S2.
  replace (Z.min e ez) with ez by lia. cbn [Binary.xval].
  replace (e - emin) with ((e - ez) + (ez - emin)) by lia.
  rewrite Z.pow_add_r by lia. destruct s; cbn [cond_Zopp]; ring.
Qed.

Lemma SFsub_spec x y : valid x = true -> valid y = true ->
  is_finite x = true -> is_finite y = true ->
  let f := SFsub prec emax x y in
  valid f = true /\ is_nan f = false /\ xval f = clamp (rndS (xval x - xval y) 1).
Proof.
  intros Vx Vy Fx Fy f. subst f.
  destruct x as [sx|sx| |sx mx ex]; try discriminate;
  destruct y as [sy|sy| |sy my ey]; try discriminate; cbn [SFsub].
  - split; [|split].
    + destruct sx, sy; reflexivity.
    + destruct sx, sy; reflexivity.
    + replace (xval (if sx then if sy then S754_zero false else S754_zero sx
                     else if sy then S754_zero sx else S754_zero false)) with 0
        by (destruct sx, sy; reflexivity).
      cbn [Binary.xval]. unfold Binary.rndS, Binary.clamp. simpl Z.sgn. pose proof omega_pos. lia.
  - split; [exact Vy|split; [reflexivity|]].
    rewrite xval_opp. change (xval (S754_zero sx)) with 0.
    pose proof (valid_finite_xval _ _ _ Vy) as [_ [Hb [Hg _]]]. cbv zeta in *.
    replace (0 - xval (S754_finite sy my ey)) with (- xval (S754_finite sy my ey)) by lia.
    rewrite rndS_exact by (rewrite Z.abs_opp; assumption).
    unfold Binary.clamp. lia.
  - split; [exact Vx|split; [reflexivity|]].
    change (xval (S754_zero sy)) with 0. rewrite Z.sub_0_r.
    apply xval_self; [assumption|reflexivity].
  - pose proof (valid_finite _ _ _ Vx) as [[Hx _] _].
    pose proof (valid_finite _ _ _ Vy) as [[Hy _] _].
    set (ez := Z.min ex ey).
    pose proof (binary_normalize_spec
      (cond_Zopp sx (Zpos (fst (shl_align mx ex ez))) -
       cond_Zopp sy (Zpos (fst (shl_align my ey ez)))) ez false ltac:(lia)) as [B1 [B2 B3]].
    split; [exact B1|split; [exact B2|]].
    rewrite B3. do 2 f_equal.
    rewrite Z.mul_sub_distr_r. rewrite !aligned_value by lia. reflexivity.
Qed.

Lemma SFadd_spec x y : valid x = true -> valid y = true ->
  is_finite x = true -> is_finite y = true ->
  let f := SFadd prec emax x y in
  valid f = true /\ is_nan f = false /\ xval f = clamp (rndS (xval x + xval y) 1).
Proof.
  intros Vx Vy Fx Fy f. subst f.
  destruct x as [sx|sx| |sx mx ex]; try discriminate;
  destruct y as [sy|sy| |sy my ey]; try discriminate; cbn [SFadd].
  - split; [|split].
    + destruct sx, sy; reflexivity.
    + destruct sx, sy; reflexivity.
    + replace (xval (if sx then if sy then S754_zero sx else S754_zero false
                     else if sy then S754_zero false else S754_zero sx)) with 0
        by (destruct sx, sy; reflexivity).
      cbn [Binary.xval]. unfold Binary.rndS, Binary.clamp. simpl Z.sgn. pose proof omega_pos. lia.
  - split; [exact Vy|split; [reflexivity|]].
    change (xval (S754_zero sx)) with 0. rewrite Z.add_0_l.
    apply xval_self; [assumption|reflexivity].
  - split; [exact Vx|split; [reflexivity|]].
    change (xval (S754_zero sy)) with 0. rewrite Z.add_0_r.
    apply xval_self; [assumption|reflexivity].
  - pose proof (valid_finite _ _ _ Vx) as [[Hx _] _].
    pose proof (valid_finite _ _ _ Vy) as [[Hy _] _].
    set (ez := Z.min ex ey).
    pose proof (binary_normalize_spec
      (cond_Zopp sx (Zpos (fst (shl_align mx ex ez))) +
       cond_Zopp sy (Zpos (fst (shl_align my ey ez)))) ez false ltac:(lia)) as [B1 [B2 B3]].
    split; [exact B1|split; [exact B2|]].
    rewrite B3. do 2 f_equal.
    rewrite Z.mul_add_distr_r. rewrite !aligned_value by lia. reflexivity.
Qed.

Lemma dig_mul_lower a b : 0 < a -> 0 < b -> dig a + dig b - 1 <= dig (a * b).
Proof.
  intros Ha Hb.
  pose proof (dig_bounds a Ha) as [A1 _]. pose proof (dig_bounds b Hb) as [B1 _].
  assert (0 < dig a) by (rewrite dig_pos by lia; pose proof (Z.log2_nonneg a); lia).
  assert (0 < dig b) by (rewrite dig_pos by lia; pose proof (Z.log2_nonneg b); lia).
  destruct (Z.le_gt_cases (dig a + dig b - 1) (dig (a * b))) as [|G]; [assumption|exfalso].
  assert (a * b < 2 ^ (dig a + dig b - 2)) as Hlt by (apply dig_le; nia).
  replace (dig a + dig b - 2) with ((dig a - 1) + (dig b - 1)) in Hlt by lia.
  rewrite Z.pow_add_r in Hlt by lia.
  assert (0 < 2 ^ (dig a - 1)) by (apply Z.pow_pos_nonneg; lia).
  assert (0 < 2 ^ (dig b - 1)) by (apply Z.pow_pos_nonneg; lia).
  nia.
Qed.

Lemma SFmul_spec x y : valid x = true -> valid y = true ->
  is_finite x = true -> is_finite y = true ->
  let f := SFmul prec emax x y in
  valid f = true /\ is_nan f = false /\
  xval f = clamp (rndS (xval x * xval y) (2 ^ (- emin))).
Proof.
  intros Vx Vy Fx Fy f. subst f. pose proof omega_pos as Ho. pose proof emin_nonpos as Hm.
  assert (0 < 2 ^ (- emin)) as Hp by (apply Z.pow_pos_nonneg; lia).
  assert (clamp (rndS 0 (2 ^ (- emin))) = 0) as Hzero.
  { unfold Binary.rndS, Binary.clamp. change (Z.sgn 0) with 0. lia. }
  destruct x as [sx|sx| |sx mx ex]; try discriminate;
  destruct y as [sy|sy| |sy my ey]; try discriminate; cbn [SFmul].
  - split; [reflexivity|split; [reflexivity|]]. cbn [Binary.xval]. rewrite Z.mul_0_l, Hzero. reflexivity.
  - split; [reflexivity|split; [reflexivity|]]. cbn [Binary.xval]. rewrite Z.mul_0_l, Hzero. reflexivity.
  - split; [reflexivity|split; [reflexivity|]].
    change (xval (S754_zero sy)) with 0. rewrite Z.mul_0_r, Hzero. reflexivity.
  - pose proof (valid_finite _ _ _ Vx) as [[Hx1 Hx2] [Hx3 Hx4]].
    pose proof (valid_finite _ _ _ Vy) as [[Hy1 Hy2] [Hy3 Hy4]].
    pose proof (valid_finite_xval _ _ _ Vx) as [Ax [_ [_ [Sx _]]]].
    pose proof (valid_finite_xval _ _ _ Vy) as [Ay [_ [_ [Sy _]]]].
    cbv zeta in *.
    set (X := xval (S754_finite sx mx ex)) in *. set (Y := xval (S754_finite sy my ey)) in *.
    assert (0 < 2 ^ (ex - emin)) by (apply Z.pow_pos_nonneg; lia).
    assert (0 < 2 ^ (ey - emin)) by (apply Z.pow_pos_nonneg; lia).
    pose proof (binary_round_aux_rnd (xorb sx sy) (Zpos (mx * my)) 1 (ex + ey)
                  (Z.abs X * Z.abs Y) (2 ^ (- emin))) as R.
    rewrite Z.div_1_r, Z.mod_1_r in R. change (location_of 0 1) with loc_Exact in R.
    assert (0 <= Z.abs X * Z.abs Y) as G2 by (apply Z.mul_nonneg_nonneg; lia).
    rewrite R; try lia.
    + split; [apply valid_encode|split; [apply encode_not_nan|]].
      rewrite (xval_encode_rnd _ _ _ G2 Hp). f_equal. unfold Binary.rndS.
      rewrite Z.abs_mul, Z.sgn_mul, Sx, Sy.
      destruct sx, sy; cbn [xorb cond_Zopp]; lia.
    + (* enough digits *)
      rewrite Pos2Z.inj_mul.
      pose proof (dig_mul_lower (Zpos mx) (Zpos my) ltac:(lia) ltac:(lia)).
      rewrite fexp_eq.
      destruct (Z.le_gt_cases prec (dig (Zpos mx * Zpos my))); [lia|].
      assert (dig (Zpos mx) < prec).
      { pose proof (dig_pos (Zpos my) ltac:(lia)). pose proof (Z.log2_nonneg (Zpos my)). lia. }
      assert (dig (Zpos my) < prec).
      { pose proof (dig_pos (Zpos mx) ltac:(lia)). pose proof (Z.log2_nonneg (Zpos mx)). lia. }
      lia.
    + (* same value *)
      rewrite Ax, Ay, Pos2Z.inj_mul. rewrite Z.mul_1_r.
      destruct (Z.le_gt_cases emin (ex + ey)).
      * replace (Z.max 0 (emin - (ex + ey))) with 0 by lia.
        replace (Z.max 0 (ex + ey - emin)) with (ex + ey - emin) by lia.
        rewrite Z.pow_0_r, Z.mul_1_r.
        transitivity (Zpos mx * Zpos my * (2 ^ (ex + ey - emin) * 2 ^ (- emin))); [ring|].
        rewrite <- Z.pow_add_r by lia.
        transitivity (Zpos mx * Zpos my * (2 ^ (ex - emin) * 2 ^ (ey - emin))); [|ring].
        rewrite <- Z.pow_add_r by lia. do 2 f_equal. lia.
      * replace (Z.max 0 (emin - (ex + ey))) with (emin - (ex + ey)) by lia.
        replace (Z.max 0 (ex + ey - emin)) with 0 by lia.
        rewrite Z.pow_0_r, Z.mul_1_r.
        transitivity (Zpos mx * Zpos my *
                      (2 ^ (ex - emin) * 2 ^ (ey - emin) * 2 ^ (emin - (ex + ey)))); [|ring].
        rewrite <- !Z.pow_add_r by lia. do 2 f_equal. lia.
Qed.

Lemma new_location_spec nb r : 0 <= r < nb -> new_location nb r = location_of r nb.
Proof.
  intros Hr. unfold new_location, new_location_even, new_location_odd, Binary.location_of.
  destruct (Z.even nb) eqn:Ev; [reflexivity|].
  destruct (r =? 0); [reflexivity|]. f_equal.
  assert (2 * r <> nb).
  { intros E. rewrite <- E in Ev. rewrite Z.even_mul in Ev. discriminate. }
  destruct (Z.compare_spec (2 * r + 1) nb); symmetry;
    [apply Z.compare_lt_iff|apply Z.compare_lt_iff|apply Z.compare_gt_iff]; lia.
Qed.

Lemma SFdiv_core_binary_spec m1 e1 m2 e2 :
  let e' := Z.min (fexp (dig (Zpos m1) + e1 - (dig (Zpos m2) + e2))) (e1 - e2) in
  let A := Zpos m1 * 2 ^ (e1 - e2 - e') in
  SFdiv_core_binary prec emax (Zpos m1) e1 (Zpos m2) e2
  = (A / Zpos m2, e', location_of (A mod Zpos m2) (Zpos m2)).
Proof.
  intros e' A. unfold SFdiv_core_binary.
  rewrite !Zdigits2_dig by lia. fold e'.
  assert (0 <= e1 - e2 - e') as Hs by (unfold e'; lia).
  set (m' := match e1 - e2 - e' with
             | 0 => Zpos m1
             | Zpos _ => Z.shiftl (Zpos m1) (e1 - e2 - e')
             | Zneg _ => 0
             end).
  assert (m' = A) as ->.
  { unfold m', A. destruct (e1 - e2 - e') as [|p|p] eqn:E; try lia.
    apply Z.shiftl_mul_pow2. lia. }
  pose proof (Z.mod_pos_bound A (Zpos m2) ltac:(lia)) as Hr.
  unfold Z.div, Z.modulo. destruct (Z.div_eucl A (Zpos m2)) as [q r] eqn:E.
  rewrite new_location_spec; [reflexivity|].
  unfold Z.modulo in Hr. rewrite E in Hr. exact Hr.
Qed.

Lemma dig_pos_pos z : 0 < z -> 0 < dig z.
Proof. intros H. rewrite dig_pos by lia. pose proof (Z.log2_nonneg z). lia. Qed.

Lemma dig_ge z k : 0 <= k -> 2 ^ k <= z -> k + 1 <= dig z.
Proof.
  intros Hk H. assert (0 < 2 ^ k) by (apply Z.pow_pos_nonneg; lia).
  destruct (Z.le_gt_cases (k + 1) (dig z)) as [|G]; [assumption|exfalso].
  assert (z < 2 ^ k) by (apply dig_le; lia). lia.
Qed.

Lemma div_enough_digits m1 e1 m2 e2 :
  let e' := Z.min (fexp (dig (Zpos m1) + e1 - (dig (Zpos m2) + e2))) (e1 - e2) in
  e' <= fexp (dig (Zpos m1 * 2 ^ (e1 - e2 - e') / Zpos m2) + e').
Proof.
  intros e'. rewrite fexp_eq.
  destruct (Z.le_gt_cases e' emin) as [|Hgt]; [lia|].
  assert (e' <= dig (Zpos m1) + e1 - (dig (Zpos m2) + e2) - prec /\ e' <= e1 - e2) as [Hk Hs].
  { unfold e' in *. rewrite fexp_eq in *. lia. }
  clearbody e'.
  pose proof (dig_bounds (Zpos m1) ltac:(lia)) as [M1 _].
  pose proof (dig_bounds (Zpos m2) ltac:(lia)) as [_ M2].
  pose proof (dig_pos_pos (Zpos m1) ltac:(lia)) as P1.
  pose proof (dig_pos_pos (Zpos m2) ltac:(lia)) as P2.
  set (d1 := dig (Zpos m1)) in *. set (d2 := dig (Zpos m2)) in *. clearbody d1 d2.
  set (s := e1 - e2 - e') in *.
  assert (0 <= s) by (unfold s; lia).
  assert (1 <= d1 + s - d2) by (unfold s; lia).
  assert (0 < 2 ^ s) by (apply Z.pow_pos_nonneg; lia).
  assert (2 ^ (d1 + s - d2 - 1) <= Zpos m1 * 2 ^ s / Zpos m2) as Hq.
  { apply Z.div_le_lower_bound; [lia|].
    assert (2 ^ (d1 - 1 + s) = 2 ^ d2 * 2 ^ (d1 + s - d2 - 1)) as E.
    { rewrite <- Z.pow_add_r by lia. f_equal. lia. }
    assert (2 ^ (d1 - 1 + s) <= Zpos m1 * 2 ^ s).
    { rewrite Z.pow_add_r by lia. nia. }
    assert (0 < 2 ^ (d1 + s - d2 - 1)) by (apply Z.pow_pos_nonneg; lia).
    nia. }
  apply dig_ge in Hq; [|lia]. unfold s in *. lia.
Qed.

Lemma pow2_merge a b c : 0 <= a -> 0 <= b -> 0 <= c -> a + b = c -> 2 ^ a * 2 ^ b = 2 ^ c.
Proof. intros Ha Hb Hc E. rewrite <- Z.pow_add_r by lia. f_equal. exact E. Qed.

Lemma div_same_value (m1 m2 e1 e2 e' : Z) : emin <= e1 -> emin <= e2 -> e' <= e1 - e2 ->
  m1 * 2 ^ (e1 - e2 - e') * 2 ^ Z.max 0 (e' - emin) * (m2 * 2 ^ (e2 - emin))
  = m1 * 2 ^ (e1 - emin) * 2 ^ (- emin) * m2 * 2 ^ Z.max 0 (emin - e').
Proof.
  intros H1 H2 H3. pose proof emin_nonpos as Hm.
  destruct (Z.le_gt_cases emin e').
  - replace (Z.max 0 (emin - e')) with 0 by lia.
    replace (Z.max 0 (e' - emin)) with (e' - emin) by lia.
    rewrite Z.pow_0_r, Z.mul_1_r.
    transitivity (m1 * m2 * (2 ^ (e1 - e2 - e') * 2 ^ (e' - emin) * 2 ^ (e2 - emin))); [ring|].
    transitivity (m1 * m2 * (2 ^ (e1 - emin) * 2 ^ (- emin))); [|ring].
    f_equal.
    rewrite (pow2_merge (e1 - e2 - e') (e' - emin) (e1 - e2 - emin)) by lia.
    rewrite (pow2_merge (e1 - e2 - emin) (e2 - emin) (e1 - emin - emin)) by lia.
    symmetry. apply pow2_merge; lia.
  - replace (Z.max 0 (emin - e')) with (emin - e') by lia.
    replace (Z.max 0 (e' - emin)) with 0 by lia.
    rewrite Z.pow_0_r, Z.mul_1_r.
    transitivity (m1 * m2 * (2 ^ (e1 - e2 - e') * 2 ^ (e2 - emin))); [ring|].
    transitivity (m1 * m2 * (2 ^ (e1 - emin) * 2 ^ (- emin) * 2 ^ (emin - e'))); [|ring].
    f_equal.
    rewrite (pow2_merge (e1 - e2 - e') (e2 - emin) (e1 - e' - emin)) by lia.
    rewrite (pow2_merge (e1 - emin) (- emin) (e1 - emin - emin)) by lia.
    symmetry. apply pow2_merge; lia.
Qed.

Lemma sign_of_quotient (sx sy : bool) (r p : Z) : 0 < p ->
  cond_Zopp (xorb sx sy) r
  = (if sx then -1 else 1) * Z.sgn p * Z.sgn (if sy then -1 else 1) * r.
Proof.
  intros Hp. rewrite (Z.sgn_pos p Hp). destruct sx, sy; cbn [xorb cond_Zopp];
    change (Z.sgn (-1)) with (-1); change (Z.sgn 1) with 1; ring.
Qed.

Lemma SFdiv_spec x sy my ey :
  valid x = true -> valid (S754_finite sy my ey) = true -> is_finite x = true ->
  let y := S754_finite sy my ey in
  let f := SFdiv prec emax x y in
  valid f = true /\ is_nan f = false /\
  xval f = clamp (rndS (xval x * 2 ^ (- emin) * Z.sgn (xval y)) (Z.abs (xval y))).
Proof.
  intros Vx Vy Fx y f. subst f y. pose proof omega_pos as Ho. pose proof emin_nonpos as Hm.
  assert (0 < 2 ^ (- emin)) as Hp by (apply Z.pow_pos_nonneg; lia).
  pose proof (valid_finite _ _ _ Vy) as [[Hy1 Hy2] [Hy3 Hy4]].
  pose proof (valid_finite_xval _ _ _ Vy) as [Ay [By [_ [Sy _]]]]. cbv zeta in *.
  destruct x as [sx|sx| |sx mx ex]; try discriminate; cbn [SFdiv].
  - split; [reflexivity|split; [reflexivity|]].
    cbn [Binary.xval]. unfold Binary.rndS, Binary.clamp.
    rewrite !Z.mul_0_l. change (Z.sgn 0) with 0. lia.
  - pose proof (valid_finite _ _ _ Vx) as [[Hx1 Hx2] [Hx3 Hx4]].
    pose proof (valid_finite_xval _ _ _ Vx) as [Ax [Bx [_ [Sx _]]]]. cbv zeta in *.
    rewrite SFdiv_core_binary_spec.
    pose proof (div_enough_digits mx ex my ey) as Hd. cbv zeta in Hd.
    remember (Z.min (fexp (dig (Zpos mx) + ex - (dig (Zpos my) + ey))) (ex - ey)) as e' eqn:He'.
    assert (e' <= ex - ey) as Hle by lia. clear He'.
    pose proof (div_same_value (Zpos mx) (Zpos my) ex ey e' Hx1 Hy1 Hle) as Hv.
    assert (0 < 2 ^ (ex - ey - e')) as Hpow by (apply Z.pow_pos_nonneg; lia).
    rewrite <- Ax, <- Ay in Hv.
    assert (0 <= Zpos mx * 2 ^ (ex - ey - e')) as G1 by (apply Z.mul_nonneg_nonneg; lia).
    assert (0 <= Z.abs (xval (S754_finite sx mx ex)) * 2 ^ (- emin)) as G2
      by (apply Z.mul_nonneg_nonneg; lia).
    assert (0 < Z.abs (xval (S754_finite sy my ey))) as G3 by lia.
    rewrite (binary_round_aux_rnd (xorb sx sy) (Zpos mx * 2 ^ (ex - ey - e')) (Zpos my) e'
               (Z.abs (xval (S754_finite sx mx ex)) * 2 ^ (- emin))
               (Z.abs (xval (S754_finite sy my ey))) G1 ltac:(lia) G2 G3 Hd Hv).
    split; [apply valid_encode|split; [apply encode_not_nan|]].
    rewrite (xval_encode_rnd _ _ _ G2 G3). f_equal. unfold Binary.rndS.
    rewrite !Z.abs_mul, !Z.sgn_mul, Sx.
    rewrite (Z.abs_eq (2 ^ (- emin))) by lia.
    replace (Z.abs (Z.sgn (xval (S754_finite sy my ey)))) with 1
      by (rewrite Sy; destruct sy; reflexivity).
    rewrite Z.mul_1_r, Sy. apply sign_of_quotient; assumption.
Qed.

End Format.

End BinaryFacts.

(* ================================================================== *)
(** * Lemmas about the program                                         *)
(* ================================================================== *)

Module Float64Facts.
Import Py.
Import Selection.
Import Binary.
Import BinaryFacts.
Import Float64.

Lemma prec_pos : 0 < prec.
Proof. reflexivity. Qed.

Lemma prec_lt_emax : prec < emax.
Proof. reflexivity. Qed.

Lemma emin_64 : emin prec emax = -1074.
Proof. reflexivity. Qed.

Lemma infinity_eq : infinity = 2 ^ 2098.
Proof. reflexivity. Qed.

Lemma round_mono a1 b1 a2 b2 : 0 < b1 -> 0 < b2 ->
  a1 * b2 <= a2 * b1 -> round a1 b1 <= round a2 b2.
Proof.
  intros. unfold round. apply (clamp_mono prec emax prec_pos prec_lt_emax). apply (rndS_mono prec emax prec_pos prec_lt_emax); assumption.
Qed.

Lemma compare_units x y : valid x = true -> valid y = true ->
  is_nan x = false -> is_nan y = false ->
  SFcompare x y = Some (units x ?= units y).
Proof. apply (SFcompare_xval prec emax prec_pos prec_lt_emax). Qed.

Lemma units_bounds f : valid f = true -> - infinity <= units f <= infinity.
Proof. apply (xval_bounds prec emax prec_pos prec_lt_emax). Qed.

Lemma fsub_units x y : valid x = true -> valid y = true ->
  is_finite x = true -> is_finite y = true ->
  valid (fsub x y) = true /\ is_nan (fsub x y) = false /\
  units (fsub x y) = round (units x - units y) 1.
Proof. apply (SFsub_spec prec emax prec_pos prec_lt_emax). Qed.

Lemma fadd_units x y : valid x = true -> valid y = true ->
  is_finite x = true -> is_finite y = true ->
  valid (fadd x y) = true /\ is_nan (fadd x y) = false /\
  units (fadd x y) = round (units x + units y) 1.
Proof. apply (SFadd_spec prec emax prec_pos prec_lt_emax). Qed.

Lemma fmul_units x y : valid x = true -> valid y = true ->
  is_finite x = true -> is_finite y = true ->
  valid (fmul x y) = true /\ is_nan (fmul x y) = false /\
  units (fmul x y) = round (units x * units y) (2 ^ 1074).
Proof. apply (SFmul_spec prec emax prec_pos prec_lt_emax). Qed.

Lemma fdiv_units x sy my ey :
  valid x = true -> valid (S754_finite sy my ey) = true -> is_finite x = true ->
  let y := S754_finite sy my ey in
  valid (fdiv x y) = true /\ is_nan (fdiv x y) = false /\
  units (fdiv x y) = round (units x * 2 ^ 1074 * Z.sgn (units y)) (Z.abs (units y)).
Proof. apply (SFdiv_spec prec emax prec_pos prec_lt_emax). Qed.

Lemma of_dyadic_units m e : -1074 <= e ->
  valid (of_dyadic m e) = true /\ is_nan (of_dyadic m e) = false /\
  units (of_dyadic m e) = round (m * 2 ^ (e + 1074)) 1.
Proof.
  intros He.
  pose proof (binary_normalize_spec prec emax prec_pos prec_lt_emax m e false He) as H.
  cbv zeta in H. replace (e - emin prec emax) with (e + 1074) in H by (rewrite emin_64; lia).
  exact H.
Qed.

Lemma units_context : units CONTEXT_OVERHEAD_GB = 2 ^ 1075.
Proof. vm_compute. reflexivity. Qed.

Lemma units_quant : units QUANT_4BIT_GB_PER_BILLION = 3 * 2 ^ 1072.
Proof. vm_compute. reflexivity. Qed.

Lemma quant_finite :
  QUANT_4BIT_GB_PER_BILLION = S754_finite false 6755399441055744 (-53).
Proof. reflexivity. Qed.

Lemma not_finite_inv f : is_finite f = false -> is_nan f = false ->
  exists s, f = S754_infinity s.
Proof. destruct f as [s|s| |s m e]; try discriminate. intros _ _. exists s. reflexivity. Qed.

(** ** Rounding of values that are floats already *)

Lemma infinity_pos : 0 < infinity.
Proof. rewrite infinity_eq. apply Z.pow_pos_nonneg; lia. Qed.

Lemma round_exact z : on_grid prec (Z.abs z) -> - infinity <= z <= infinity ->
  round z 1 = z.
Proof.
  intros G B. unfold round.
  rewrite (rndS_exact prec emax prec_pos prec_lt_emax z G).
  apply (clamp_small prec emax prec_pos prec_lt_emax). exact B.
Qed.

Lemma round_0 b : round 0 b = 0.
Proof.
  pose proof (omega_pos prec emax prec_pos prec_lt_emax).
  unfold round, rndS, clamp. change (Z.sgn 0) with 0. rewrite Z.mul_0_l. lia.
Qed.

Lemma round_nonneg a b : 0 <= a -> 0 < b -> 0 <= round a b.
Proof.
  intros Ha Hb. rewrite <- (round_0 1). apply round_mono; lia.
Qed.

Lemma round_ratio a1 b1 a2 b2 : 0 < b1 -> 0 < b2 -> a1 * b2 = a2 * b1 ->
  round a1 b1 = round a2 b2.
Proof. intros. apply Z.le_antisymm; apply round_mono; lia. Qed.

Lemma on_grid_scaled k e : 0 <= k < 2 ^ prec -> 0 <= e -> on_grid prec (k * 2 ^ e).
Proof.
  intros [K1 K2] He. unfold on_grid, shift_of.
  destruct (Z.eq_dec k 0) as [->|Kn]; [rewrite Z.mul_0_l; apply Z.mod_0_l;
    apply Z.pow_nonzero; lia|].
  rewrite dig_mul_pow2 by lia.
  assert (dig k <= prec) by (apply dig_le; [lia | unfold prec; lia | exact K2]).
  pose proof (dig_nonneg k).
  set (sh := Z.max 0 (dig k + e - prec)).
  assert (0 <= sh <= e) as [S1 S2] by lia.
  replace (2 ^ e) with (2 ^ (e - sh) * 2 ^ sh) by (rewrite <- Z.pow_add_r by lia; f_equal; lia).
  rewrite Z.mul_assoc. apply Z.mod_mul. apply Z.pow_nonzero; lia.
Qed.

Lemma units_on_grid f : valid f = true -> is_finite f = true ->
  on_grid prec (Z.abs (units f)).
Proof.
  intros V F. destruct f as [s|s| |s m e]; try discriminate.
  - unfold units. cbn [xval Z.abs]. unfold on_grid. apply Z.mod_0_l.
    apply Z.pow_nonzero; [lia|]. unfold shift_of. lia.
  - exact (proj1 (proj2 (proj2 (valid_finite_xval prec emax prec_pos prec_lt_emax s m e V)))).
Qed.

Lemma units_finite f : valid f = true -> is_finite f = true ->
  - infinity < units f < infinity.
Proof.
  intros V F. pose proof infinity_pos.
  destruct f as [s|s| |s m e]; try discriminate.
  - unfold units. cbn [xval]. lia.
  - pose proof (valid_finite_xval prec emax prec_pos prec_lt_emax s m e V) as [_ [B _]].
    cbv zeta in B. fold (units (S754_finite s m e)) in B. unfold infinity. lia.
Qed.

(** ** Values as rationals, and halves *)

Lemma value_units f : valid f = true -> is_finite f = true ->
  (value f == inject_Z (units f) / inject_Z (2 ^ 1074))%Q.
Proof.
  intros V F. destruct f as [s|s| |s m e]; try discriminate.
  - unfold value, units. cbn [xval]. reflexivity.
  - pose proof (valid_finite prec emax prec_pos prec_lt_emax s m e V) as [[He _] _].
    rewrite emin_64 in He.
    unfold units, value. cbn [xval]. rewrite emin_64.
    replace (e - -1074) with (e + 1074) by lia.
    set (a := cond_Zopp s (Zpos m)).
    replace (cond_Zopp s (Zpos m * 2 ^ (e + 1074))) with (a * 2 ^ (e + 1074))
      by (unfold a; destruct s; cbn [cond_Zopp]; lia).
    clearbody a.
    rewrite inject_Z_mult. rewrite !Zpower_Qpower by lia.
    rewrite Qpower_plus by discriminate.
    assert (~ (inject_Z 2 ^ 1074 == 0)%Q) as Hn.
    { apply Qpower_not_0. discriminate. }
    change (inject_Z 2) with 2%Q in *. field; exact Hn.
Qed.

Lemma on_grid_half z : 0 <= z -> on_grid prec z -> z mod 2 = 0 -> on_grid prec (z / 2).
Proof.
  intros Hz G E. apply Z.div_exact in E; [|lia].
  set (h := z / 2) in *. unfold on_grid, shift_of in *.
  destruct (Z.eq_dec h 0) as [H0|H0]; [rewrite H0; apply Z.mod_0_l, Z.pow_nonzero; lia|].
  assert (0 < h) as Hh by lia.
  assert (dig z = dig h + 1) as D.
  { rewrite E. rewrite Z.mul_comm. change 2 with (2 ^ 1) at 1. apply dig_mul_pow2; lia. }
  rewrite D in G.
  destruct (Z.le_gt_cases (dig h) prec) as [S|S].
  - replace (Z.max 0 (dig h - prec)) with 0 by lia. apply Z.mod_1_r.
  - replace (Z.max 0 (dig h + 1 - prec)) with (Z.max 0 (dig h - prec) + 1) in G by lia.
    set (sh := Z.max 0 (dig h - prec)) in *. assert (0 <= sh) by lia.
    clearbody sh. clearbody h.
    rewrite Z.pow_add_r in G by lia. change (2 ^ 1) with 2 in G.
    assert (0 < 2 ^ sh) by (apply Z.pow_pos_nonneg; lia).
    apply Z.div_exact in G; [|lia].
    set (c := z / (2 ^ sh * 2)) in *. clearbody c.
    assert (h = c * 2 ^ sh) as -> by nia.
    apply Z.mod_mul. lia.
Qed.

Lemma on_grid_even z : on_grid prec z -> 2 ^ prec <= z -> z mod 2 = 0.
Proof.
  intros G B. unfold on_grid, shift_of in G.
  assert (prec + 1 <= dig z) as D by (apply (dig_ge prec emax prec_pos prec_lt_emax); [unfold prec; lia|exact B]).
  set (sh := Z.max 0 (dig z - prec)) in *. assert (1 <= sh) by lia.
  assert (0 < 2 ^ (sh - 1)) by (apply Z.pow_pos_nonneg; lia).
  replace (2 ^ sh) with (2 ^ (sh - 1) * 2) in G
    by (rewrite Z.mul_comm, <- Z.pow_succ_r by lia; f_equal; lia).
  apply Z.div_exact in G; [|lia].
  rewrite G. rewrite (Z.mul_comm (2 ^ (sh - 1) * 2)), Z.mul_assoc. apply Z.mod_mul. lia.
Qed.

End Float64Facts.

Module SelectionFacts.
Import Py.
Import Selection.
Import Binary.
Import BinaryFacts.
Import Float64.
Import Float64Facts.
Import SelectionSpec.

Lemma quotient_units_mono z1 z2 : z1 <= z2 -> quotient_units z1 <= quotient_units z2.
Proof.
  intros H. unfold quotient_units.
  assert (0 < 2 ^ 1072) by (apply Z.pow_pos_nonneg; lia).
  assert (0 < 2 ^ 1074) by (apply Z.pow_pos_nonneg; lia).
  apply round_mono; try lia.
  assert (round (z1 - 2 ^ 1075) 1 <= round (z2 - 2 ^ 1075) 1) by (apply round_mono; lia).
  nia.
Qed.

Lemma quotient_spec v : valid v = true -> is_nan v = false ->
  valid (quotient v) = true /\ is_nan (quotient v) = false /\
  units (quotient v) = quotient_units (units v).
Proof.
  intros V N. unfold quotient, quotient_units.
  destruct (is_finite v) eqn:F.
  - destruct (fsub_units v CONTEXT_OVERHEAD_GB V eq_refl F eq_refl) as [Vx [Nx Ux]].
    rewrite units_context in Ux. rewrite <- Ux.
    set (x := fsub v CONTEXT_OVERHEAD_GB) in *. clearbody x.
    destruct (is_finite x) eqn:Fx.
    + rewrite quant_finite.
      destruct (fdiv_units x false 6755399441055744 (-53) Vx eq_refl Fx) as [Vq [Nq Uq]].
      split; [exact Vq|split; [exact Nq|]].
      rewrite Uq. rewrite <- quant_finite, units_quant.
      assert (0 < 3 * 2 ^ 1072) by (apply Z.mul_pos_pos; [lia|apply Z.pow_pos_nonneg; lia]).
      rewrite Z.sgn_pos, Z.abs_eq, Z.mul_1_r by lia. reflexivity.
    + destruct (not_finite_inv x Fx Nx) as [s ->].
      destruct s; vm_compute; repeat split; reflexivity.
  - destruct (not_finite_inv v F N) as [s ->].
    destruct s; vm_compute; repeat split; reflexivity.
Qed.

Lemma quant_pos : flt (of_int 0) QUANT_4BIT_GB_PER_BILLION = true.
Proof. reflexivity. Qed.

Lemma max_params_of_eq v :
  max_params_of v
  = if flt (quotient v) (of_int 2) then PyInt 2 else PyFloat (quotient v).
Proof. unfold max_params_of. rewrite quant_pos. reflexivity. Qed.

Lemma shiftl_units m e : -1074 <= e ->
  Z.shiftl (Zpos m) e = Zpos m * 2 ^ (e + 1074) / 2 ^ 1074.
Proof.
  intros He. assert (0 < 2 ^ 1074) by (apply Z.pow_pos_nonneg; lia).
  destruct (Z.le_gt_cases 0 e) as [P|N].
  - rewrite Z.shiftl_mul_pow2 by lia. rewrite Z.pow_add_r by lia.
    rewrite Z.mul_assoc. symmetry. apply Z.div_mul. lia.
  - rewrite <- (Z.opp_involutive e) at 1. rewrite Z.shiftl_opp_r.
    rewrite Z.shiftr_div_pow2 by lia.
    replace (2 ^ 1074) with (2 ^ (- e) * 2 ^ (e + 1074)).
    + symmetry. apply Z.div_mul_cancel_r.
      * apply Z.pow_nonzero; lia.
      * apply Z.pow_nonzero; lia.
    + rewrite <- Z.pow_add_r by lia. f_equal. lia.
Qed.

(** [max_params] in terms of the value of [vram_gb]. *)
Lemma max_params_units v : valid v = true -> is_nan v = false ->
  max_params v
  = if quotient_units (units v) <? infinity
    then Ret (Z.max 2 (quotient_units (units v) / 2 ^ 1074))
    else Raise overflow_error.
Proof.
  intros V N. destruct (quotient_spec v V N) as [Vq [Nq Uq]].
  unfold max_params. rewrite max_params_of_eq. rewrite <- Uq.
  set (q := quotient v) in *. clearbody q.
  assert (0 < 2 ^ 1074) as Hp by (apply Z.pow_pos_nonneg; lia).
  unfold flt, SFltb.
  rewrite (compare_units q (of_int 2) Vq eq_refl Nq eq_refl).
  change (units (of_int 2)) with (2 ^ 1075).
  pose proof (units_bounds q Vq) as Hb.
  assert (2 ^ 1075 = 2 * 2 ^ 1074) as E2.
  { change 1075 with (1 + 1074). rewrite Z.pow_add_r by lia. reflexivity. }
  assert (2 ^ 1075 < infinity) as Hinf.
  { rewrite infinity_eq. apply Z.pow_lt_mono_r; lia. }
  destruct (Z.compare_spec (units q) (2 ^ 1075)) as [E|L|G].
  - (* q = 2.0 *)
    replace (units q <? infinity) with true by (symmetry; apply Z.ltb_lt; lia).
    destruct q as [s|s| |s m e]; try discriminate; cbn [int int_of_float].
    + exfalso. unfold units in E. cbn [xval] in E. fold infinity in E.
      destruct s; cbn [cond_Zopp] in E; lia.
    + pose proof (valid_finite prec emax prec_pos prec_lt_emax s m e Vq) as [[He _] _].
      rewrite emin_64 in He.
      unfold units in *. cbn [xval] in *. rewrite emin_64 in *.
      replace (e - -1074) with (e + 1074) in * by lia.
      assert (0 < Zpos m * 2 ^ (e + 1074)).
      { apply Z.mul_pos_pos; [lia|apply Z.pow_pos_nonneg; lia]. }
      destruct s; cbn [cond_Zopp] in *; [lia|].
      rewrite shiftl_units by lia. f_equal.
      rewrite E, E2. rewrite Z.div_mul by lia. reflexivity.
  - (* q < 2.0 *)
    cbn [int].
    replace (units q <? infinity) with true by (symmetry; apply Z.ltb_lt; lia).
    f_equal.
    assert (units q / 2 ^ 1074 < 2) by (apply Z.div_lt_upper_bound; lia).
    lia.
  - (* 2.0 < q *)
    destruct q as [s|s| |s m e]; try discriminate; cbn [int int_of_float].
    + unfold units in *. cbn [xval] in *. fold infinity in *.
      destruct s; cbn [cond_Zopp] in *; [lia|].
      rewrite Z.ltb_irrefl. reflexivity.
    + pose proof (valid_finite_value prec emax prec_pos prec_lt_emax s m e Vq) as [Hz _].
      pose proof (valid_finite prec emax prec_pos prec_lt_emax s m e Vq) as [[He _] _].
      cbv zeta in Hz. fold infinity in Hz.
      unfold units in *. cbn [xval] in *. rewrite emin_64 in *.
      replace (e - -1074) with (e + 1074) in * by lia.
      destruct s; cbn [cond_Zopp] in *; [lia|].
      replace (Zpos m * 2 ^ (e + 1074) <? infinity) with true
        by (symmetry; apply Z.ltb_lt; lia).
      rewrite shiftl_units by lia. f_equal.
      assert (2 <= Zpos m * 2 ^ (e + 1074) / 2 ^ 1074)
        by (apply Z.div_le_lower_bound; lia).
      lia.
Qed.

Lemma recommend_models_result v d :
  result (recommend_models v d)
  = match max_params v with
    | Ret n => Ret (n, tier_models (tier_of v))
    | Raise e => Raise e
    end.
Proof.
  unfold recommend_models, max_params.
  destruct (int (max_params_of v)) as [n|e]; [|reflexivity].
  unfold bind, print, print_all, lift, ret, result.
  destruct (String.eqb d "cpu"); reflexivity.
Qed.

Lemma fle_not_nan x y : fle x y = true -> is_nan x = false /\ is_nan y = false.
Proof.
  unfold fle, SFleb. destruct x as [s|s| |s m e], y as [s'|s'| |s' m' e'];
    try discriminate; intros _; split; reflexivity.
Qed.

Lemma fle_units x y : valid x = true -> valid y = true ->
  fle x y = true -> units x <= units y.
Proof.
  intros Vx Vy H. destruct (fle_not_nan x y H) as [Nx Ny].
  unfold fle, SFleb in H. rewrite (compare_units x y Vx Vy Nx Ny) in H.
  destruct (Z.compare_spec (units x) (units y)); try discriminate; lia.
Qed.

Lemma max_params_mono v1 v2 n2 : valid v1 = true -> valid v2 = true ->
  fle v1 v2 = true -> max_params v2 = Ret n2 ->
  exists n1, max_params v1 = Ret n1 /\ n1 <= n2.
Proof.
  intros V1 V2 Hle R2. destruct (fle_not_nan _ _ Hle) as [N1 N2].
  pose proof (fle_units _ _ V1 V2 Hle) as Hu.
  apply quotient_units_mono in Hu.
  rewrite (max_params_units v2 V2 N2) in R2. rewrite (max_params_units v1 V1 N1).
  destruct (Z.ltb_spec (quotient_units (units v2)) infinity) as [Hlt|]; [|discriminate].
  injection R2 as <-.
  replace (quotient_units (units v1) <? infinity) with true by (symmetry; apply Z.ltb_lt; lia).
  eexists. split; [reflexivity|].
  assert (0 < 2 ^ 1074) by (apply Z.pow_pos_nonneg; lia).
  pose proof (Z.div_le_mono _ _ (2 ^ 1074) ltac:(lia) Hu). lia.
Qed.

Lemma floor_value f : valid f = true -> is_finite f = true ->
  Qfloor (value f) = units f / 2 ^ 1074.
Proof.
  intros V F. destruct f as [s|s| |s m e]; try discriminate.
  - reflexivity.
  - pose proof (valid_finite prec emax prec_pos prec_lt_emax s m e V) as [[He _] _].
    rewrite emin_64 in He.
    unfold units, value. cbn [xval]. rewrite emin_64.
    replace (e - -1074) with (e + 1074) by lia.
    set (a := cond_Zopp s (Zpos m)).
    replace (cond_Zopp s (Zpos m * 2 ^ (e + 1074))) with (a * 2 ^ (e + 1074))
      by (unfold a; destruct s; cbn [cond_Zopp]; lia).
    clearbody a.
    assert (0 < 2 ^ 1074) by (apply Z.pow_pos_nonneg; lia).
    destruct (Z.le_gt_cases 0 e) as [P|N].
    + assert ((inject_Z a * 2 ^ e == inject_Z (a * 2 ^ e))%Q) as ->.
      { rewrite inject_Z_mult. rewrite Zpower_Qpower by lia. reflexivity. }
      rewrite Qfloor_Z. rewrite Z.pow_add_r by lia. rewrite Z.mul_assoc.
      symmetry. apply Z.div_mul. lia.
    + assert ((inject_Z a * 2 ^ e == inject_Z a / inject_Z (2 ^ (- e)))%Q) as ->.
      { unfold Qdiv. rewrite Zpower_Qpower by lia. rewrite <- Qpower_opp.
        rewrite Z.opp_involutive. reflexivity. }
      rewrite <- Zdiv_Qdiv.
      replace (2 ^ 1074) with (2 ^ (- e) * 2 ^ (e + 1074)).
      * symmetry. apply Z.div_mul_cancel_r; apply Z.pow_nonzero; lia.
      * rewrite <- Z.pow_add_r by lia. f_equal. lia.
Qed.

Lemma valid_abs v : valid (SFabs v) = valid v.
Proof. destruct v; reflexivity. Qed.

Lemma units_abs v : units (SFabs v) = Z.abs (units v).
Proof.
  assert (0 < infinity) by (rewrite infinity_eq; apply Z.pow_pos_nonneg; lia).
  destruct v as [s|s| |s m e]; try reflexivity; unfold units; cbn [SFabs xval].
  - fold infinity. destruct s; cbn [cond_Zopp]; lia.
  - assert (0 < 2 ^ (e - emin prec emax) \/ 2 ^ (e - emin prec emax) = 0) as [P|P].
    { destruct (Z.le_gt_cases 0 (e - emin prec emax)).
      - left. apply Z.pow_pos_nonneg; lia.
      - right. apply Z.pow_neg_r. lia. }
    + destruct s; cbn [cond_Zopp]; nia.
    + rewrite P. destruct s; cbn [cond_Zopp]; lia.
Qed.

Lemma units_memory_bound : units memory_bound = 2 ^ 2097.
Proof. vm_compute. reflexivity. Qed.

Lemma quotient_units_bound z : Z.abs z <= 2 ^ 2097 ->
  - infinity < quotient_units z < infinity.
Proof.
  intros H.
  assert (- 2 ^ 2097 <= z <= 2 ^ 2097) as [H1 H2] by lia.
  apply quotient_units_mono in H1. apply quotient_units_mono in H2.
  assert (- infinity < quotient_units (- 2 ^ 2097)) by (vm_compute; reflexivity).
  assert (quotient_units (2 ^ 2097) < infinity) by (vm_compute; reflexivity).
  lia.
Qed.

Lemma finite_of_units f : valid f = true -> is_nan f = false ->
  - infinity < units f < infinity -> is_finite f = true.
Proof.
  intros V N H. destruct f as [s|s| |s m e]; try discriminate; try reflexivity.
  exfalso. unfold units in H. cbn [xval] in H. fold infinity in H.
  destruct s; cbn [cond_Zopp] in H; lia.
Qed.

(** Comparisons of floats, whether well formed or not, are transitive. *)
Lemma flt_trans x y z : flt x y = true -> flt y z = true -> flt x z = true.
Proof.
  unfold flt, SFltb.
  destruct x as [sx|sx| |sx mx ex], y as [sy|sy| |sy my ey], z as [sz|sz| |sz mz ez];
    cbn [SFcompare]; try discriminate;
    repeat match goal with s : bool |- _ => destruct s end;
    try discriminate; try reflexivity;
    change (Pos.compare_cont Eq) with Pos.compare;
    repeat match goal with
    | |- context [Z.compare ?a ?b] => destruct (Z.compare_spec a b)
    | |- context [Pos.compare ?a ?b] => destruct (Pos.compare_spec a b)
    end; cbn [CompOpp]; try discriminate; try reflexivity; intros _ _; exfalso; lia.
Qed.

Lemma flt_not_fge x y : flt x y = true -> fge x y = false.
Proof. unfold flt, SFltb, fge. destruct (SFcompare x y) as [[ | | ]|]; try discriminate; reflexivity. Qed.

(** Sizes up to [memory_bound] have a finite quotient. *)
Lemma bounded_memory v : valid v = true -> fle (SFabs v) memory_bound = true ->
  is_nan v = false /\ - infinity < quotient_units (units v) < infinity.
Proof.
  intros V B.
  assert (valid (SFabs v) = true) as Va by (rewrite valid_abs; exact V).
  pose proof (fle_units (SFabs v) memory_bound Va eq_refl B) as Hu.
  rewrite units_abs, units_memory_bound in Hu.
  split; [|apply quotient_units_bound; exact Hu].
  apply fle_not_nan in B. destruct v; try reflexivity. destruct B; discriminate.
Qed.

(** ** The quotient against exact arithmetic

    Below [2^51] the subtraction of 2.0 is exact for sizes from 1.0 on, and
    the rounding of the division by 0.75 never reaches the next integer:
    the quotient of a float with spacing [u] by 0.75 is at least [4u/3]
    from the integers it is not equal to, the floats around it are at most
    [2u] apart. *)

Lemma shift_of_bound z k : 0 <= z < 2 ^ k -> prec <= k -> shift_of prec z <= k - prec.
Proof.
  intros [Z1 Z2] Hk. unfold shift_of.
  assert (dig z <= k) by (apply dig_le; [lia|unfold prec in Hk; lia|exact Z2]). lia.
Qed.

Lemma on_grid_multiple z : 0 <= z -> on_grid prec z ->
  exists c, z = c * 2 ^ shift_of prec z /\ 0 <= c.
Proof.
  intros Hz G. unfold on_grid in G.
  assert (0 < 2 ^ shift_of prec z) as Hp
    by (apply Z.pow_pos_nonneg; [lia|unfold shift_of; lia]).
  apply Z.div_exact in G; [|lia].
  exists (z / 2 ^ shift_of prec z). split; [lia|].
  apply Z.div_pos; lia.
Qed.

Lemma on_grid_of_multiple z k c : 0 <= z -> z = c * 2 ^ k -> shift_of prec z <= k ->
  on_grid prec z.
Proof.
  intros Hz E Hk. unfold on_grid.
  assert (0 <= shift_of prec z) by (unfold shift_of; lia).
  rewrite E at 1.
  replace (2 ^ k) with (2 ^ (k - shift_of prec z) * 2 ^ shift_of prec z)
    by (rewrite <- Z.pow_add_r by lia; f_equal; lia).
  rewrite Z.mul_assoc. apply Z.mod_mul. apply Z.pow_nonzero; lia.
Qed.

(** [vram_gb - 2.0] is exact from 1.0 up to [2^54]. *)
Lemma sub_context_on_grid V :
  on_grid prec V -> 2 ^ 1074 <= V < 2 ^ 1128 -> on_grid prec (Z.abs (V - 2 ^ 1075)).
Proof.
  intros G [L U].
  assert (0 < 2 ^ 1074) as HU by (apply Z.pow_pos_nonneg; lia).
  assert (2 ^ 1075 = 2 * 2 ^ 1074) as E2 by (change 1075 with (1 + 1074); rewrite Z.pow_add_r by lia; reflexivity).
  destruct (on_grid_multiple V ltac:(lia) G) as [c [Ec Hc]].
  pose proof (shift_of_bound V 1128 ltac:(lia) ltac:(unfold prec; lia)) as Hs.
  unfold prec in Hs at 2.
  set (sh := shift_of prec V) in *.
  assert (0 <= sh) by (unfold sh, shift_of; lia).
  assert (0 <= Z.abs (V - 2 ^ 1075) <= V) as [A1 A2] by lia.
  assert (2 ^ 1075 = 2 ^ (1075 - sh) * 2 ^ sh) as E3
    by (rewrite <- Z.pow_add_r by lia; f_equal; lia).
  apply (on_grid_of_multiple _ sh (Z.abs (c - 2 ^ (1075 - sh)))); [lia| |].
  - rewrite Ec, E3 at 1. rewrite <- Z.mul_sub_distr_r.
    rewrite Z.abs_mul. f_equal. apply Z.abs_eq. apply Z.pow_nonneg. lia.
  - apply (shift_of_mono prec emax prec_pos prec_lt_emax). lia.
Qed.

Lemma rnd_floor_quotient S :
  0 < S < 2 ^ 1125 -> on_grid prec S -> 2 * 2 ^ 1074 <= (4 * S) / 3 ->
  let n := (4 * S) / (3 * 2 ^ 1074) in
  n * 2 ^ 1074 <= rnd prec (4 * S) 3 < (n + 1) * 2 ^ 1074.
Proof.
  intros [S1 S2] G _ n.
  assert (0 < 2 ^ 1074) as HU by (apply Z.pow_pos_nonneg; lia).
  set (U := 2 ^ 1074) in *.
  assert (n * (3 * U) <= 4 * S < (n + 1) * (3 * U)) as [N1 N2].
  { unfold n. pose proof (Z.div_mod (4 * S) (3 * U) ltac:(lia)).
    pose proof (Z.mod_pos_bound (4 * S) (3 * U) ltac:(lia)). lia. }
  assert (0 <= n) as N0 by (apply Z.div_pos; lia).
  assert (n < 2 ^ prec) as N3.
  { apply Z.div_lt_upper_bound; [lia|].
    assert (2 ^ 1125 = 2 ^ 51 * U) as E by (unfold U; rewrite <- Z.pow_add_r by lia; reflexivity).
    unfold prec. lia. }
  split.
  - rewrite <- (rnd_exact prec emax prec_pos prec_lt_emax (n * U)).
    + apply (rnd_mono prec emax prec_pos prec_lt_emax); lia.
    + lia.
    + apply on_grid_scaled; [lia|lia].
  - destruct (Z.lt_ge_cases (rnd prec (4 * S) 3) ((n + 1) * U)) as [|C]; [assumption|exfalso].
    unfold rnd in C. cbv zeta in C.
    set (sh := shift_of prec (4 * S / 3)) in *.
    assert (0 <= sh) as Hsh by (unfold sh, shift_of; lia).
    assert (0 < 2 ^ sh) as Hp by (apply Z.pow_pos_nonneg; lia).
    pose proof (rne_div_spec (4 * S) (3 * 2 ^ sh) ltac:(lia)) as Sp. cbv zeta in Sp.
    set (R := rne_div (4 * S) (3 * 2 ^ sh)) in *.
    assert (2 * (3 * 2 ^ sh) * R <= 2 * (4 * S) + 3 * 2 ^ sh) as Sp' by lia.
    clear Sp.
    (* the distance to the next integer *)
    destruct (on_grid_multiple S ltac:(lia) G) as [c [Ec Hc]].
    pose proof (shift_of_bound S 1125 ltac:(lia) ltac:(unfold prec; lia)) as Hs.
    unfold prec in Hs at 2.
    set (shS := shift_of prec S) in *.
    assert (0 <= shS) as HshS by (unfold shS, shift_of; lia).
    assert (0 < 2 ^ shS) as HpS by (apply Z.pow_pos_nonneg; lia).
    assert (U = 2 ^ (1072 - shS) * (4 * 2 ^ shS)) as EU.
    { unfold U. change 4 with (2 ^ 2). rewrite <- !Z.pow_add_r by lia. f_equal. lia. }
    assert (0 < 2 ^ (1072 - shS)) as Hq by (apply Z.pow_pos_nonneg; lia).
    set (D := 3 * (n + 1) * 2 ^ (1072 - shS) - c).
    assert (3 * (n + 1) * U - 4 * S = D * (4 * 2 ^ shS)) as ED.
    { unfold D. rewrite Ec at 1. rewrite EU at 1. ring. }
    assert (1 <= D) as HD by nia.
    (* the spacing of the floats around the quotient *)
    assert (sh <= shS + 1) as Hle.
    { unfold sh, shS, shift_of.
      assert (dig (4 * S / 3) <= dig (S * 2 ^ 1)).
      { apply dig_mono. split; [apply Z.div_pos; lia|].
        apply Z.div_le_upper_bound; lia. }
      rewrite dig_mul_pow2 in H by lia. lia. }
    assert (2 ^ sh <= 2 * 2 ^ shS) as Hpow.
    { replace (2 * 2 ^ shS) with (2 ^ (shS + 1)) by (rewrite Z.pow_add_r by lia; lia).
      apply Z.pow_le_mono_r; lia. }
    nia.
Qed.

Lemma round_positive a b : 0 < a -> 0 < b -> rnd prec a b < infinity ->
  round a b = rnd prec a b.
Proof.
  intros Ha Hb Hlt. unfold round, rndS.
  rewrite Z.sgn_pos, Z.abs_eq, Z.mul_1_l by lia.
  pose proof (rnd_nonneg prec emax prec_pos prec_lt_emax a b ltac:(lia) Hb).
  apply (clamp_small prec emax prec_pos prec_lt_emax).
  pose proof infinity_pos. unfold infinity in *. lia.
Qed.

(** Up to [2^51] the quotient has the integer part of [(v - 2) / 0.75]. *)
Lemma quotient_units_floor V :
  on_grid prec (Z.abs V) -> - infinity < V < 2 ^ 1125 ->
  quotient_units V < infinity /\
  Z.max 2 (quotient_units V / 2 ^ 1074)
  = Z.max 2 ((4 * (V - 2 * 2 ^ 1074)) / (3 * 2 ^ 1074)).
Proof.
  intros G [L H].
  assert (0 < 2 ^ 1074) as HU by (apply Z.pow_pos_nonneg; lia).
  assert (2 ^ 1075 = 2 * 2 ^ 1074) as E2
    by (change 1075 with (1 + 1074); rewrite Z.pow_add_r by lia; reflexivity).
  assert (2 ^ 1125 = 2 ^ 51 * 2 ^ 1074) as E3 by (rewrite <- Z.pow_add_r by lia; reflexivity).
  assert (2 ^ prec * 2 ^ 1074 < infinity) as Hinf by (vm_compute; reflexivity).
  assert (3 * 2 ^ 1072 * 4 = 3 * 2 ^ 1074) as E4
    by (change 1074 with (1072 + 2); rewrite Z.pow_add_r by lia; change (2 ^ 2) with 4; ring).
  assert (0 < 2 ^ 1072) as HU' by (apply Z.pow_pos_nonneg; lia).
  pose proof infinity_pos as Hip.
  unfold quotient_units.
  set (U := 2 ^ 1074) in *.
  destruct (Z.lt_ge_cases V U) as [B|A].
  - (* below 1.0 *)
    assert (round (V - 2 ^ 1075) 1 <= - U) as HS.
    { rewrite <- (round_exact (- U)).
      - apply round_mono; lia.
      - rewrite Z.abs_opp, Z.abs_eq by lia.
        rewrite <- (Z.mul_1_l U). apply on_grid_scaled; [split; [lia|reflexivity]|lia].
      - unfold prec in Hinf. lia. }
    set (S := round (V - 2 ^ 1075) 1) in *.
    assert (round (S * U) (3 * 2 ^ 1072) <= 0) as HQ.
    { rewrite <- (round_0 1). apply round_mono; nia. }
    split; [lia|].
    assert (round (S * U) (3 * 2 ^ 1072) / U <= 0)
      by (apply Z.div_le_upper_bound; lia).
    assert (4 * (V - 2 * U) / (3 * U) < 0)
      by (apply Z.div_lt_upper_bound; lia).
    lia.
  - (* from 1.0 on: the subtraction is exact *)
    assert (0 <= V) as V0 by lia. rewrite Z.abs_eq in G by exact V0.
    assert (V < 2 ^ 1128) as V1.
    { apply Z.lt_trans with (2 ^ 1125); [exact H|]. apply Z.pow_lt_mono_r; lia. }
    pose proof (sub_context_on_grid V G (conj A V1)) as GS.
    rewrite (round_exact (V - 2 ^ 1075) GS) by (unfold prec in Hinf; lia).
    rewrite E2 in *. set (S := V - 2 * U) in *.
    rewrite (round_ratio (S * U) (3 * 2 ^ 1072) (4 * S) 3) by lia.
    destruct (Z.lt_ge_cases (4 * S) (6 * U)) as [Lo|Hi].
    + (* the quotient is below 2.0 *)
      assert (round (4 * S) 3 <= 2 * U) as HQ.
      { rewrite <- (round_exact (2 * U)).
        - apply round_mono; lia.
        - rewrite Z.abs_eq by lia. apply on_grid_scaled; [split; [lia|reflexivity]|lia].
        - unfold prec in Hinf. lia. }
      split; [unfold prec in Hinf; lia|].
      assert (round (4 * S) 3 / U <= 2) by (apply Z.div_le_upper_bound; lia).
      assert (4 * S / (3 * U) < 2) by (apply Z.div_lt_upper_bound; lia).
      lia.
    + assert (0 < S) as S0 by lia. rewrite Z.abs_eq in GS by lia.
      assert (2 * U <= 4 * S / 3) as Hq by (apply Z.div_le_lower_bound; lia).
      pose proof (rnd_floor_quotient S ltac:(lia) GS Hq) as [N1 N2]. fold U in N1, N2.
      set (n := 4 * S / (3 * U)) in *.
      assert (n < 2 ^ prec) as N3.
      { apply Z.div_lt_upper_bound; [lia|]. unfold prec. lia. }
      assert (rnd prec (4 * S) 3 < infinity) as Hlt by nia.
      rewrite (round_positive (4 * S) 3 ltac:(lia) ltac:(lia) Hlt).
      split; [exact Hlt|].
      f_equal. symmetry. apply (Z.div_unique_pos _ _ _ (rnd prec (4 * S) 3 - n * U)); lia.
Qed.

Lemma flt_units x y : valid x = true -> valid y = true ->
  flt x y = true -> units x < units y.
Proof.
  intros Vx Vy H. unfold flt, SFltb in H.
  assert (is_nan x = false /\ is_nan y = false) as [Nx Ny].
  { destruct x as [s|s| |s m e], y as [s'|s'| |s' m' e']; try discriminate; split; reflexivity. }
  rewrite (compare_units x y Vx Vy Nx Ny) in H.
  destruct (Z.compare_spec (units x) (units y)); try discriminate; lia.
Qed.

(** [(v - 2) / 0.75] in exact arithmetic. *)
Lemma exact_quotient_floor v : valid v = true -> is_finite v = true ->
  Qfloor ((value v - 2) / (3 # 4))
  = (4 * (units v - 2 * 2 ^ 1074)) / (3 * 2 ^ 1074).
Proof.
  intros V F. rewrite Zdiv_Qdiv. apply Qfloor_comp.
  rewrite (value_units v V F).
  replace (4 * (units v - 2 * 2 ^ 1074)) with (4 * units v - 8 * 2 ^ 1074) by ring.
  unfold Z.sub. rewrite inject_Z_plus, inject_Z_opp, !inject_Z_mult.
  assert (~ (inject_Z (2 ^ 1074) == 0)%Q) as Hn.
  { change 0%Q with (inject_Z 0). rewrite inject_Z_injective. apply Z.pow_nonzero; lia. }
  set (a := inject_Z (units v)). set (c := inject_Z (2 ^ 1074)) in *.
  change (inject_Z 4) with 4%Q. change (inject_Z 8) with 8%Q. change (inject_Z 3) with 3%Q.
  field. exact Hn.
Qed.

Lemma max_params_exact v : valid v = true -> is_finite v = true ->
  flt v exact_bound = true ->
  max_params v = Ret (Z.max 2 (Qfloor ((value v - 2) / (3 # 4)))).
Proof.
  intros V F B.
  assert (is_nan v = false) as N by (destruct v; try discriminate; reflexivity).
  pose proof (flt_units v exact_bound V eq_refl B) as Hu.
  change (units exact_bound) with (2 ^ 1125) in Hu.
  destruct (quotient_units_floor (units v) (units_on_grid v V F)
              (conj (proj1 (units_finite v V F)) Hu)) as [Q E].
  rewrite (max_params_units v V N).
  apply Z.ltb_lt in Q. rewrite Q. rewrite E, exact_quotient_floor by assumption.
  reflexivity.
Qed.

End SelectionFacts.

Module ReportFacts.
Import Py.
Import Report.
Import Selection.
Import ReportSpec.

Local Open Scope string_scope.

Lemma append_assoc (a b c : string) : (a ++ b) ++ c = a ++ (b ++ c).
Proof. induction a as [|x a IH]; simpl; [reflexivity|]. rewrite IH. reflexivity. Qed.

Lemma append_nil_r (a : string) : a ++ "" = a.
Proof. induction a as [|x a IH]; simpl; [reflexivity|]. rewrite IH. reflexivity. Qed.

Lemma join_app (l1 l2 : list string) : join (l1 ++ l2) = join l1 ++ join l2.
Proof.
  induction l1 as [|p l1 IH]; simpl; [reflexivity|].
  rewrite IH, append_assoc. reflexivity.
Qed.

Lemma contains_join (l1 l2 : list string) (s : string) : contains s (join (l1 ++ s :: l2)).
Proof.
  exists (join l1), (join l2). rewrite join_app. reflexivity.
Qed.

Lemma contains_refl s : contains s s.
Proof. exists "", "". simpl. rewrite append_nil_r. reflexivity. Qed.

Lemma contains_append_l s a b : contains s a -> contains s (a ++ b).
Proof.
  intros [p [q ->]]. exists p, (q ++ b). rewrite !append_assoc. reflexivity.
Qed.

Lemma contains_append_r s a b : contains s b -> contains s (a ++ b).
Proof.
  intros [p [q ->]]. exists (a ++ p), q. rewrite !append_assoc. reflexivity.
Qed.

Lemma contains_trans a b c : contains a b -> contains b c -> contains a c.
Proof.
  intros [p [q ->]] [p' [q' ->]]. exists (p' ++ p), (q ++ q').
  rewrite !append_assoc. reflexivity.
Qed.

Lemma generate_html_report_document ts sys ram dev vram mp gpus models :
  generate_html_report ts sys ram dev vram mp gpus models
  = document ts sys ram dev vram mp models
      (gpu_section (build_gpu_html gpus)) (warning_section dev).
Proof. reflexivity. Qed.

Lemma nonempty_append a b : nonempty a = true -> nonempty (a ++ b) = true.
Proof. destruct a; [discriminate|reflexivity]. Qed.

Lemma nonempty_append_r a b : nonempty b = true -> nonempty (a ++ b) = true.
Proof. destruct a; [simpl; trivial|reflexivity]. Qed.

Lemma gpu_card_nonempty g : nonempty (gpu_card g) = true.
Proof. reflexivity. Qed.

Lemma fold_cards_nonempty l acc :
  nonempty acc = true ->
  nonempty (fold_left (fun html gpu => html ++ gpu_card gpu) l acc) = true.
Proof.
  revert acc. induction l as [|g l IH]; intros acc H; simpl; [exact H|].
  apply IH. apply nonempty_append. exact H.
Qed.

Lemma build_gpu_html_nonempty gpus :
  nonempty (build_gpu_html gpus) = truthy gpus.
Proof.
  unfold build_gpu_html. destruct gpus as [[|g l]|]; try reflexivity.
  cbn [truthy items fold_left]. apply fold_cards_nonempty.
  apply nonempty_append_r. apply gpu_card_nonempty.
Qed.

Lemma mismatch_append m s t : mismatch m s = true -> mismatch m (s ++ t) = true.
Proof.
  revert s. induction m as [|a m IH]; intros [|b s] H; simpl in *; try discriminate.
  destruct (Ascii.eqb a b); [apply IH; exact H | reflexivity].
Qed.

Lemma mismatch_prefix m q : mismatch m (m ++ q) = false.
Proof.
  induction m as [|a m IH]; simpl; [reflexivity|].
  rewrite Ascii.eqb_refl. exact IH.
Qed.

Lemma clean_append m s t : clean m s = true -> clean m t = true -> clean m (s ++ t) = true.
Proof.
  intros Hs Ht. induction s as [|b s IH]; simpl in *; [exact Ht|].
  apply andb_true_iff in Hs. destruct Hs as [H1 H2].
  apply andb_true_iff. split; [|apply IH; exact H2].
  apply (mismatch_append m (String b s) t H1).
Qed.

Lemma clean_join m segs : forallb (clean m) segs = true -> clean m (join segs) = true.
Proof.
  induction segs as [|s segs IH]; simpl; intros H; [reflexivity|].
  apply andb_true_iff in H. destruct H as [H1 H2].
  apply clean_append; [exact H1 | apply IH; exact H2].
Qed.

Lemma clean_free a m s : clean (String a m) s = true -> ~ contains (String a m) s.
Proof.
  intros H [p [q E]]. revert s H E.
  induction p as [|b p IH]; intros s H E; subst s.
  - cbn [append clean] in H. apply andb_true_iff in H. destruct H as [H _].
    change (String a (m ++ q)) with (String a m ++ q) in H.
    rewrite mismatch_prefix in H. discriminate.
  - cbn [append clean] in H. apply andb_true_iff in H. destruct H as [_ H].
    exact (IH _ H eq_refl).
Qed.

Lemma plain_clean m s : plain s = true -> clean (String "<" m) s = true.
Proof.
  induction s as [|b s IH]; intros H; [reflexivity|].
  cbn [plain] in H. apply andb_true_iff in H. destruct H as [H1 H2].
  cbn [clean mismatch]. rewrite (IH H2), andb_true_r.
  rewrite Ascii.eqb_sym. apply negb_true_iff in H1. rewrite H1. reflexivity.
Qed.

Lemma plain_append s t : plain (s ++ t) = plain s && plain t.
Proof.
  induction s as [|b s IH]; simpl; [reflexivity|].
  rewrite IH, andb_assoc. reflexivity.
Qed.

Lemma plain_substring n k s : plain s = true -> plain (substring n k s) = true.
Proof.
  revert n k. induction s as [|b s IH]; intros n k H.
  - destruct n, k; reflexivity.
  - simpl in H. apply andb_true_iff in H. destruct H as [H1 H2].
    destruct n as [|n]; [destruct k as [|k]|]; simpl; auto.
    rewrite H1. simpl. apply IH. exact H2.
Qed.

Lemma plain_string_of_uint d : plain (NilEmpty.string_of_uint d) = true.
Proof. induction d; simpl; auto. Qed.

Lemma plain_str_of_int n : plain (str_of_int n) = true.
Proof.
  unfold str_of_int, NilZero.string_of_int, NilZero.string_of_uint.
  destruct (Z.to_int n) as [d|d]; destruct d; simpl; auto using plain_string_of_uint.
Qed.

Lemma plain_fixed_digits p n : plain (fixed_digits p n) = true.
Proof.
  unfold fixed_digits. rewrite plain_append, plain_str_of_int.
  destruct p; simpl; [reflexivity|].
  apply plain_substring, plain_str_of_int.
Qed.

Lemma plain_format_fixed p x : plain (format_fixed p x) = true.
Proof.
  destruct x as [s|s| |s m e]; unfold format_fixed;
    try (rewrite plain_append, plain_fixed_digits, andb_true_r);
    try (destruct s; reflexivity).
  reflexivity.
Qed.

Lemma tier_badge_plain v :
  plain (fst (tier_badge v)) = true /\ plain (snd (tier_badge v)) = true.
Proof.
  unfold tier_badge.
  repeat match goal with |- context [if ?c then _ else _] => destruct c end;
    split; reflexivity.
Qed.

Lemma backend_info_plain d :
  plain (fst (fst (backend_info d))) = true /\
  plain (snd (fst (backend_info d))) = true /\
  plain (snd (backend_info d)) = true.
Proof.
  unfold backend_info.
  repeat match goal with |- context [if ?c then _ else _] => destruct c end;
    repeat split; reflexivity.
Qed.

(** ** Where no occurrence of a tag can start

    The literal text of the template never opens the tag, and text without
    ["<"] cannot: so the tag occurs in the document only where a field
    brings it. *)
Section Tag.

Variable m : string.
Let tag : string := String "<" m.

Hypothesis template_clean :
  forallb (clean tag)
    [tpl_0; tpl_1; tpl_2; tpl_3; tpl_4; tpl_5; tpl_6; tpl_7; tpl_8; tpl_9; tpl_10;
     tpl_11; tpl_12; tpl_13; tpl_14; tpl_15; tpl_16; tpl_17; tpl_18; tpl_19; tpl_20;
     tpl_21] = true.
Hypothesis model_card_clean :
  forallb (clean tag) [model_card_0; model_card_1; model_card_2] = true.
Hypothesis gpu_card_clean :
  forallb (clean tag) [gpu_card_0; gpu_card_1; gpu_card_2] = true.

Ltac split_all H :=
  cbn [forallb] in H;
  repeat match type of H with
         | _ && _ = true =>
             let H1 := fresh "L" in
             apply andb_true_iff in H; destruct H as [H1 H]
         end.

Ltac clean_segments :=
  apply clean_join; cbn [forallb];
  repeat match goal with
         | |- _ && _ = true => apply andb_true_intro; split
         end;
  lazymatch goal with
  | |- true = true => reflexivity
  | |- clean _ (format_fixed _ _) = true => apply plain_clean, plain_format_fixed
  | |- clean _ (str_of_int _) = true => apply plain_clean, plain_str_of_int
  | |- _ => first [assumption | apply plain_clean; assumption]
  end.

Lemma cards_clean {A} (card : A -> string) (l : list A) acc :
  clean tag acc = true ->
  forallb (fun x => clean tag (card x)) l = true ->
  clean tag (fold_left (fun html x => html ++ card x) l acc) = true.
Proof.
  revert acc. induction l as [|x l IH]; intros acc Ha Hl; [exact Ha|].
  cbn [forallb] in Hl. apply andb_true_iff in Hl. destruct Hl as [Hx Hl].
  cbn [fold_left]. apply IH; [|exact Hl]. apply clean_append; assumption.
Qed.

Lemma build_models_html_clean models :
  plain_models models = true -> clean tag (build_models_html models) = true.
Proof using m model_card_clean.
  intros H. unfold build_models_html. destruct (truthy models); [|reflexivity].
  apply cards_clean; [reflexivity|].
  unfold plain_models in H. induction (items models) as [|[n d] l IH]; [reflexivity|].
  cbn [forallb fst snd] in H |- *.
  apply andb_true_iff in H. destruct H as [H Hl].
  apply andb_true_iff in H. destruct H as [Hn Hd].
  rewrite (IH Hl), andb_true_r.
  pose proof model_card_clean as C. split_all C.
  unfold model_card. clean_segments.
Qed.

Lemma build_gpu_html_clean gpus :
  plain_gpus gpus = true -> clean tag (build_gpu_html gpus) = true.
Proof using m gpu_card_clean.
  intros H. unfold build_gpu_html. destruct (truthy gpus); [|reflexivity].
  apply cards_clean; [reflexivity|].
  unfold plain_gpus in H. induction (items gpus) as [|g l IH]; [reflexivity|].
  cbn [forallb] in H |- *.
  apply andb_true_iff in H. destruct H as [Hn Hl].
  rewrite (IH Hl), andb_true_r.
  pose proof gpu_card_clean as C. split_all C.
  unfold gpu_card. clean_segments.
Qed.

Lemma document_clean ts sys ram dev vram mp models device_field warning_field :
  plain sys = true -> plain ts = true -> plain_models models = true ->
  clean tag device_field = true -> clean tag warning_field = true ->
  clean tag (document ts sys ram dev vram mp models device_field warning_field) = true.
Proof using m template_clean model_card_clean.
  intros Hs Ht Hm Hd Hw. unfold document.
  destruct (backend_info_plain dev) as [B1 [B2 B3]].
  destruct (tier_badge_plain vram) as [T1 T2].
  destruct (backend_info dev) as [[bn bi] bc]. destruct (tier_badge vram) as [t tc].
  cbn [fst snd] in *.
  pose proof (build_models_html_clean models Hm) as M.
  pose proof template_clean as C. split_all C.
  unfold style_part, overview_part, models_part, footer_part. cbn [app].
  clean_segments.
Qed.

End Tag.

Lemma contains_field l1 a x b l3 a1 a2 b1 b2 :
  a = a1 ++ a2 -> b = b1 ++ b2 ->
  contains ((a2 ++ x) ++ b1) (join (l1 ++ a :: x :: b :: l3)).
Proof.
  intros -> ->. exists (join l1 ++ a1), (b2 ++ join l3).
  rewrite join_app. cbn [join]. rewrite !append_assoc. reflexivity.
Qed.

(** The text of the template around the fields of the operating system and
    of the RAM. *)
Lemma tpl_11_label :
  tpl_11 = substring 0 (length tpl_11 - length (stat_box "Operating System" ""))
             tpl_11 ++ stat_box "Operating System" "".
Proof. vm_compute. reflexivity. Qed.

Lemma tpl_12_label :
  tpl_12 = "</div>" ++ substring 6 (length tpl_12 - 6) tpl_12 /\
  tpl_12 = substring 0 (length tpl_12 - length (stat_box "Total RAM" ""))
             tpl_12 ++ stat_box "Total RAM" "".
Proof. split; vm_compute; reflexivity. Qed.

Lemma tpl_13_unit :
  tpl_13 = unit_GB ++ substring (length unit_GB) (length tpl_13 - length unit_GB) tpl_13.
Proof. vm_compute. reflexivity. Qed.

Lemma stat_box_value label value : stat_box label value = stat_box label "" ++ value.
Proof. unfold stat_box. rewrite append_nil_r. reflexivity. Qed.

Lemma document_system ts sys ram dev vram mp models device_field warning_field :
  contains (stat_box "Operating System" sys ++ "</div>")
    (document ts sys ram dev vram mp models device_field warning_field).
Proof.
  unfold document.
  destruct (backend_info dev) as [[bn bi] bc]. destruct (tier_badge vram) as [t tc].
  rewrite stat_box_value.
  match goal with |- contains _ (join (?s ++ ?o ++ ?r)%list) =>
    change (s ++ o ++ r)%list
      with ((s ++ [t]) ++ tpl_11 :: sys :: tpl_12 :: (skipn 4 o ++ r))%list
  end.
  eapply contains_field; [exact tpl_11_label | exact (proj1 tpl_12_label)].
Qed.

Lemma document_ram ts sys ram dev vram mp models device_field warning_field :
  contains (stat_box "Total RAM" (format_fixed 1 ram) ++ unit_GB)
    (document ts sys ram dev vram mp models device_field warning_field).
Proof.
  unfold document.
  destruct (backend_info dev) as [[bn bi] bc]. destruct (tier_badge vram) as [t tc].
  rewrite stat_box_value.
  match goal with |- contains _ (join (?s ++ ?o ++ ?r)%list) =>
    change (s ++ o ++ r)%list
      with ((s ++ [t; tpl_11; sys]) ++ tpl_12 :: format_fixed 1 ram :: tpl_13
              :: (skipn 6 o ++ r))%list
  end.
  eapply contains_field; [exact (proj2 tpl_12_label) | exact tpl_13_unit].
Qed.

Lemma document_fields ts sys ram dev vram mp models device_field warning_field :
  contains device_field
    (document ts sys ram dev vram mp models device_field warning_field) /\
  contains warning_field
    (document ts sys ram dev vram mp models device_field warning_field).
Proof.
  unfold document.
  destruct (backend_info dev) as [[bn bi] bc]. destruct (tier_badge vram) as [t tc].
  split.
  - match goal with |- contains _ (join (?s ++ ?o ++ [?d] ++ ?r)%list) =>
      change (s ++ o ++ [d] ++ r)%list with ((s ++ o) ++ d :: r)%list
    end.
    apply contains_join.
  - match goal with |- contains _ (join (?s ++ ?o ++ ?d ++ ?mo ++ [?w] ++ ?r)%list) =>
      change (s ++ o ++ d ++ mo ++ [w] ++ r)%list with ((s ++ o ++ d ++ mo) ++ w :: r)%list
    end.
    apply contains_join.
Qed.

Lemma gpu_section_absent gpus :
  truthy gpus = false -> gpu_section (build_gpu_html gpus) = "".
Proof.
  intros H. unfold gpu_section. rewrite build_gpu_html_nonempty, H. reflexivity.
Qed.

Lemma gpu_section_present gpus :
  truthy gpus = true ->
  gpu_section (build_gpu_html gpus) = gpu_grid_tag ++ build_gpu_html gpus ++ "</div>".
Proof.
  intros H. unfold gpu_section. rewrite build_gpu_html_nonempty, H.
  cbn [join]. reflexivity.
Qed.

Lemma warning_section_cpu d :
  warning_section d = if d =? "cpu" then warning_box else "".
Proof. reflexivity. Qed.

Lemma warning_box_tagged : contains warning_box_tag warning_box.
Proof.
  exists (substring 0 13 warning_box),
    (substring (13 + length warning_box_tag)
       (length warning_box - 13 - length warning_box_tag) warning_box).
  vm_compute. reflexivity.
Qed.

(** The two tags after their first character. *)
Local Abbreviation gpu_grid_rest := (unq "div class=`gpu-grid`>").
Local Abbreviation warning_box_rest := (unq "div class=`warning-box`>").

Local Abbreviation template :=
  [tpl_0; tpl_1; tpl_2; tpl_3; tpl_4; tpl_5; tpl_6; tpl_7; tpl_8; tpl_9; tpl_10;
   tpl_11; tpl_12; tpl_13; tpl_14; tpl_15; tpl_16; tpl_17; tpl_18; tpl_19; tpl_20;
   tpl_21].

Lemma gpu_grid_template : forallb (clean (String "<" gpu_grid_rest)) template = true.
Proof. vm_compute. reflexivity. Qed.

Lemma gpu_grid_model_cards :
  forallb (clean (String "<" gpu_grid_rest)) [model_card_0; model_card_1; model_card_2]
  = true.
Proof. vm_compute. reflexivity. Qed.

Lemma gpu_grid_warning_box : clean (String "<" gpu_grid_rest) warning_box = true.
Proof. vm_compute. reflexivity. Qed.

Lemma warning_box_template : forallb (clean (String "<" warning_box_rest)) template = true.
Proof. vm_compute. reflexivity. Qed.

Lemma warning_box_model_cards :
  forallb (clean (String "<" warning_box_rest)) [model_card_0; model_card_1; model_card_2]
  = true.
Proof. vm_compute. reflexivity. Qed.

Lemma warning_box_gpu_cards :
  forallb (clean (String "<" warning_box_rest)) [gpu_card_0; gpu_card_1; gpu_card_2]
  = true.
Proof. vm_compute. reflexivity. Qed.

Lemma no_device_section ts sys ram dev vram mp models :
  plain sys = true -> plain ts = true -> plain_models models = true ->
  ~ contains gpu_grid_tag (document ts sys ram dev vram mp models "" (warning_section dev)).
Proof.
  intros Ps Pt Pm. change gpu_grid_tag with (String "<" gpu_grid_rest).
  apply clean_free.
  apply (document_clean gpu_grid_rest gpu_grid_template gpu_grid_model_cards);
    try assumption; [reflexivity|].
  rewrite warning_section_cpu. destruct (dev =? "cpu"); [|reflexivity].
  exact gpu_grid_warning_box.
Qed.

Lemma no_warning_panel ts sys ram dev vram mp gpus models :
  plain sys = true -> plain ts = true -> plain_models models = true ->
  plain_gpus gpus = true ->
  ~ contains warning_box_tag
      (document ts sys ram dev vram mp models (gpu_section (build_gpu_html gpus)) "").
Proof.
  intros Ps Pt Pm Pg. change warning_box_tag with (String "<" warning_box_rest).
  apply clean_free.
  apply (document_clean warning_box_rest warning_box_template warning_box_model_cards);
    try assumption; [|reflexivity].
  unfold gpu_section. destruct (nonempty (build_gpu_html gpus)); [|reflexivity].
  apply clean_join. cbn [forallb].
  rewrite (build_gpu_html_clean warning_box_rest warning_box_gpu_cards gpus Pg).
  reflexivity.
Qed.

Lemma recommend_models_console v d n ms :
  result (recommend_models v d) = Ret (n, ms) ->
  console (recommend_models v d)
  = (recommendation_lines v n ++ if d =? "cpu" then cpu_note else [])%list.
Proof.
  unfold recommend_models, recommendation_lines.
  destruct (int (max_params_of v)) as [k|e].
  - unfold bind, print, print_all, lift, ret, result, console.
    destruct (d =? "cpu"); cbn [fst snd app]; intros H; inversion H; subst;
      rewrite ?app_nil_r; reflexivity.
  - unfold bind, print, print_all, lift, ret, result, console. cbn [snd]. discriminate.
Qed.

Lemma note_not_in_lines v n : ~ In (hd "" cpu_note) (recommendation_lines v n).
Proof.
  unfold recommendation_lines. intros H. apply in_app_or in H. destruct H as [H|H].
  - cbn [In] in H. destruct H as [H|[H|[H|[H|[]]]]].
    + apply (f_equal (String.get 1)) in H. lazy in H. discriminate.
    + apply (f_equal (String.get 0)) in H. lazy in H. discriminate.
    + apply (f_equal (String.get 0)) in H. lazy in H. discriminate.
    + apply (f_equal (String.get 1)) in H. lazy in H. discriminate.
  - apply in_map_iff in H. destruct H as [[a b] [H _]].
    apply (f_equal (String.get 0)) in H. lazy in H. discriminate.
Qed.

Lemma cpu_note_printed v d n ms :
  result (recommend_models v d) = Ret (n, ms) ->
  (incl cpu_note (console (recommend_models v d)) <-> d = "cpu").
Proof.
  intros R. rewrite (recommend_models_console v d n ms R). split.
  - intros H. destruct (String.eqb_spec d "cpu") as [E|E]; [exact E|].
    exfalso. apply (note_not_in_lines v n).
    rewrite app_nil_r in H. apply H. left. reflexivity.
  - intros ->. rewrite String.eqb_refl.
    intros x Hx. apply in_or_app. right. exact Hx.
Qed.

End ReportFacts.

Module ProbeFacts.
Import Py.
Import Report.
Import Selection.
Import Binary.
Import BinaryFacts.
Import Float64.
Import Float64Facts.
Import SelectionSpec.
Import SelectionFacts.
Import ProbeSpec.

Lemma within_weaken k k' f : k <= k' -> within k f -> within k' f.
Proof.
  intros Hk [V [F [L U]]]. repeat split; try assumption.
  assert (0 < 2 ^ 1108) by (apply Z.pow_pos_nonneg; lia). nia.
Qed.

Lemma within_zero : within 0 (S754_zero false).
Proof. repeat split; try reflexivity; unfold units; cbn [xval]; lia. Qed.

Lemma within_finite k f : 0 <= k < 2 ^ prec -> within k f ->
  - infinity < units f < infinity.
Proof.
  intros [K1 K2] [V [F [L U]]].
  assert (0 < 2 ^ 1108) by (apply Z.pow_pos_nonneg; lia).
  assert (2 ^ prec * 2 ^ 1108 < infinity) by (vm_compute; reflexivity).
  pose proof infinity_pos. split; [lia|].
  apply Z.le_lt_trans with (k * 2 ^ 1108); [exact U|]. nia.
Qed.

(** ** Sizes in GiB *)

Lemma gib_units a :
  valid (gib a) = true /\ is_nan (gib a) = false /\
  units (gib a) = round (Z.of_N a * 2 ^ 1044) 1.
Proof. unfold gib. apply (of_dyadic_units (Z.of_N a) (-30)). lia. Qed.

Lemma gib_within a : (a < 2 ^ 64)%N -> within 1 (gib a).
Proof.
  intros Ha. destruct (gib_units a) as [V [N U]].
  assert (0 <= Z.of_N a < 2 ^ 64) as [A1 A2].
  { split; [lia|]. change (2 ^ 64) with (Z.of_N (2 ^ 64)). lia. }
  assert (0 < 2 ^ 1044) by (apply Z.pow_pos_nonneg; lia).
  assert (0 <= units (gib a) <= 1 * 2 ^ 1108) as B.
  { rewrite U. split; [apply round_nonneg; nia|].
    rewrite <- (round_exact (1 * 2 ^ 1108)).
    - apply round_mono; lia.
    - rewrite Z.abs_eq by lia. apply on_grid_scaled; [split; [lia|reflexivity]|lia].
    - rewrite infinity_eq. split; [|vm_compute; discriminate].
      apply Z.le_trans with 0; [|lia]. vm_compute. discriminate. }
  split; [exact V|]. split; [|exact B].
  apply finite_of_units; [exact V|exact N|].
  assert (1 * 2 ^ 1108 < infinity) by (vm_compute; reflexivity).
  pose proof infinity_pos. lia.
Qed.

Lemma gib_positive a : (0 < a)%N -> 2 ^ 1044 <= units (gib a).
Proof.
  intros Ha. destruct (gib_units a) as [_ [_ ->]].
  rewrite <- (round_exact (2 ^ 1044)) at 1.
  - apply round_mono; lia.
  - rewrite Z.abs_eq by (apply Z.pow_nonneg; lia).
    rewrite <- (Z.mul_1_l (2 ^ 1044)). apply on_grid_scaled; [split; [lia|reflexivity]|lia].
  - rewrite infinity_eq. split; [|vm_compute; discriminate].
    apply Z.le_trans with 0; [vm_compute; discriminate|apply Z.pow_nonneg; lia].
Qed.

Lemma truediv_gib_returns a : (a < 2 ^ 64)%N -> truediv_gib a = Ret (gib a).
Proof.
  intros Ha. destruct (gib_within a Ha) as [_ [F _]].
  unfold truediv_gib. fold (gib a). destruct (gib a); try reflexivity; discriminate.
Qed.

(** ** Additions and products of sizes *)

Lemma fadd_within k x y : 0 <= k -> k + 1 < 2 ^ prec -> within k x -> within 1 y ->
  within (k + 1) (fadd x y) /\
  units x <= units (fadd x y) /\ units y <= units (fadd x y).
Proof.
  intros K1 K2 Hx Hy.
  pose proof (within_finite k x ltac:(lia) Hx) as Bx.
  pose proof (within_finite 1 y ltac:(split; [lia|reflexivity]) Hy) as By.
  destruct Hx as [Vx [Fx [Lx Ux]]]. destruct Hy as [Vy [Fy [Ly Uy]]].
  destruct (fadd_units x y Vx Vy Fx Fy) as [V [N U]].
  assert (0 < 2 ^ 1108) as G by (apply Z.pow_pos_nonneg; lia).
  assert ((k + 1) * 2 ^ 1108 < infinity) as B.
  { assert (2 ^ prec * 2 ^ 1108 < infinity) by (vm_compute; reflexivity). nia. }
  pose proof infinity_pos as I.
  assert (units (fadd x y) <= (k + 1) * 2 ^ 1108) as Up.
  { rewrite U. rewrite <- (round_exact ((k + 1) * 2 ^ 1108)).
    - apply round_mono; lia.
    - rewrite Z.abs_eq by nia. apply on_grid_scaled; lia.
    - nia. }
  assert (units x <= units (fadd x y)) as Mx.
  { rewrite U. rewrite <- (round_exact (units x)) at 1.
    - apply round_mono; lia.
    - apply units_on_grid; assumption.
    - lia. }
  assert (units y <= units (fadd x y)) as My.
  { rewrite U. rewrite <- (round_exact (units y)) at 1.
    - apply round_mono; lia.
    - apply units_on_grid; assumption.
    - lia. }
  split; [|split; assumption].
  split; [exact V|]. split; [|lia].
  apply finite_of_units; [exact V|exact N|lia].
Qed.

Lemma fmul_within k x r : 0 <= k < 2 ^ prec -> within k x ->
  valid r = true -> is_finite r = true -> 0 <= units r <= 2 ^ 1074 ->
  within k (fmul x r) /\ units (fmul x r) = round (units x * units r) (2 ^ 1074).
Proof.
  intros K Hx Vr Fr Br.
  pose proof (within_finite k x K Hx) as Bx.
  destruct Hx as [Vx [Fx [Lx Ux]]].
  destruct (fmul_units x r Vx Vr Fx Fr) as [V [N U]].
  assert (0 < 2 ^ 1074) by (apply Z.pow_pos_nonneg; lia).
  assert (0 <= units (fmul x r) <= units x) as B.
  { rewrite U. split; [apply round_nonneg; nia|].
    rewrite <- (round_exact (units x)) at 2.
    - apply round_mono; nia.
    - apply units_on_grid; assumption.
    - lia. }
  split; [|exact U].
  split; [exact V|]. split; [|lia].
  apply finite_of_units; [exact V|exact N|lia].
Qed.

Lemma is_zero_units f : valid f = true -> is_nan f = false ->
  is_zero f = (units f =? 0).
Proof.
  intros V N. unfold is_zero, feq, SFeqb.
  rewrite (compare_units f (of_int 0) V eq_refl N eq_refl).
  change (units (of_int 0)) with 0.
  destruct (Z.compare_spec (units f) 0), (Z.eqb_spec (units f) 0); try reflexivity; lia.
Qed.

(** ** Exact results *)

(** Halving a float is exact where the result is a float. *)
Lemma fmul_half x : valid x = true -> is_finite x = true ->
  0 <= units x -> units x mod 2 = 0 ->
  units (fmul x CPU_USABLE_MEMORY_RATIO) = units x / 2.
Proof.
  intros V F L E.
  destruct (fmul_units x CPU_USABLE_MEMORY_RATIO V eq_refl F eq_refl) as [_ [_ U]].
  rewrite U. change (units CPU_USABLE_MEMORY_RATIO) with (2 ^ 1073).
  pose proof (units_finite x V F) as B.
  pose proof (units_on_grid x V F) as G. rewrite Z.abs_eq in G by exact L.
  pose proof E as E'. apply Z.div_exact in E'; [|lia].
  assert (0 <= units x / 2) by (apply Z.div_pos; lia).
  rewrite (round_ratio _ _ (units x / 2) 1).
  - apply round_exact.
    + rewrite Z.abs_eq by assumption. apply on_grid_half; assumption.
    + lia.
  - apply Z.pow_pos_nonneg; lia.
  - lia.
  - rewrite E' at 1. change (2 ^ 1074) with (2 * 2 ^ 1073). ring.
Qed.

Lemma gib_even a : (a < 2 ^ 64)%N -> units (gib a) mod 2 = 0.
Proof.
  intros Ha. destruct (gib_within a Ha) as [V [F [L _]]].
  destruct (N.eq_dec a 0) as [->|Hn]; [reflexivity|].
  apply on_grid_even.
  - rewrite <- (Z.abs_eq (units (gib a))) by exact L. apply units_on_grid; assumption.
  - apply Z.le_trans with (2 ^ 1044); [vm_compute; discriminate|].
    apply gib_positive. lia.
Qed.

Lemma gib_exact a : (a < 2 ^ 53)%N -> units (gib a) = Z.of_N a * 2 ^ 1044.
Proof.
  intros Ha. destruct (gib_units a) as [_ [_ ->]].
  assert (0 <= Z.of_N a < 2 ^ prec) as A.
  { split; [lia|]. change (2 ^ prec) with (Z.of_N (2 ^ 53)). lia. }
  assert (0 < 2 ^ 1044) by (apply Z.pow_pos_nonneg; lia).
  apply round_exact.
  - rewrite Z.abs_eq by nia. apply on_grid_scaled; [exact A|lia].
  - assert (2 ^ prec * 2 ^ 1044 < infinity) by (vm_compute; reflexivity).
    pose proof infinity_pos. nia.
Qed.

(** ** The loop over the devices *)

Lemma cuda_devices_success w props : forall start st,
  (forall j p, nth_error props j = Some p ->
     cuda_get_device_properties w (start + j) = Ret p /\ (total_memory p < 2 ^ 64)%N) ->
  cuda_devices w (seq start (List.length props)) st
  = (gpu_lines start props,
     (mk_state (device_type st)
        (fold_left fadd (map (fun p => gib (total_memory p)) props) (vram_gb st))
        (gpu_details st ++ map gpu_of props),
      None)).
Proof.
  induction props as [|p props IH]; intros start st H.
  - cbn [List.length seq cuda_devices map fold_left]. rewrite app_nil_r.
    destruct st; reflexivity.
  - cbn [List.length seq cuda_devices].
    destruct (H 0%nat p eq_refl) as [Q Sz]. rewrite Nat.add_0_r in Q. rewrite Q.
    rewrite (truediv_gib_returns _ Sz).
    rewrite IH.
    + cbn [device_type vram_gb gpu_details map fold_left].
      rewrite <- app_assoc. reflexivity.
    + intros j q Hj. specialize (H (S j) q Hj).
      rewrite Nat.add_succ_r in H. exact H.
Qed.

Lemma cuda_devices_within w indices : forall st k,
  (forall i p, cuda_get_device_properties w i = Ret p -> (total_memory p < 2 ^ 64)%N) ->
  0 <= k -> k + Z.of_nat (List.length indices) < 2 ^ prec ->
  within k (vram_gb st) ->
  within (k + Z.of_nat (List.length indices)) (vram_gb (fst (snd (cuda_devices w indices st)))).
Proof.
  induction indices as [|i rest IH]; intros st k Hs K1 K2 Hw.
  - cbn [cuda_devices snd fst List.length]. apply (within_weaken k); [lia|exact Hw].
  - cbn [cuda_devices].
    assert (within (k + Z.of_nat (List.length (i :: rest))) (vram_gb st)) as Hst
      by (apply (within_weaken k); [lia|exact Hw]).
    destruct (cuda_get_device_properties w i) as [p|e] eqn:Q; [|exact Hst].
    pose proof (Hs i p Q) as Sz. rewrite (truediv_gib_returns _ Sz).
    cbn [List.length] in K2 |- *. rewrite Nat2Z.inj_succ in K2 |- *.
    destruct (fadd_within k (vram_gb st) (gib (total_memory p)) K1 ltac:(lia) Hw
                (gib_within _ Sz)) as [Ha _].
    specialize (IH (mk_state (device_type st) (fadd (vram_gb st) (gib (total_memory p)))
                      (gpu_details st ++ [mk_gpu (name p) (gib (total_memory p))]))
                   (k + 1) Hs ltac:(lia) ltac:(lia) Ha).
    destruct (cuda_devices w rest _) as [out r].
    cbn [snd fst] in IH |- *.
    replace (k + Z.succ (Z.of_nat (List.length rest))) with (k + 1 + Z.of_nat (List.length rest)) by lia.
    exact IH.
Qed.

(** ** The three steps *)

Lemma cuda_block_within w st :
  (forall i p, cuda_get_device_properties w i = Ret p -> (total_memory p < 2 ^ 64)%N) ->
  (forall n, cuda_device_count w = Ret n -> n < 2 ^ 31) ->
  within 0 (vram_gb st) ->
  within (2 ^ 31) (vram_gb (fst (snd (cuda_block w st)))).
Proof.
  intros Hs Hc Hw. unfold cuda_block.
  assert (within (2 ^ 31) (vram_gb st)) as Hst by (apply (within_weaken 0); [lia|exact Hw]).
  destruct (cuda_is_available w) as [[|]|e]; try exact Hst.
  destruct (cuda_device_count w) as [n|e]; [|exact Hst].
  specialize (Hc n eq_refl).
  pose proof (cuda_devices_within w (seq 0 (Z.to_nat n))
                (mk_state "cuda" (vram_gb st) (gpu_details st)) 0 Hs ltac:(lia)) as H.
  rewrite length_seq in H.
  assert (0 + Z.of_nat (Z.to_nat n) < 2 ^ prec) as B.
  { apply Z.le_lt_trans with (2 ^ 31); [lia|reflexivity]. }
  specialize (H B Hw).
  destruct (cuda_devices w _ _) as [out r]. cbn [fst snd] in *.
  apply (within_weaken (0 + Z.of_nat (Z.to_nat n))); [lia|exact H].
Qed.

Lemma ratio_within ram r : within 1 ram ->
  r = MPS_USABLE_MEMORY_RATIO \/ r = CPU_USABLE_MEMORY_RATIO ->
  within 1 (fmul ram r).
Proof.
  intros Hw Hr.
  apply (fmul_within 1 ram r); [split; [lia|reflexivity]|exact Hw|..];
    destruct Hr as [-> | ->]; try reflexivity; vm_compute; split; discriminate.
Qed.

Lemma try_block_state b handler : snd (try_block b handler) = fst (snd b).
Proof. destruct b as [out [st [e|]]]; reflexivity. Qed.

Lemma mps_block_within w ram st k : 1 <= k -> within 1 ram -> within k (vram_gb st) ->
  within k (vram_gb (fst (snd (mps_block w ram st)))).
Proof.
  intros K Hr Hw. unfold mps_block.
  destruct (mps_is_available w) as [[|]|e]; try exact Hw.
  cbn [fst snd vram_gb]. apply (within_weaken 1); [exact K|].
  apply ratio_within; [exact Hr|left; reflexivity].
Qed.

Lemma probe_within w ram :
  (forall i p, cuda_get_device_properties w i = Ret p -> (total_memory p < 2 ^ 64)%N) ->
  (forall n, cuda_device_count w = Ret n -> n < 2 ^ 31) ->
  within 1 ram ->
  within (2 ^ 31) (vram_gb (snd (probe w ram))).
Proof.
  intros Hs Hc Hr. unfold probe.
  pose proof (cuda_block_within w initial Hs Hc within_zero) as H1.
  rewrite <- (try_block_state _ cuda_handler) in H1. fold initial.
  destruct (try_block (cuda_block w initial) cuda_handler) as [out1 st1].
  cbn [snd] in H1.
  assert (within (2 ^ 31)
            (vram_gb (snd (if is_zero (vram_gb st1)
                           then try_block (mps_block w ram st1) mps_handler
                           else ([], st1))))) as H2.
  { destruct (is_zero (vram_gb st1)); [|exact H1].
    rewrite try_block_state. apply mps_block_within; [lia|exact Hr|exact H1]. }
  destruct (if is_zero (vram_gb st1) then _ else _) as [out2 st2].
  cbn [snd] in H2.
  destruct (is_zero (vram_gb st2)); cbn [snd vram_gb]; [|exact H2].
  apply (within_weaken 1); [lia|].
  apply ratio_within; [exact Hr|right; reflexivity].
Qed.

Lemma get_hardware_capacity_eq w total :
  virtual_memory_total w = Ret total -> (total < 2 ^ 64)%N ->
  get_hardware_capacity w
  = ((join ["### Hardware Audit: "; platform_system w; " ###"]
      :: join ["* System RAM: "; format_fixed 2 (gib total); " GB"]
      :: fst (probe w (gib total)))%string,
     Ret (mk_capacity (vram_gb (snd (probe w (gib total))))
            (device_type (snd (probe w (gib total))))
            (gib total) (platform_system w)
            (gpu_details (snd (probe w (gib total)))))).
Proof.
  intros Hv Ht. unfold get_hardware_capacity. rewrite Hv.
  unfold lift, bind at 1. cbn [app].
  rewrite (truediv_gib_returns _ Ht). unfold bind at 1.
  destruct (probe w (gib total)) as [out st].
  unfold bind, print, print_all, ret. cbn [app fst snd]. rewrite app_nil_r. reflexivity.
Qed.

Lemma recommend_models_returns v d : within (2 ^ 31) v ->
  exists n, result (recommend_models v d) = Ret (n, tier_models (tier_of v)).
Proof.
  intros [V [F [L U]]].
  assert (is_nan v = false) as N by (destruct v; try discriminate; reflexivity).
  rewrite recommend_models_result, (max_params_units v V N).
  assert (Z.abs (units v) <= 2 ^ 2097) as B.
  { rewrite Z.abs_eq by exact L. apply Z.le_trans with (2 ^ 31 * 2 ^ 1108); [exact U|].
    vm_compute. discriminate. }
  destruct (quotient_units_bound _ B) as [_ Q].
  apply Z.ltb_lt in Q. rewrite Q. eexists. reflexivity.
Qed.

(** ** Sums of device memories *)

Lemma fold_fadd_within l : forall acc k,
  0 <= k -> k + Z.of_nat (List.length l) < 2 ^ prec ->
  within k acc -> Forall (within 1) l ->
  within (k + Z.of_nat (List.length l)) (fold_left fadd l acc) /\
  units acc <= units (fold_left fadd l acc) /\
  Forall (fun y => units y <= units (fold_left fadd l acc)) l.
Proof.
  induction l as [|y l IH]; intros acc k K1 K2 Ha Hl.
  - cbn [fold_left List.length]. split; [|split; [lia|constructor]].
    apply (within_weaken k); [lia|exact Ha].
  - cbn [fold_left List.length] in *. rewrite Nat2Z.inj_succ in *.
    inversion Hl as [|y' l' Hy Hl']; subst.
    destruct (fadd_within k acc y K1 ltac:(lia) Ha Hy) as [W [Ma My]].
    destruct (IH (fadd acc y) (k + 1) ltac:(lia) ltac:(lia) W Hl') as [W' [M' F']].
    split; [|split].
    + replace (k + Z.succ (Z.of_nat (List.length l)))
        with (k + 1 + Z.of_nat (List.length l)) by lia. exact W'.
    + lia.
    + constructor; [lia|exact F'].
Qed.


(** ** The monad *)

Lemma result_bind {A B} (m : io A) (k : A -> io B) :
  result (bind m k) = match result m with
                      | Ret a => result (k a)
                      | Raise e => Raise e
                      end.
Proof.
  destruct m as [out [a|e]]; cbn [bind result snd]; [|reflexivity].
  destruct (k a); reflexivity.
Qed.

Lemma console_bind {A B} (m : io A) (k : A -> io B) :
  console (bind m k) = (console m ++ match result m with
                                    | Ret a => console (k a)
                                    | Raise e => []
                                    end)%list.
Proof.
  destruct m as [out [a|e]]; cbn [bind result console fst snd].
  - destruct (k a); reflexivity.
  - rewrite app_nil_r. reflexivity.
Qed.

Lemma result_try_except {A} (m : io A) handler :
  result (try_except m handler) = match result m with
                                  | Ret a => Ret a
                                  | Raise e => result (handler e)
                                  end.
Proof.
  destruct m as [out [a|e]]; cbn [try_except result snd]; [reflexivity|].
  destruct (handler e); reflexivity.
Qed.

Lemma console_try_except {A} (m : io A) handler :
  console (try_except m handler)
  = (console m ++ match result m with
                  | Ret a => []
                  | Raise e => console (handler e)
                  end)%list.
Proof.
  destruct m as [out [a|e]]; cbn [try_except result console fst snd].
  - rewrite app_nil_r. reflexivity.
  - destruct (handler e); reflexivity.
Qed.

Lemma main_handler_returns e : result (main_handler e) = Ret tt.
Proof. unfold main_handler. destruct (exn_cls e); reflexivity. Qed.

(** ** What the probe settles on *)

Lemma not_detected_block w st :
  ~ detected (cuda_is_available w) ->
  try_block (cuda_block w st) cuda_handler
  = (warning_of cuda_handler (cuda_is_available w), st).
Proof.
  unfold detected, cuda_block, warning_of. intros H.
  destruct (cuda_is_available w) as [[|]|e]; [congruence|reflexivity|reflexivity].
Qed.

Lemma not_detected_mps_block w ram st :
  ~ detected (mps_is_available w) ->
  try_block (mps_block w ram st) mps_handler
  = (warning_of mps_handler (mps_is_available w), st).
Proof.
  unfold detected, mps_block, warning_of. intros H.
  destruct (mps_is_available w) as [[|]|e]; [congruence|reflexivity|reflexivity].
Qed.

Lemma probe_cpu w ram :
  ~ detected (cuda_is_available w) -> ~ detected (mps_is_available w) ->
  probe w ram
  = ((warning_of cuda_handler (cuda_is_available w)
      ++ warning_of mps_handler (mps_is_available w)
      ++ ["* Backend: CPU Only (Not recommended for large models)";
          join ["* Estimated Usable Memory: ";
                format_fixed 2 (fmul ram CPU_USABLE_MEMORY_RATIO); " GB"]])%list%string,
     mk_state "cpu" (fmul ram CPU_USABLE_MEMORY_RATIO) []).
Proof.
  intros Hc Hm. unfold probe.
  rewrite (not_detected_block w _ Hc).
  cbn [vram_gb]. change (is_zero (S754_zero false)) with true. cbv iota.
  rewrite (not_detected_mps_block w ram _ Hm).
  cbn [vram_gb]. change (is_zero (S754_zero false)) with true. cbv iota.
  reflexivity.
Qed.

Lemma float_sum_within l : Z.of_nat (List.length l) < 2 ^ 31 -> Forall (within 1) l ->
  within (2 ^ 31) (float_sum l) /\ Forall (fun y => units y <= units (float_sum l)) l.
Proof.
  intros B F.
  destruct (fold_fadd_within l (S754_zero false) 0 ltac:(lia)
              ltac:(apply Z.lt_trans with (2 ^ 31); [lia|reflexivity]) within_zero F)
    as [W [_ M]].
  split; [|exact M]. apply (within_weaken (0 + Z.of_nat (List.length l))); [lia|exact W].
Qed.

Lemma device_gb_within props :
  Forall (fun p => (total_memory p < 2 ^ 64)%N) props -> Forall (within 1) (device_gb props).
Proof.
  intros H. unfold device_gb. apply Forall_map.
  apply (Forall_impl _ (fun p Hp => gib_within (total_memory p) Hp) H).
Qed.

Lemma float_sum_nonzero props :
  Z.of_nat (List.length props) < 2 ^ 31 ->
  Forall (fun p => (total_memory p < 2 ^ 64)%N) props ->
  (exists p, In p props /\ (0 < total_memory p)%N) ->
  is_zero (float_sum (device_gb props)) = false.
Proof.
  intros B S [p [Hin Hp]].
  destruct (float_sum_within (device_gb props)) as [[V [F _]] M].
  { unfold device_gb. rewrite length_map. exact B. }
  { apply device_gb_within. exact S. }
  rewrite is_zero_units; [|exact V|destruct (float_sum _); try discriminate; reflexivity].
  apply Z.eqb_neq.
  rewrite Forall_forall in M.
  specialize (M (gib (total_memory p))
                (in_map (fun p => gib (total_memory p)) props p Hin)).
  pose proof (gib_positive _ Hp).
  assert (0 < 2 ^ 1044) by (apply Z.pow_pos_nonneg; lia). lia.
Qed.


(** ** Exceptions in the probes *)

Lemma cuda_failure_logged w ram e :
  cuda_failure w = Some e -> incl (cuda_handler e) (fst (probe w ram)).
Proof.
  unfold cuda_failure, probe. fold initial.
  destruct (cuda_block w initial) as [out [st [e'|]]]; cbn [snd]; [|discriminate].
  intros H. injection H as ->. cbn [try_block].
  destruct (if is_zero (vram_gb st) then _ else _) as [out2 st2].
  destruct (if is_zero (vram_gb st2) then _ else _) as [out3 st3].
  cbn [fst]. intros x Hx. apply in_or_app. left. apply in_or_app. right. exact Hx.
Qed.

Lemma mps_failure_logged w ram e :
  mps_failure w ram = Some e -> incl (mps_handler e) (fst (probe w ram)).
Proof.
  unfold mps_failure, probe. fold initial.
  destruct (try_block (cuda_block w initial) cuda_handler) as [out1 st1]. cbn [snd].
  destruct (is_zero (vram_gb st1)); [|discriminate].
  destruct (mps_block w ram st1) as [out [st [e'|]]]; cbn [snd]; [|discriminate].
  intros H. injection H as ->. cbn [try_block].
  destruct (if is_zero (vram_gb st) then _ else _) as [out3 st3].
  cbn [fst]. intros x Hx.
  apply in_or_app. right. apply in_or_app. left. apply in_or_app. right. exact Hx.
Qed.

Lemma fails_early_block w e : fails_early w e ->
  cuda_failure w = Some e /\
  exists out d, try_block (cuda_block w initial) cuda_handler
                = (out, mk_state d (S754_zero false) []).
Proof.
  intros [H|H1 H2|n H1 H2 Hn H3]; unfold cuda_failure, cuda_block.
  - rewrite H. split; [reflexivity|]. eexists _, _. reflexivity.
  - rewrite H1, H2. split; [reflexivity|]. eexists _, _. reflexivity.
  - rewrite H1, H2.
    destruct (Z.to_nat n) as [|k] eqn:E; [lia|].
    cbn [seq cuda_devices]. rewrite H3. split; [reflexivity|]. eexists _, _. reflexivity.
Qed.

(** Steps 2 and 3 from a state in which no memory has been counted do not
    depend on the [device_type] left by step 1. *)
Lemma probe_without_cuda w ram e : fails_early w e ->
  snd (probe w ram) = snd (probe (without_cuda w) ram).
Proof.
  intros H. destruct (fails_early_block w e H) as [_ [out [d E]]].
  unfold probe. fold initial. rewrite E.
  change (try_block (cuda_block (without_cuda w) initial) cuda_handler)
    with (@nil string, initial).
  unfold initial. cbn [vram_gb gpu_details].
  change (is_zero (S754_zero false)) with true. cbv iota.
  unfold mps_block. change (mps_is_available (without_cuda w)) with (mps_is_available w).
  destruct (mps_is_available w) as [[|]|e']; cbn [try_block vram_gb gpu_details];
    try (change (is_zero (S754_zero false)) with true; cbv iota; reflexivity).
  destruct (is_zero (fmul ram MPS_USABLE_MEMORY_RATIO)); reflexivity.
Qed.

Lemma cuda_devices_ext w w' indices : forall st,
  (forall i, cuda_get_device_properties w' i = cuda_get_device_properties w i) ->
  cuda_devices w' indices st = cuda_devices w indices st.
Proof.
  induction indices as [|i rest IH]; intros st H; [reflexivity|].
  cbn [cuda_devices]. rewrite H.
  destruct (cuda_get_device_properties w i) as [p|e]; [|reflexivity].
  destruct (truediv_gib (total_memory p)) as [v|e]; [|reflexivity].
  rewrite IH by exact H. reflexivity.
Qed.

Lemma probe_without_mps w ram e : mps_is_available w = Raise e ->
  snd (probe w ram) = snd (probe (without_mps w) ram).
Proof.
  intros H. unfold probe. fold initial.
  assert (cuda_block (without_mps w) initial = cuda_block w initial) as ->.
  { unfold cuda_block.
    change (cuda_is_available (without_mps w)) with (cuda_is_available w).
    change (cuda_device_count (without_mps w)) with (cuda_device_count w).
    destruct (cuda_is_available w) as [[|]|e1]; try reflexivity.
    destruct (cuda_device_count w) as [n|e2]; try reflexivity.
    rewrite (cuda_devices_ext w (without_mps w)) by reflexivity. reflexivity. }
  destruct (try_block (cuda_block w initial) cuda_handler) as [out1 st1].
  unfold mps_block. change (mps_is_available (without_mps w)) with (Ret false : outcome bool).
  rewrite H. cbn [try_block].
  destruct (is_zero (vram_gb st1)) eqn:Z; cbn [vram_gb]; rewrite ?Z; reflexivity.
Qed.

(** ** The run *)

Lemma get_hardware_capacity_within w total :
  virtual_memory_total w = Ret total -> native_sizes w ->
  exists cap, result (get_hardware_capacity w) = Ret cap /\
              within (2 ^ 31) (cap_vram_gb cap).
Proof.
  intros Hv [S1 [S2 S3]]. pose proof (S1 total Hv) as Ht.
  rewrite (get_hardware_capacity_eq w total Hv Ht).
  eexists. split; [reflexivity|]. cbn [cap_vram_gb].
  apply probe_within; [exact S2|exact S3|apply gib_within; exact Ht].
Qed.

Lemma main_returns w total output_path :
  virtual_memory_total w = Ret total -> native_sizes w ->
  result (main w output_path) = Ret tt /\ exists html, report_of w = Ret html.
Proof.
  intros Hv Hs.
  destruct (get_hardware_capacity_within w total Hv Hs) as [cap [Hc Hw]].
  destruct (recommend_models_returns (cap_vram_gb cap) (cap_device_type cap) Hw) as [n Hr].
  split.
  - unfold main. rewrite result_bind, Hc. rewrite result_bind, Hr.
    rewrite result_try_except.
    match goal with |- match ?r with _ => _ end = _ => destruct r as [[]|e] end;
      [reflexivity|apply main_handler_returns].
  - unfold report_of. rewrite Hc, Hr. eexists. reflexivity.
Qed.

(** The report goes to [write_text]; what follows depends on whether it
    could be written. *)
Lemma main_console w output_path html :
  report_of w = Ret html ->
  exists before,
    console (main w output_path)
    = (before ++ console (try_except
         (lift (path_write_text w output_path html) ;;
          shown <- lift (path_absolute w output_path) ;;
          print (join [nl; "✅ HTML report generated: "; shown]) ;;
          print "   Opening in browser..." ;;
          target <- lift (path_absolute w output_path) ;;
          lift (webbrowser_open w (join ["file://"; target])) ;;
          ret tt)%io%string
         main_handler))%list.
Proof.
  unfold report_of, main. intros H.
  destruct (result (get_hardware_capacity w)) as [cap|e] eqn:Hc; [|discriminate].
  destruct (result (recommend_models (cap_vram_gb cap) (cap_device_type cap)))
    as [[n models]|e] eqn:Hr; [|discriminate].
  injection H as <-.
  rewrite console_bind, Hc, console_bind, Hr.
  eexists. rewrite app_assoc. reflexivity.
Qed.

End ProbeFacts.

Module ConsoleFacts.
Import Py.
Import Report.
Import Selection.
Import Binary.
Import BinaryFacts.
Import Float64.
Import Float64Facts.
Import SelectionSpec.
Import SelectionFacts.
Import ReportSpec.
Import ReportFacts.
Import ProbeSpec.
Import ProbeFacts.
Import ConsoleSpec.

(** ** On a console that takes the lines, the program runs as in
       [Selection] *)

Lemma accepts_app out l1 l2 : accepts out (l1 ++ l2) <-> accepts out l1 /\ accepts out l2.
Proof. apply Forall_app. Qed.

Lemma accepts_cons out l ls : accepts out (l :: ls) <-> out l = Ret tt /\ accepts out ls.
Proof. apply Forall_cons_iff. Qed.

Lemma encodes_all_accepts out lines : encodes_all out -> accepts out lines.
Proof. intros H. apply Forall_forall. intros l _. apply H. Qed.

Lemma print_accepted out line : out line = Ret tt -> Console.print out line = print line.
Proof. intros H. unfold Console.print. rewrite H. reflexivity. Qed.

Lemma print_refused out line e : out line = Raise e -> Console.print out line = ([], Raise e).
Proof. intros H. unfold Console.print. rewrite H. reflexivity. Qed.

Lemma print_all_accepted out lines :
  accepts out lines -> Console.print_all out lines = print_all lines.
Proof.
  induction lines as [|l ls IH]; intros H; [reflexivity|].
  apply accepts_cons in H. destruct H as [H1 H2].
  cbn [Console.print_all]. rewrite (print_accepted _ _ H1), (IH H2). reflexivity.
Qed.

Lemma cuda_devices_accepted out w indices : forall st,
  accepts out (fst (cuda_devices w indices st)) ->
  Console.cuda_devices out w indices st = cuda_devices w indices st.
Proof.
  induction indices as [|i rest IH]; intros st H; [reflexivity|].
  cbn [cuda_devices Console.cuda_devices] in *.
  destruct (cuda_get_device_properties w i) as [p|e]; [|reflexivity].
  destruct (truediv_gib (total_memory p)) as [v|e]; [|reflexivity].
  match type of H with context [cuda_devices w rest ?s] =>
    specialize (IH s); destruct (cuda_devices w rest s) as [lines r] end.
  cbn [fst] in H, IH. apply accepts_cons in H. destruct H as [H1 H2].
  rewrite H1, (IH H2). reflexivity.
Qed.

Lemma cuda_block_accepted out w st :
  accepts out (fst (cuda_block w st)) -> Console.cuda_block out w st = cuda_block w st.
Proof.
  unfold cuda_block, Console.cuda_block. intros H.
  destruct (cuda_is_available w) as [[|]|e]; try reflexivity.
  destruct (cuda_device_count w) as [n|e]; [|reflexivity].
  match type of H with context [cuda_devices w ?l ?s] =>
    pose proof (cuda_devices_accepted out w l s) as D;
    destruct (cuda_devices w l s) as [lines r] end.
  cbn [fst] in H, D. apply accepts_cons in H. destruct H as [H1 H2].
  rewrite H1, (D H2). reflexivity.
Qed.

Lemma mps_block_accepted out w ram st :
  accepts out (fst (mps_block w ram st)) -> Console.mps_block out w ram st = mps_block w ram st.
Proof.
  unfold mps_block, Console.mps_block. intros H.
  destruct (mps_is_available w) as [[|]|e]; try reflexivity.
  cbn [fst] in H. apply accepts_cons in H. destruct H as [H1 H2].
  apply accepts_cons in H2. destruct H2 as [H2 _].
  cbv zeta. rewrite H1, H2. reflexivity.
Qed.

Lemma try_block_accepted out b handler :
  accepts out (fst (try_block b handler)) ->
  Console.try_block out b handler
  = (fst (try_block b handler), Ret (snd (try_block b handler))).
Proof.
  destruct b as [lines [st [e|]]]; cbn [try_block Console.try_block fst snd];
    [|reflexivity].
  intros H. apply accepts_app in H. destruct H as [_ H].
  rewrite (print_all_accepted _ _ H). reflexivity.
Qed.

Lemma probe_accepted out w ram :
  accepts out (fst (probe w ram)) ->
  Console.probe out w ram = (fst (probe w ram), Ret (snd (probe w ram))).
Proof.
  unfold probe, Console.probe. intros H.
  destruct (try_block (cuda_block w (mk_state "cpu" (S754_zero false) [])) cuda_handler)
    as [out1 st1] eqn:E1.
  match type of H with context [if ?c then ?a else ?b] =>
    destruct (if c then a else b) as [out2 st2] eqn:E2 end.
  match type of H with context [if is_zero (vram_gb st2) then ?a else ?b] =>
    destruct (if is_zero (vram_gb st2) then a else b) as [out3 st3] eqn:E3 end.
  cbn [fst snd] in H |- *.
  apply accepts_app in H. destruct H as [A1 H].
  apply accepts_app in H. destruct H as [A2 A3].
  assert (accepts out (fst (cuda_block w (mk_state "cpu" (S754_zero false) [])))) as A0.
  { destruct (cuda_block w (mk_state "cpu" (S754_zero false) [])) as [l [s [e|]]];
      cbn [try_block] in E1; injection E1 as <- _; cbn [fst];
      [apply accepts_app in A1; exact (proj1 A1)|exact A1]. }
  rewrite (cuda_block_accepted _ _ _ A0).
  rewrite try_block_accepted by (rewrite E1; exact A1).
  rewrite E1. cbn [fst snd]. unfold bind at 1.
  assert ((if is_zero (vram_gb st1)
           then Console.try_block out (Console.mps_block out w ram st1) mps_handler
           else ret st1) = (out2, Ret st2)) as ->.
  { destruct (is_zero (vram_gb st1)).
    - assert (accepts out (fst (mps_block w ram st1))) as B0.
      { destruct (mps_block w ram st1) as [l [s [e|]]];
          cbn [try_block] in E2; injection E2 as <- _; cbn [fst];
          [apply accepts_app in A2; exact (proj1 A2)|exact A2]. }
      rewrite (mps_block_accepted _ _ _ _ B0).
      rewrite try_block_accepted by (rewrite E2; exact A2).
      rewrite E2. reflexivity.
    - injection E2 as <- <-. reflexivity. }
  unfold bind at 1.
  destruct (is_zero (vram_gb st2)).
  - injection E3 as <- <-.
    apply accepts_cons in A3. destruct A3 as [B1 B2].
    apply accepts_cons in B2. destruct B2 as [B2 _].
    rewrite (print_accepted _ _ B1).
    match goal with |- context [Console.print out ?l] =>
      rewrite (print_accepted out l B2) end.
    cbn [bind print ret app]. rewrite ?app_nil_r. reflexivity.
  - injection E3 as <- <-. cbn [ret app]. rewrite !app_nil_r. reflexivity.
Qed.

Lemma bind_accepted {A B} out (m m' : io A) (k k' : A -> io B) :
  accepts out (console (bind m k)) ->
  (accepts out (console m) -> m' = m) ->
  (forall a, result m = Ret a -> accepts out (console (k a)) -> k' a = k a) ->
  bind m' k' = bind m k.
Proof.
  intros H Hm Hk. rewrite console_bind in H. apply accepts_app in H. destruct H as [H1 H2].
  rewrite (Hm H1). destruct m as [lines [a|e]]; [|reflexivity].
  cbn [result snd] in H2, Hk. cbn [bind]. rewrite (Hk a eq_refl H2). reflexivity.
Qed.

Lemma print_console_accepted out line :
  accepts out (console (print line)) -> Console.print out line = print line.
Proof. intros H. apply accepts_cons in H. apply print_accepted. exact (proj1 H). Qed.

Lemma print_all_console_accepted out lines :
  accepts out (console (print_all lines)) -> Console.print_all out lines = print_all lines.
Proof. apply print_all_accepted. Qed.

Ltac same_step H :=
  apply (bind_accepted _ _ _ _ _ H); clear H;
  [first [ intros _; reflexivity
         | apply print_console_accepted
         | apply print_all_console_accepted ]
  | intros ? ? H ].

Lemma get_hardware_capacity_accepted out w :
  accepts out (console (get_hardware_capacity w)) ->
  Console.get_hardware_capacity out w = get_hardware_capacity w.
Proof.
  unfold get_hardware_capacity, Console.get_hardware_capacity. intros H.
  do 4 same_step H.
  pose proof (probe_accepted out w a0) as P.
  destruct (probe w a0) as [lines st]. cbn [fst snd] in P.
  rewrite console_bind in H. apply accepts_app in H.
  rewrite (P (proj1 H)). reflexivity.
Qed.

Lemma recommend_models_accepted out v d :
  accepts out (console (recommend_models v d)) ->
  Console.recommend_models out v d = recommend_models v d.
Proof.
  unfold recommend_models, Console.recommend_models. intros H.
  do 6 same_step H.
  apply (bind_accepted _ _ _ _ _ H); clear H; [|intros ? ? H; reflexivity].
  destruct (d =? "cpu")%string; [apply print_all_console_accepted|reflexivity].
Qed.

Lemma main_handler_accepted out e :
  accepts out (console (main_handler e)) -> Console.main_handler out e = main_handler e.
Proof.
  unfold main_handler, Console.main_handler.
  destruct (exn_cls e); apply print_console_accepted.
Qed.

Lemma try_except_accepted {A} out (m m' : io A) handler handler' :
  accepts out (console (try_except m handler)) ->
  (accepts out (console m) -> m' = m) ->
  (forall e, result m = Raise e -> accepts out (console (handler e)) ->
             handler' e = handler e) ->
  try_except m' handler' = try_except m handler.
Proof.
  intros H Hm Hh. rewrite console_try_except in H. apply accepts_app in H.
  destruct H as [H1 H2]. rewrite (Hm H1). destruct m as [lines [a|e]]; [reflexivity|].
  cbn [result snd] in H2, Hh. cbn [try_except]. rewrite (Hh e eq_refl H2). reflexivity.
Qed.

Lemma main_accepted out w output_path :
  accepts out (console (main w output_path)) ->
  Console.main out w output_path = main w output_path.
Proof.
  unfold main, Console.main. intros H.
  apply (bind_accepted _ _ _ _ _ H); clear H;
    [apply get_hardware_capacity_accepted|intros cap _ H].
  apply (bind_accepted _ _ _ _ _ H); clear H;
    [apply recommend_models_accepted|intros [n models] _ H].
  apply (try_except_accepted _ _ _ _ _ H); clear H.
  - intros H. do 6 same_step H. reflexivity.
  - intros e _. apply main_handler_accepted.
Qed.

(** ** A line that the console refuses *)

Lemma note_line_first : cpu_note = note_line :: tl cpu_note.
Proof. reflexivity. Qed.

Lemma recommend_models_refused_note out v n e :
  max_params v = Ret n -> accepts out (recommendation_lines v n) ->
  out note_line = Raise e ->
  Console.recommend_models out v "cpu" = (recommendation_lines v n, Raise e).
Proof.
  unfold max_params, recommendation_lines, Console.recommend_models. intros I H He.
  apply accepts_app in H. destruct H as [H Hm].
  apply accepts_cons in H. destruct H as [H1 H].
  apply accepts_cons in H. destruct H as [H2 H].
  apply accepts_cons in H. destruct H as [H3 H].
  apply accepts_cons in H. destruct H as [H4 _].
  unfold Console.print, lift. rewrite I, H1, H2. cbn [bind app].
  rewrite H3. cbn [bind app]. rewrite H4. cbn [bind app].
  rewrite (print_all_accepted _ _ Hm). unfold print_all. cbn [bind app].
  rewrite String.eqb_refl, note_line_first. cbn [Console.print_all].
  unfold Console.print. rewrite He. cbn [bind app]. rewrite !app_nil_r. reflexivity.
Qed.

Lemma main_saving out w output_path html :
  Console.report_of out w = Ret html ->
  Console.main out w output_path
  = ((console (analysis out w) ++ console (saving out w output_path html))%list,
     result (saving out w output_path html)).
Proof.
  unfold Console.report_of, Console.main, analysis, saving. intros H.
  destruct (Console.get_hardware_capacity out w) as [l1 [cap|e]]; [|discriminate].
  cbn [result snd] in H. cbn [bind].
  destruct (Console.recommend_models out (cap_vram_gb cap) (cap_device_type cap))
    as [l2 [[n models]|e]]; [|discriminate].
  cbn [result snd] in H. injection H as <-. cbn [bind].
  match goal with |- context [try_except ?m ?h] => destruct (try_except m h) as [l3 r] end.
  cbn [console result fst snd]. rewrite app_assoc. reflexivity.
Qed.

Lemma main_refused out w output_path e :
  result (analysis out w) = Raise e ->
  Console.main out w output_path = (console (analysis out w), Raise e).
Proof.
  unfold Console.main, analysis. intros H.
  destruct (Console.get_hardware_capacity out w) as [l1 [cap|e1]].
  - cbn [bind] in *.
    destruct (Console.recommend_models out (cap_vram_gb cap) (cap_device_type cap))
      as [l2 [[n models]|e2]]; cbn [result console fst snd] in *; [discriminate|].
    injection H as ->. reflexivity.
  - cbn [bind result console fst snd] in *. injection H as ->. reflexivity.
Qed.

Lemma saving_refused out w output_path html shown e :
  path_write_text w output_path html = Ret tt ->
  path_absolute w output_path = Ret shown ->
  out (announcement shown) = Raise e ->
  saving out w output_path html = Console.main_handler out e.
Proof.
  unfold saving, announcement. intros Hw Ha He.
  rewrite Hw, Ha. unfold lift. cbn [bind app].
  rewrite (print_refused _ _ _ He). cbn [bind app try_except].
  destruct (Console.main_handler out e) as [l r]. reflexivity.
Qed.

(** ** On a console that takes every line *)

Section Utf8.
Variable out : Console.stdout.
Hypothesis all : encodes_all out.

Lemma get_hardware_capacity_utf8 w :
  Console.get_hardware_capacity out w = get_hardware_capacity w.
Proof. apply get_hardware_capacity_accepted, encodes_all_accepts, all. Qed.

Lemma recommend_models_utf8 v d : Console.recommend_models out v d = recommend_models v d.
Proof. apply recommend_models_accepted, encodes_all_accepts, all. Qed.

Lemma main_handler_utf8 e : Console.main_handler out e = main_handler e.
Proof. apply main_handler_accepted, encodes_all_accepts, all. Qed.

Lemma main_utf8 w output_path : Console.main out w output_path = main w output_path.
Proof. apply main_accepted, encodes_all_accepts, all. Qed.

Lemma exit_status_utf8 w : Console.exit_status out w = exit_status w.
Proof. unfold Console.exit_status, exit_status. rewrite main_utf8. reflexivity. Qed.

Lemma report_of_utf8 w : Console.report_of out w = report_of w.
Proof.
  unfold Console.report_of, report_of. rewrite get_hardware_capacity_utf8.
  destruct (result (get_hardware_capacity w)) as [cap|e]; [|reflexivity].
  rewrite recommend_models_utf8. reflexivity.
Qed.

End Utf8.

End ConsoleFacts.

Module CoverageFacts.
Import Py.
Import Report.
Import Selection.
Import Binary.
Import BinaryFacts.
Import Float64.
Import Float64Facts.
Import SelectionSpec.
Import SelectionFacts.
Import ReportSpec.
Import ReportFacts.
Import ProbeSpec.
Import ProbeFacts.
Import ConsoleSpec.
Import ConsoleFacts.
Import CoverageSpec.

(** ** Comparisons with a threshold *)

Lemma fge_not_nan x y : fge x y = true -> is_nan x = false /\ is_nan y = false.
Proof.
  unfold fge. destruct x as [s|s| |s m e], y as [s'|s'| |s' m' e'];
    cbn [SFcompare]; try discriminate; intros _; split; reflexivity.
Qed.

Lemma fge_units x y : valid x = true -> valid y = true ->
  is_nan x = false -> is_nan y = false ->
  fge x y = (units y <=? units x).
Proof.
  intros Vx Vy Nx Ny. unfold fge. rewrite (compare_units x y Vx Vy Nx Ny).
  destruct (Z.compare_spec (units x) (units y)), (Z.leb_spec (units y) (units x));
    try reflexivity; lia.
Qed.

Lemma fge_mono v1 v2 t : valid v1 = true -> valid v2 = true -> valid t = true ->
  fle v1 v2 = true -> fge v1 t = true -> fge v2 t = true.
Proof.
  intros V1 V2 Vt L G.
  destruct (fle_not_nan _ _ L) as [N1 N2]. destruct (fge_not_nan _ _ G) as [_ Nt].
  pose proof (fle_units _ _ V1 V2 L).
  rewrite (fge_units v1 t V1 Vt N1 Nt) in G. apply Z.leb_le in G.
  rewrite (fge_units v2 t V2 Vt N2 Nt). apply Z.leb_le. lia.
Qed.

Lemma tier_of_mono v1 v2 : valid v1 = true -> valid v2 = true ->
  fle v1 v2 = true -> (tier_rank (tier_of v1) <= tier_rank (tier_of v2))%nat.
Proof.
  intros V1 V2 L. unfold tier_of.
  pose proof (fge_mono v1 v2 VRAM_TIER_ENTERPRISE V1 V2 eq_refl L) as H48.
  pose proof (fge_mono v1 v2 VRAM_TIER_PROFESSIONAL V1 V2 eq_refl L) as H24.
  pose proof (fge_mono v1 v2 VRAM_TIER_ADVANCED V1 V2 eq_refl L) as H16.
  pose proof (fge_mono v1 v2 VRAM_TIER_STANDARD V1 V2 eq_refl L) as H8.
  destruct (fge v1 VRAM_TIER_ENTERPRISE);
    [rewrite (H48 eq_refl); apply Nat.le_refl|].
  destruct (fge v1 VRAM_TIER_PROFESSIONAL);
    [rewrite (H24 eq_refl); destruct (fge v2 VRAM_TIER_ENTERPRISE); cbn; lia|].
  destruct (fge v1 VRAM_TIER_ADVANCED);
    [rewrite (H16 eq_refl); destruct (fge v2 VRAM_TIER_ENTERPRISE),
       (fge v2 VRAM_TIER_PROFESSIONAL); cbn; lia|].
  destruct (fge v1 VRAM_TIER_STANDARD);
    [rewrite (H8 eq_refl); destruct (fge v2 VRAM_TIER_ENTERPRISE),
       (fge v2 VRAM_TIER_PROFESSIONAL), (fge v2 VRAM_TIER_ADVANCED); cbn; lia|].
  cbn. lia.
Qed.

(** ** When [recommend_models] returns *)







(** ** The parameter counts of a tier *)

Lemma units_of_tiers :
  units VRAM_TIER_STANDARD = 8 * 2 ^ 1074 /\
  units VRAM_TIER_ADVANCED = 16 * 2 ^ 1074 /\
  units VRAM_TIER_PROFESSIONAL = 24 * 2 ^ 1074 /\
  units VRAM_TIER_ENTERPRISE = 48 * 2 ^ 1074.
Proof. repeat split; vm_compute; reflexivity. Qed.

Lemma params_at_least k lo V :
  quotient_units (k * 2 ^ 1074) / 2 ^ 1074 = lo -> k * 2 ^ 1074 <= V ->
  lo <= quotient_units V / 2 ^ 1074.
Proof.
  intros E H. rewrite <- E. apply Z.div_le_mono; [apply Z.pow_pos_nonneg; lia|].
  apply quotient_units_mono. exact H.
Qed.

Lemma params_at_most k hi V :
  quotient_units (k * 2 ^ 1074) / 2 ^ 1074 = hi -> V <= k * 2 ^ 1074 ->
  quotient_units V / 2 ^ 1074 <= hi.
Proof.
  intros E H. rewrite <- E. apply Z.div_le_mono; [apply Z.pow_pos_nonneg; lia|].
  apply quotient_units_mono. exact H.
Qed.

(** Below 8.0 the count stays below 8. *)
Lemma params_entry v : valid v = true -> is_nan v = false ->
  units v < 8 * 2 ^ 1074 -> Z.max 2 (quotient_units (units v) / 2 ^ 1074) <= 7.
Proof.
  intros V N H.
  assert (0 < 2 ^ 1074) as HU by (apply Z.pow_pos_nonneg; lia).
  destruct (is_finite v) eqn:F.
  - assert (8 * 2 ^ 1074 < 2 ^ 1125) as B by (vm_compute; reflexivity).
    assert (units v < 2 ^ 1125) as B' by lia.
    destruct (quotient_units_floor (units v) (units_on_grid v V F)
                (conj (proj1 (units_finite v V F)) B')) as [_ ->].
    assert (4 * (units v - 2 * 2 ^ 1074) / (3 * 2 ^ 1074) < 8)
      by (apply Z.div_lt_upper_bound; lia).
    lia.
  - assert (units v <= 0) as H0.
    { destruct v as [s|[|]| |s m e]; try (clear H; discriminate).
      (* positive infinity is not below 8.0 *)
      exfalso. vm_compute in H. discriminate. }
    pose proof (params_at_most 0 (-3) (units v) ltac:(vm_compute; reflexivity) H0). lia.
Qed.

Lemma max_params_in_range v n : valid v = true -> max_params v = Ret n ->
  in_range n (params_range (tier_of v)).
Proof.
  intros V R.
  assert (is_nan v = false) as N by (destruct v; try reflexivity; discriminate).
  rewrite (max_params_units v V N) in R.
  destruct (quotient_units (units v) <? infinity); [|discriminate].
  injection R as <-.
  destruct units_of_tiers as [U8 [U16 [U24 U48]]].
  unfold tier_of.
  rewrite !(fun t Vt Nt => fge_units v t V Vt N Nt) by reflexivity.
  rewrite U8, U16, U24, U48.
  destruct (Z.leb_spec (48 * 2 ^ 1074) (units v)) as [G48|L48].
  { split; [|exact I]. cbn [params_range fst].
    pose proof (params_at_least 48 61 _ ltac:(vm_compute; reflexivity) G48). lia. }
  destruct (Z.leb_spec (24 * 2 ^ 1074) (units v)) as [G24|L24].
  { split; cbn [params_range fst snd].
    - pose proof (params_at_least 24 29 _ ltac:(vm_compute; reflexivity) G24). lia.
    - pose proof (params_at_most 48 61 (units v) ltac:(vm_compute; reflexivity)
                    ltac:(lia)). lia. }
  destruct (Z.leb_spec (16 * 2 ^ 1074) (units v)) as [G16|L16].
  { split; cbn [params_range fst snd].
    - pose proof (params_at_least 16 18 _ ltac:(vm_compute; reflexivity) G16). lia.
    - pose proof (params_at_most 24 29 (units v) ltac:(vm_compute; reflexivity)
                    ltac:(lia)). lia. }
  destruct (Z.leb_spec (8 * 2 ^ 1074) (units v)) as [G8|L8].
  { split; cbn [params_range fst snd].
    - pose proof (params_at_least 8 8 _ ltac:(vm_compute; reflexivity) G8). lia.
    - pose proof (params_at_most 16 18 (units v) ltac:(vm_compute; reflexivity)
                    ltac:(lia)). lia. }
  split; cbn [params_range fst snd]; [lia|].
  apply params_entry; assumption.
Qed.

(** ** The unified-memory step *)

Lemma probe_mps w ram :
  ~ detected (cuda_is_available w) -> detected (mps_is_available w) ->
  is_zero (fmul ram MPS_USABLE_MEMORY_RATIO) = false ->
  probe w ram
  = ((warning_of cuda_handler (cuda_is_available w)
      ++ ["* Backend: Apple Metal Performance Shaders (MPS)";
          join ["* Unified Memory: "; format_fixed 2 ram;
                " GB (Est. Usable for AI: ";
                format_fixed 2 (fmul ram MPS_USABLE_MEMORY_RATIO); " GB)"]])%list%string,
     mk_state "mps" (fmul ram MPS_USABLE_MEMORY_RATIO) []).
Proof.
  intros Hc Hm Hz. unfold probe.
  rewrite (not_detected_block w _ Hc).
  cbn [vram_gb]. change (is_zero (S754_zero false)) with true. cbv iota.
  unfold mps_block. rewrite Hm. cbn [try_block vram_gb gpu_details].
  rewrite Hz. rewrite app_nil_r. reflexivity.
Qed.

Lemma fmul_mps_units ram : within 1 ram ->
  within 1 (fmul ram MPS_USABLE_MEMORY_RATIO) /\
  units (fmul ram MPS_USABLE_MEMORY_RATIO) = round (units ram * (3 * 2 ^ 1072)) (2 ^ 1074).
Proof.
  intros W.
  apply (fmul_within 1 ram MPS_USABLE_MEMORY_RATIO); [split; [lia|reflexivity]|exact W|..];
    try reflexivity.
  vm_compute. split; discriminate.
Qed.

Lemma fmul_mps_positive total : (0 < total < 2 ^ 64)%N ->
  is_zero (fmul (gib total) MPS_USABLE_MEMORY_RATIO) = false.
Proof.
  intros [T0 T1].
  destruct (fmul_mps_units (gib total) (gib_within total T1)) as [[V [F _]] U].
  rewrite is_zero_units; [|exact V|destruct (fmul _ _); try discriminate; reflexivity].
  apply Z.eqb_neq. rewrite U.
  pose proof (gib_positive total T0) as P.
  assert (0 < 2 ^ 1042) by (apply Z.pow_pos_nonneg; lia).
  assert (0 < 2 ^ 1072) by (apply Z.pow_pos_nonneg; lia).
  assert (2 ^ 1044 = 4 * 2 ^ 1042) as E1 by (vm_compute; reflexivity).
  assert (2 ^ 1074 = 4 * 2 ^ 1072) as E2 by (vm_compute; reflexivity).
  assert (3 * 2 ^ 1042 <= round (units (gib total) * (3 * 2 ^ 1072)) (2 ^ 1074)); [|lia].
  rewrite <- (round_exact (3 * 2 ^ 1042)) at 1.
  - apply round_mono; [lia|lia|]. rewrite E2. nia.
  - rewrite Z.abs_eq by lia. apply on_grid_scaled; [split; [lia|reflexivity]|lia].
  - rewrite infinity_eq. split; [|vm_compute; discriminate].
    apply Z.le_trans with 0; [vm_compute; discriminate|lia].
Qed.

Lemma fmul_mps_exact total : (total < 2 ^ 51)%N ->
  units (fmul (gib total) MPS_USABLE_MEMORY_RATIO) = 3 * Z.of_N total * 2 ^ 1042.
Proof.
  intros T.
  assert (total < 2 ^ 53)%N as T53 by (apply N.lt_trans with (2 ^ 51)%N; [exact T|reflexivity]).
  assert (total < 2 ^ 64)%N as T64 by (apply N.lt_trans with (2 ^ 51)%N; [exact T|reflexivity]).
  destruct (fmul_mps_units (gib total) (gib_within total T64)) as [_ ->].
  rewrite (gib_exact total T53).
  assert (0 <= Z.of_N total < 2 ^ 51) as [A1 A2].
  { split; [lia|]. change (2 ^ 51) with (Z.of_N (2 ^ 51)). lia. }
  assert (0 < 2 ^ 1042) by (apply Z.pow_pos_nonneg; lia).
  assert (2 ^ 1044 = 4 * 2 ^ 1042) as E1 by (vm_compute; reflexivity).
  assert (2 ^ 1074 = 4 * 2 ^ 1072) as E2 by (vm_compute; reflexivity).
  assert (0 < 2 ^ 1072) by (apply Z.pow_pos_nonneg; lia).
  rewrite (round_ratio _ _ (3 * Z.of_N total * 2 ^ 1042) 1) by lia.
  apply round_exact.
  - rewrite Z.abs_eq by nia. apply on_grid_scaled; [unfold prec; lia|lia].
  - assert (2 ^ prec * 2 ^ 1042 < infinity) by (vm_compute; reflexivity).
    pose proof infinity_pos. unfold prec in *. nia.
Qed.

(** ** How the result hangs together *)

Lemma float_sum_snoc l x : float_sum (l ++ [x]) = fadd (float_sum l) x.
Proof. unfold float_sum. rewrite fold_left_app. reflexivity. Qed.

Lemma cuda_devices_consistent w indices : forall st,
  consistent st ->
  let st' := fst (snd (cuda_devices w indices st)) in
  consistent st' /\ device_type st' = device_type st.
Proof.
  induction indices as [|i rest IH]; intros st C; cbv zeta.
  - split; [exact C|reflexivity].
  - cbn [cuda_devices].
    destruct (cuda_get_device_properties w i) as [p|e]; [|split; [exact C|reflexivity]].
    destruct (truediv_gib (total_memory p)) as [v|e]; [|split; [exact C|reflexivity]].
    set (st1 := mk_state (device_type st) (fadd (vram_gb st) v)
                  (gpu_details st ++ [mk_gpu (name p) v])).
    assert (consistent st1) as C1.
    { unfold consistent, st1. cbn [vram_gb gpu_details].
      rewrite map_app. cbn [map gpu_vram]. rewrite float_sum_snoc.
      unfold consistent in C. rewrite <- C. reflexivity. }
    specialize (IH st1 C1). cbv zeta in IH.
    destruct (cuda_devices w rest st1) as [out r]. exact IH.
Qed.

Lemma cuda_block_consistent w :
  let st1 := fst (snd (cuda_block w initial)) in
  consistent st1 /\ (device_type st1 = "cuda"%string \/ st1 = initial).
Proof.
  cbv zeta. unfold cuda_block.
  assert (consistent initial) as C0 by reflexivity.
  destruct (cuda_is_available w) as [[|]|e]; try (split; [exact C0|right; reflexivity]).
  destruct (cuda_device_count w) as [n|e].
  - pose proof (cuda_devices_consistent w (seq 0 (Z.to_nat n))
                  (mk_state "cuda" (vram_gb initial) (gpu_details initial)) C0) as H.
    cbv zeta in H. destruct (cuda_devices w _ _) as [out r].
    destruct H as [H1 H2]. split; [exact H1|left; exact H2].
  - split; [exact C0|left; reflexivity].
Qed.

Lemma probe_settled w ram :
  let st := snd (probe w ram) in
  settled (mk_capacity (vram_gb st) (device_type st) ram (platform_system w)
             (gpu_details st)).
Proof.
  cbv zeta. unfold probe. fold initial.
  pose proof (cuda_block_consistent w) as [C D]. cbv zeta in C, D.
  rewrite <- (try_block_state _ cuda_handler) in C, D.
  destruct (try_block (cuda_block w initial) cuda_handler) as [out1 st1].
  cbn [snd] in C, D.
  destruct (is_zero (vram_gb st1)) eqn:Z1.
  - (* nothing counted by step 1 *)
    assert (is_zero (float_sum (map gpu_vram (gpu_details st1))) = true) as L.
    { unfold consistent in C. rewrite <- C. exact Z1. }
    unfold mps_block.
    destruct (mps_is_available w) as [[|]|e]; cbn [try_block vram_gb gpu_details].
    + destruct (is_zero (fmul ram MPS_USABLE_MEMORY_RATIO)) eqn:Z2; cbn [snd].
      * right. right. split; [reflexivity|]. split; [reflexivity|exact L].
      * right. left. split; [reflexivity|]. split; [reflexivity|]. split; [exact Z2|exact L].
    + rewrite Z1. cbn [snd]. right. right. split; [reflexivity|]. split; [reflexivity|exact L].
    + rewrite Z1. cbn [snd]. right. right. split; [reflexivity|]. split; [reflexivity|exact L].
  - rewrite Z1. cbn [snd]. left.
    assert (device_type st1 = "cuda"%string) as Dc.
    { destruct D as [D|D]; [exact D|]. subst st1. discriminate. }
    unfold settled. cbn [cap_device_type cap_gpu_details cap_vram_gb].
    split; [exact Dc|]. split; [|split; [exact C|exact Z1]].
    intros E. unfold consistent in C. rewrite E in C. rewrite C in Z1. discriminate.
Qed.

Lemma get_hardware_capacity_inv w cap :
  result (get_hardware_capacity w) = Ret cap ->
  exists total ram,
    virtual_memory_total w = Ret total /\ truediv_gib total = Ret ram /\
    cap = mk_capacity (vram_gb (snd (probe w ram))) (device_type (snd (probe w ram)))
            ram (platform_system w) (gpu_details (snd (probe w ram))).
Proof.
  unfold get_hardware_capacity.
  destruct (virtual_memory_total w) as [total|e]; [|discriminate].
  unfold lift, bind at 1. cbn [app].
  destruct (truediv_gib total) as [ram|e] eqn:T; [|discriminate].
  unfold bind at 1. destruct (probe w ram) as [out st] eqn:P.
  unfold bind, print, print_all, ret, result. cbn [snd].
  intros H. injection H as <-. exists total, ram.
  split; [reflexivity|]. split; [exact T|]. rewrite P. reflexivity.
Qed.

Lemma within_nonneg k f : within k f -> fge f (of_int 0) = true.
Proof.
  intros [V [F [L _]]].
  rewrite (fge_units f (of_int 0) V eq_refl); try reflexivity.
  - change (units (of_int 0)) with 0. apply Z.leb_le. exact L.
  - destruct f; try discriminate; reflexivity.
Qed.

(** ** The devices that step 1 leaves *)

Lemma cuda_devices_partial w props e k : forall start st,
  (forall j p, nth_error props j = Some p ->
     cuda_get_device_properties w (start + j) = Ret p /\ (total_memory p < 2 ^ 64)%N) ->
  cuda_get_device_properties w (start + List.length props) = Raise e ->
  cuda_devices w (seq start (List.length props + S k)) st
  = (gpu_lines start props,
     (mk_state (device_type st)
        (fold_left fadd (map (fun p => gib (total_memory p)) props) (vram_gb st))
        (gpu_details st ++ map gpu_of props),
      Some e)).
Proof.
  induction props as [|p props IH]; intros start st H He.
  - cbn [List.length Nat.add seq cuda_devices map fold_left].
    rewrite Nat.add_0_r in He. rewrite He, app_nil_r. destruct st; reflexivity.
  - cbn [List.length Nat.add seq cuda_devices].
    destruct (H 0%nat p eq_refl) as [Q Sz]. rewrite Nat.add_0_r in Q. rewrite Q.
    rewrite (truediv_gib_returns _ Sz).
    rewrite IH.
    + cbn [device_type vram_gb gpu_details map fold_left].
      rewrite <- app_assoc. reflexivity.
    + intros j q Hj. specialize (H (S j) q Hj).
      rewrite Nat.add_succ_r in H. exact H.
    + cbn [List.length] in He. rewrite Nat.add_succ_r in He. exact He.
Qed.

Lemma fails_after_block w props e :
  (forall i p, cuda_get_device_properties w i = Ret p -> (total_memory p < 2 ^ 64)%N) ->
  fails_after w props e ->
  cuda_failure w = Some e /\
  fst (snd (cuda_block w initial))
  = mk_state "cuda" (float_sum (device_gb props)) (map gpu_of props).
Proof.
  intros Hs [Ha [[n [Hn Hlt]] [_ [Hp He]]]].
  unfold cuda_failure, cuda_block. rewrite Ha, Hn.
  assert (Z.to_nat n = (List.length props + S (Z.to_nat n - S (List.length props)))%nat)
    as -> by lia.
  rewrite (cuda_devices_partial w props e _ 0%nat).
  - split; reflexivity.
  - intros j p Hj. cbn [Nat.add]. split; [exact (Hp j p Hj)|exact (Hs j p (Hp j p Hj))].
  - exact He.
Qed.

(** Steps 2 and 3 leave [gpu_details] as step 1 left it. *)
Lemma probe_keeps_devices w ram :
  gpu_details (snd (probe w ram)) = gpu_details (fst (snd (cuda_block w initial))).
Proof.
  unfold probe. fold initial.
  rewrite <- (try_block_state (cuda_block w initial) cuda_handler).
  destruct (try_block (cuda_block w initial) cuda_handler) as [out1 st1]. cbn [snd].
  destruct (is_zero (vram_gb st1)) eqn:Z1.
  - unfold mps_block.
    destruct (mps_is_available w) as [[|]|e]; cbn [try_block vram_gb gpu_details].
    + destruct (is_zero (fmul ram MPS_USABLE_MEMORY_RATIO)); reflexivity.
    + rewrite Z1. reflexivity.
    + rewrite Z1. reflexivity.
  - rewrite Z1. reflexivity.
Qed.

(** When step 1 has counted memory, it settles the result. *)
Lemma probe_stops_at_cuda w ram :
  is_zero (vram_gb (fst (snd (cuda_block w initial)))) = false ->
  snd (probe w ram) = fst (snd (cuda_block w initial)).
Proof.
  unfold probe. fold initial.
  rewrite <- (try_block_state (cuda_block w initial) cuda_handler).
  destruct (try_block (cuda_block w initial) cuda_handler) as [out1 st1]. cbn [snd].
  intros Z1. rewrite Z1. cbn [vram_gb]. rewrite Z1. reflexivity.
Qed.

Lemma float_sum_no_memory props :
  no_memory props -> float_sum (device_gb props) = S754_zero false.
Proof.
  unfold float_sum, device_gb.
  induction props as [|p props IH]; intros H; [reflexivity|].
  cbn [map fold_left]. rewrite (H p (or_introl eq_refl)).
  change (fadd (S754_zero false) (gib 0)) with (S754_zero false).
  apply IH. intros q Hq. apply H. right. exact Hq.
Qed.

Lemma gpu_vram_of props : map gpu_vram (map gpu_of props) = device_gb props.
Proof. unfold device_gb. rewrite map_map. reflexivity. Qed.

(** ** What [main] prints after the recommendations *)

Lemma main_console_eq w output_path html :
  report_of w = Ret html ->
  console (main w output_path)
  = (analysis_console w
     ++ console (try_except
         (lift (path_write_text w output_path html) ;;
          shown <- lift (path_absolute w output_path) ;;
          print (join [nl; "✅ HTML report generated: "; shown]) ;;
          print "   Opening in browser..." ;;
          target <- lift (path_absolute w output_path) ;;
          lift (webbrowser_open w (join ["file://"; target])) ;;
          ret tt)%io%string
         main_handler))%list.
Proof.
  unfold report_of, main, analysis_console. intros H.
  destruct (result (get_hardware_capacity w)) as [cap|e] eqn:Hc; [|discriminate].
  destruct (result (recommend_models (cap_vram_gb cap) (cap_device_type cap)))
    as [[n models]|e] eqn:Hr; [|discriminate].
  injection H as <-.
  rewrite !console_bind, Hc, console_bind, Hr.
  rewrite app_assoc. reflexivity.
Qed.

Lemma main_result w output_path html :
  report_of w = Ret html -> result (main w output_path) = Ret tt.
Proof.
  unfold report_of, main. intros H.
  destruct (result (get_hardware_capacity w)) as [cap|e] eqn:Hc; [|discriminate].
  destruct (result (recommend_models (cap_vram_gb cap) (cap_device_type cap)))
    as [[n models]|e] eqn:Hr; [|discriminate].
  rewrite result_bind, Hc, result_bind, Hr, result_try_except.
  match goal with |- match ?r with _ => _ end = _ => destruct r as [[]|e] end;
    [reflexivity|apply main_handler_returns].
Qed.

(** ** The fields of the document *)

Lemma contains_in_join (x : string) l : In x l -> contains x (join l).
Proof.
  intros H. apply in_split in H. destruct H as [l1 [l2 ->]]. apply contains_join.
Qed.

Lemma nth_error_three {A} (l : list A) : forall i a x b,
  nth_error l i = Some a -> nth_error l (S i) = Some x ->
  nth_error l (S (S i)) = Some b ->
  l = (firstn i l ++ a :: x :: b :: skipn (3 + i) l)%list.
Proof.
  induction l as [|y l IH]; intros [|i] a x b Ha Hx Hb; try discriminate.
  - destruct l as [|y1 [|y2 l]]; try discriminate.
    cbn in Ha, Hx, Hb. injection Ha as ->. injection Hx as ->. injection Hb as ->.
    reflexivity.
  - cbn [firstn skipn app Nat.add]. f_equal.
    exact (IH i a x b Ha Hx Hb).
Qed.

(** A field between the end [a2] of the text before it and the beginning
    [b1] of the text after it. *)
Lemma contains_between (segs : list string) i (a x b a1 a2 b1 b2 : string) :
  nth_error segs i = Some a -> nth_error segs (S i) = Some x ->
  nth_error segs (S (S i)) = Some b ->
  a = (a1 ++ a2)%string -> b = (b1 ++ b2)%string ->
  contains ((a2 ++ x) ++ b1)%string (join segs).
Proof.
  intros Ha Hx Hb Ea Eb. rewrite (nth_error_three segs i a x b Ha Hx Hb).
  exact (contains_field _ a x b _ a1 a2 b1 b2 Ea Eb).
Qed.

Lemma contains_segment (segs : list string) i (x : string) : nth_error segs i = Some x -> contains x (join segs).
Proof. intros H. apply contains_in_join. exact (nth_error_In segs i H). Qed.

Lemma div_parts cls x s :
  div cls (x ++ s) = ((open_div cls ++ x) ++ (s ++ "</div>"))%string.
Proof. unfold div. rewrite !append_assoc. reflexivity. Qed.

Lemma div_whole cls x : div cls x = ((open_div cls ++ x) ++ "</div>")%string.
Proof. unfold div. rewrite !append_assoc. reflexivity. Qed.

Lemma generate_html_report_segments ts sys ram dev vram mp gpus models :
  generate_html_report ts sys ram dev vram mp gpus models
  = join (segments ts sys ram dev vram mp gpus models).
Proof.
  unfold generate_html_report, segments, backend_icon, backend_name.
  destruct (backend_info dev) as [[bn bi] bc]. destruct (tier_badge vram) as [t tc].
  reflexivity.
Qed.

Lemma tpl_10_badge :
  tpl_10 = (substring 0 (length tpl_10 - length (open_div "badge tier-badge")) tpl_10
            ++ open_div "badge tier-badge")%string.
Proof. vm_compute. reflexivity. Qed.

Lemma tpl_11_badge :
  tpl_11 = (" Tier</div>" ++ substring 11 (length tpl_11 - 11) tpl_11)%string.
Proof. vm_compute. reflexivity. Qed.

Lemma tpl_13_label :
  tpl_13 = (substring 0 (length tpl_13 - length (stat_box "Usable AI Memory" "")) tpl_13
            ++ stat_box "Usable AI Memory" "")%string.
Proof. vm_compute. reflexivity. Qed.

Lemma tpl_14_unit :
  tpl_14 = (unit_GB ++ substring (length unit_GB) (length tpl_14 - length unit_GB) tpl_14)%string.
Proof. vm_compute. reflexivity. Qed.

Lemma tpl_14_label :
  tpl_14 = (substring 0 (length tpl_14 - length (stat_box "Max Model Size" "~")) tpl_14
            ++ stat_box "Max Model Size" "~")%string.
Proof. vm_compute. reflexivity. Qed.

Lemma tpl_15_unit :
  tpl_15 = (unit_B ++ substring (length unit_B) (length tpl_15 - length unit_B) tpl_15)%string.
Proof. vm_compute. reflexivity. Qed.

Lemma tpl_15_icon :
  tpl_15 = (substring 0 (length tpl_15 - length (open_div "backend-icon")) tpl_15
            ++ open_div "backend-icon")%string.
Proof. vm_compute. reflexivity. Qed.

Lemma tpl_16_close :
  tpl_16 = ("</div>" ++ substring 6 (length tpl_16 - 6) tpl_16)%string.
Proof. vm_compute. reflexivity. Qed.

Lemma tpl_16_name :
  tpl_16 = (substring 0 (length tpl_16 - length (open_div "backend-name")) tpl_16
            ++ open_div "backend-name")%string.
Proof. vm_compute. reflexivity. Qed.

Lemma tpl_17_close :
  tpl_17 = ("</div>" ++ substring 6 (length tpl_17 - 6) tpl_17)%string.
Proof. vm_compute. reflexivity. Qed.

Lemma tpl_20_footer :
  tpl_20 = (substring 0 (length tpl_20 - 13) tpl_20 ++ "Generated on ")%string.
Proof. vm_compute. reflexivity. Qed.

Lemma tpl_21_footer :
  tpl_21 = (" | " ++ substring 3 (length tpl_21 - 3) tpl_21)%string.
Proof. vm_compute. reflexivity. Qed.

Lemma tpl_0_doctype :
  tpl_0 = ("<!DOCTYPE html>" ++ substring 15 (length tpl_0 - 15) tpl_0)%string.
Proof. vm_compute. reflexivity. Qed.

Lemma tpl_21_end :
  tpl_21 = (substring 0 (length tpl_21 - 7) tpl_21 ++ "</html>")%string.
Proof. vm_compute. reflexivity. Qed.

Section Fields.
Variables (ts sys : string) (ram : float) (dev : string) (vram : float) (mp : Z).
Variables (gpus : option (list gpu_info)) (models : option (list (string * string))).

Let doc := generate_html_report ts sys ram dev vram mp gpus models.

Lemma report_badge : contains (div "badge tier-badge" (fst (tier_badge vram) ++ " Tier")) doc.
Proof.
  unfold doc. rewrite generate_html_report_segments, div_parts.
  refine (contains_between _ 20 _ _ _ _ _ _ _ _ _ _
           tpl_10_badge tpl_11_badge); reflexivity.
Qed.

Lemma report_usable :
  contains (stat_box "Usable AI Memory" (format_fixed 1 vram) ++ unit_GB) doc.
Proof.
  unfold doc. rewrite generate_html_report_segments, stat_box_value.
  refine (contains_between _ 26 _ _ _ _ _ _ _ _ _ _
           tpl_13_label tpl_14_unit); reflexivity.
Qed.

Lemma stat_box_tilde value :
  stat_box "Max Model Size" ("~" ++ value) = (stat_box "Max Model Size" "~" ++ value)%string.
Proof.
  rewrite (stat_box_value _ ("~" ++ value)), (stat_box_value _ "~").
  rewrite append_assoc. reflexivity.
Qed.

Lemma report_max_params :
  contains (stat_box "Max Model Size" ("~" ++ str_of_int mp) ++ unit_B) doc.
Proof.
  unfold doc. rewrite generate_html_report_segments, stat_box_tilde.
  refine (contains_between _ 28 _ _ _ _ _ _ _ _ _ _
           tpl_14_label tpl_15_unit); reflexivity.
Qed.

Lemma report_backend_icon : contains (div "backend-icon" (backend_icon dev)) doc.
Proof.
  unfold doc. rewrite generate_html_report_segments, div_whole.
  refine (contains_between _ 30 _ _ _ _ _ _ _ _ _ _
           tpl_15_icon tpl_16_close); reflexivity.
Qed.

Lemma report_backend_name : contains (div "backend-name" (backend_name dev)) doc.
Proof.
  unfold doc. rewrite generate_html_report_segments, div_whole.
  refine (contains_between _ 32 _ _ _ _ _ _ _ _ _ _
           tpl_16_name tpl_17_close); reflexivity.
Qed.

Lemma report_footer : contains ("Generated on " ++ ts ++ " | ") doc.
Proof.
  unfold doc. rewrite generate_html_report_segments, <- append_assoc.
  refine (contains_between _ 40 _ _ _ _ _ _ _ _ _ _
           tpl_20_footer tpl_21_footer); reflexivity.
Qed.

Lemma report_starts : starts_with "<!DOCTYPE html>" doc.
Proof.
  unfold doc. rewrite generate_html_report_segments.
  unfold segments, style_part. cbn [app join].
  rewrite tpl_0_doctype at 1. rewrite append_assoc.
  eexists. reflexivity.
Qed.

Lemma join_snoc l (x : string) : join (l ++ [x]) = (join l ++ x)%string.
Proof. rewrite join_app. cbn [join]. rewrite append_nil_r. reflexivity. Qed.

Lemma report_ends : ends_with "</html>" doc.
Proof.
  unfold doc. rewrite generate_html_report_segments.
  unfold segments, footer_part.
  match goal with |- ends_with _ (join (?a ++ ?b ++ ?c ++ ?d ++ ?e ++ [?x; ?y; ?z])%list) =>
    change (a ++ b ++ c ++ d ++ e ++ [x; y; z])%list
      with (a ++ b ++ c ++ d ++ e ++ [x; y] ++ [z])%list
  end.
  rewrite !app_assoc, join_snoc.
  rewrite tpl_21_end at 1. rewrite <- append_assoc.
  eexists. reflexivity.
Qed.

Lemma report_models_field : contains (build_models_html models) doc.
Proof.
  unfold doc. rewrite generate_html_report_segments.
  refine (contains_segment _ 37 _ _); reflexivity.
Qed.

Lemma report_device_field : contains (gpu_section (build_gpu_html gpus)) doc.
Proof.
  unfold doc. rewrite generate_html_report_segments.
  refine (contains_segment _ 35 _ _); reflexivity.
Qed.

Lemma report_warning_field : contains (warning_section dev) doc.
Proof.
  unfold doc. rewrite generate_html_report_segments.
  refine (contains_segment _ 39 _ _); reflexivity.
Qed.

End Fields.

(** ** The cards *)

Lemma fold_left_join {A} (f : A -> string) l : forall acc,
  fold_left (fun html x => html ++ f x)%string l acc = (acc ++ join (map f l))%string.
Proof.
  induction l as [|x l IH]; intros acc; cbn [fold_left map join].
  - rewrite append_nil_r. reflexivity.
  - rewrite IH, append_assoc. reflexivity.
Qed.

Lemma build_models_html_join models :
  build_models_html models = join (map model_card (items models)).
Proof.
  unfold build_models_html. destruct models as [[|m l]|]; try reflexivity.
  cbn [truthy]. rewrite fold_left_join. reflexivity.
Qed.

Lemma build_gpu_html_join gpus :
  build_gpu_html gpus = join (map gpu_card (items gpus)).
Proof.
  unfold build_gpu_html. destruct gpus as [[|g l]|]; try reflexivity.
  cbn [truthy]. rewrite fold_left_join. reflexivity.
Qed.

Lemma model_card_0_name :
  model_card_0 = (substring 0 (length model_card_0 - length (open_div "model-name")) model_card_0
                  ++ open_div "model-name")%string.
Proof. vm_compute. reflexivity. Qed.

Lemma model_card_1_parts :
  model_card_1 = ("</div>" ++ substring 6 (length model_card_1 - 6) model_card_1)%string /\
  model_card_1 = (substring 0 (length model_card_1 - length (open_div "model-desc")) model_card_1
                  ++ open_div "model-desc")%string.
Proof. split; vm_compute; reflexivity. Qed.

Lemma model_card_2_close :
  model_card_2 = ("</div>" ++ substring 6 (length model_card_2 - 6) model_card_2)%string.
Proof. vm_compute. reflexivity. Qed.

Lemma gpu_card_0_name :
  gpu_card_0 = (substring 0 (length gpu_card_0 - length (open_div "gpu-name")) gpu_card_0
                ++ open_div "gpu-name")%string.
Proof. vm_compute. reflexivity. Qed.

Lemma gpu_card_1_parts :
  gpu_card_1 = ("</div>" ++ substring 6 (length gpu_card_1 - 6) gpu_card_1)%string /\
  gpu_card_1 = (substring 0 (length gpu_card_1 - length (open_div "gpu-vram")) gpu_card_1
                ++ open_div "gpu-vram")%string.
Proof. split; vm_compute; reflexivity. Qed.

Lemma gpu_card_2_close :
  gpu_card_2 = (" GB VRAM</div>" ++ substring 14 (length gpu_card_2 - 14) gpu_card_2)%string.
Proof. vm_compute. reflexivity. Qed.

Lemma model_card_fields name desc :
  contains (div "model-name" name) (model_card (name, desc)) /\
  contains (div "model-desc" desc) (model_card (name, desc)).
Proof.
  unfold model_card. rewrite !div_whole. split.
  - refine (contains_between _ 0 _ _ _ _ _ _ _ _ _ _
           model_card_0_name (proj1 model_card_1_parts)); reflexivity.
  - refine (contains_between _ 2 _ _ _ _ _ _ _ _ _ _
           (proj2 model_card_1_parts) model_card_2_close); reflexivity.
Qed.

Lemma gpu_card_fields gpu :
  contains (div "gpu-name" (gpu_name gpu)) (gpu_card gpu) /\
  contains (div "gpu-vram" (format_fixed 2 (gpu_vram gpu) ++ " GB VRAM")) (gpu_card gpu).
Proof.
  unfold gpu_card. rewrite div_whole, div_parts. split.
  - refine (contains_between _ 0 _ _ _ _ _ _ _ _ _ _
           gpu_card_0_name (proj1 gpu_card_1_parts)); reflexivity.
  - refine (contains_between _ 2 _ _ _ _ _ _ _ _ _ _
           (proj2 gpu_card_1_parts) gpu_card_2_close); reflexivity.
Qed.

Lemma contains_card {A} (f : A -> string) l x : In x l -> contains (f x) (join (map f l)).
Proof. intros H. apply contains_in_join, in_map, H. Qed.

Lemma gpu_section_div gpus :
  items gpus <> [] ->
  gpu_section (build_gpu_html gpus) = div "gpu-grid" (join (map gpu_card (items gpus))).
Proof.
  intros H. rewrite gpu_section_present.
  - rewrite build_gpu_html_join. reflexivity.
  - destruct gpus as [[|g l]|]; try reflexivity; contradiction H; reflexivity.
Qed.

Lemma backend_name_unknown dev :
  (backend_name dev = "Unknown" <-> dev <> "cuda" /\ dev <> "mps" /\ dev <> "cpu")%string.
Proof.
  unfold backend_name, backend_info.
  destruct (String.eqb_spec dev "cuda"%string) as [->|N1]; [split; [discriminate|intros [E _]; contradiction E; reflexivity]|].
  destruct (String.eqb_spec dev "mps"%string) as [->|N2]; [split; [discriminate|intros [_ [E _]]; contradiction E; reflexivity]|].
  destruct (String.eqb_spec dev "cpu"%string) as [->|N3]; [split; [discriminate|intros [_ [_ E]]; contradiction E; reflexivity]|].
  split; [intros _; repeat split; assumption|reflexivity].
Qed.

(** ** The report of a run *)

Lemma report_of_eq w total n models :
  virtual_memory_total w = Ret total -> (total < 2 ^ 64)%N ->
  result (recommend_models (vram_gb (snd (probe w (gib total))))
            (device_type (snd (probe w (gib total))))) = Ret (n, models) ->
  report_of w
  = Ret (generate_html_report (now_strftime w) (platform_system w) (gib total)
           (device_type (snd (probe w (gib total))))
           (vram_gb (snd (probe w (gib total)))) n
           (match gpu_details (snd (probe w (gib total))) with
            | [] => None
            | l => Some l
            end)
           (Some models)).
Proof.
  intros Hv Ht Hr. unfold report_of.
  rewrite (get_hardware_capacity_eq w total Hv Ht).
  cbn [result snd cap_vram_gb cap_device_type cap_ram_gb cap_system cap_gpu_details].
  rewrite Hr. reflexivity.
Qed.


Lemma plain_tier_models t : plain_models (Some (tier_models t)) = true.
Proof. destruct t; vm_compute; reflexivity. Qed.

Local Open Scope string_scope.

(** ** The run after the recommendations, line by line *)

Lemma main_lines_after_report (w : world) (output_path html : string) :
  report_of w = Ret html ->
  result (main w output_path) = Ret tt /\
  (forall e, path_write_text w output_path html = Raise e ->
     console (main w output_path) = (analysis_console w ++ console (main_handler e))%list) /\
  (forall e, path_write_text w output_path html = Ret tt ->
     path_absolute w output_path = Raise e ->
     console (main w output_path) = (analysis_console w ++ console (main_handler e))%list) /\
  (forall shown e, path_write_text w output_path html = Ret tt ->
     path_absolute w output_path = Ret shown ->
     webbrowser_open w (join ["file://"; shown]) = Raise e ->
     console (main w output_path)
     = (analysis_console w ++ saved_lines shown ++ console (main_handler e))%list) /\
  (forall shown opened, path_write_text w output_path html = Ret tt ->
     path_absolute w output_path = Ret shown ->
     webbrowser_open w (join ["file://"; shown]) = Ret opened ->
     console (main w output_path) = (analysis_console w ++ saved_lines shown)%list) /\
  (forall msg, console (main_handler (mk_exn OSError msg))
               = [join [nl; "❌ Error saving report: "; msg]]).
Proof.
  intros R. pose proof (main_console_eq w output_path html R) as E.
  split; [exact (main_result w output_path html R)|].
  split; [|split; [|split; [|split]]].
  - intros e Hw. rewrite E, Hw, console_try_except. reflexivity.
  - intros e Hw Ha. rewrite E, Hw, Ha, console_try_except. reflexivity.
  - intros shown e Hw Ha Ho. rewrite E, Hw, Ha, console_try_except.
    unfold lift, print, ret. cbn [bind app]. rewrite Ho.
    cbn [result console fst snd app]. reflexivity.
  - intros shown opened Hw Ha Ho. rewrite E, Hw, Ha, console_try_except.
    unfold lift, print, ret. cbn [bind app]. rewrite Ho.
    cbn [result console fst snd app]. reflexivity.
  - intros msg. reflexivity.
Qed.

(** ** The report of a machine without accelerator *)

Lemma cpu_report (w : world) (total : N) :
  virtual_memory_total w = Ret total -> (total < 2 ^ 64)%N ->
  ~ detected (cuda_is_available w) -> ~ detected (mps_is_available w) ->
  let usable := fmul (gib total) CPU_USABLE_MEMORY_RATIO in
  exists n html,
    result (recommend_models usable "cpu") = Ret (n, tier_models (tier_of usable)) /\
    report_of w = Ret html /\
    html = generate_html_report (now_strftime w) (platform_system w) (gib total) "cpu"
             usable n None (Some (tier_models (tier_of usable))) /\
    contains (div "backend-name" "CPU Only") html /\
    contains (stat_box "Usable AI Memory" (format_fixed 1 usable) ++ unit_GB) html /\
    contains warning_box html /\
    (plain (platform_system w) = true -> plain (now_strftime w) = true ->
     ~ contains gpu_grid_tag html).
Proof.
  intros Hv Ht Hc Hm usable.
  assert (within (2 ^ 31) usable) as Hw.
  { apply (within_weaken 1); [lia|].
    apply ratio_within; [apply gib_within; exact Ht|right; reflexivity]. }
  destruct (recommend_models_returns usable "cpu" Hw) as [n Hr].
  exists n. eexists. split; [exact Hr|].
  split.
  { rewrite (report_of_eq w total n (tier_models (tier_of usable)) Hv Ht);
      rewrite (probe_cpu w (gib total) Hc Hm); cbn [snd vram_gb device_type gpu_details];
      [reflexivity|exact Hr]. }
  split; [reflexivity|].
  split; [exact (report_backend_name _ _ _ "cpu" _ _ _ _)|].
  split; [apply report_usable|].
  split; [exact (report_warning_field _ _ _ "cpu" _ _ _ _)|].
  intros Ps Pt. rewrite generate_html_report_document.
  change (gpu_section (build_gpu_html None)) with "".
  apply no_device_section; [exact Ps|exact Pt|apply plain_tier_models].
Qed.

(** ** GPUs that report no memory *)

Lemma cuda_block_no_memory w props :
  detected (cuda_is_available w) ->
  cuda_device_count w = Ret (Z.of_nat (List.length props)) ->
  (forall i p, nth_error props i = Some p -> cuda_get_device_properties w i = Ret p) ->
  no_memory props ->
  cuda_block w initial
  = (cuda_found_line (Z.of_nat (List.length props)) :: gpu_lines 0 props,
     (mk_state "cuda" (S754_zero false) (map gpu_of props), None)).
Proof.
  intros Ha Hc Hp Hz. unfold cuda_block. rewrite Ha, Hc, Nat2Z.id.
  rewrite (cuda_devices_success w props 0).
  - cbn [device_type vram_gb gpu_details initial app].
    fold (device_gb props). fold (float_sum (device_gb props)).
    rewrite (float_sum_no_memory props Hz). reflexivity.
  - intros j p Hj. cbn [Nat.add]. split; [exact (Hp j p Hj)|].
    rewrite (Hz p (nth_error_In props j Hj)). reflexivity.
Qed.

Lemma probe_no_memory w ram props :
  detected (cuda_is_available w) ->
  cuda_device_count w = Ret (Z.of_nat (List.length props)) ->
  (forall i p, nth_error props i = Some p -> cuda_get_device_properties w i = Ret p) ->
  no_memory props ->
  In (cuda_found_line (Z.of_nat (List.length props))) (fst (probe w ram)) /\
  gpu_details (snd (probe w ram)) = map gpu_of props /\
  (detected (mps_is_available w) -> is_zero (fmul ram MPS_USABLE_MEMORY_RATIO) = false ->
   device_type (snd (probe w ram)) = "mps" /\
   vram_gb (snd (probe w ram)) = fmul ram MPS_USABLE_MEMORY_RATIO) /\
  (~ detected (mps_is_available w) ->
   device_type (snd (probe w ram)) = "cpu" /\
   vram_gb (snd (probe w ram)) = fmul ram CPU_USABLE_MEMORY_RATIO).
Proof.
  intros Ha Hc Hp Hz. unfold probe. fold initial.
  rewrite (cuda_block_no_memory w props Ha Hc Hp Hz).
  cbn [try_block vram_gb]. change (is_zero (S754_zero false)) with true. cbv iota.
  unfold mps_block, detected.
  destruct (mps_is_available w) as [[|]|e]; cbn [try_block vram_gb gpu_details].
  - destruct (is_zero (fmul ram MPS_USABLE_MEMORY_RATIO)) eqn:Z2; cbn [fst snd].
    + split; [left; reflexivity|]. split; [reflexivity|].
      split; [intros _ H; discriminate|intros H; contradiction H; reflexivity].
    + split; [left; reflexivity|]. split; [reflexivity|].
      split; [intros _ _; split; reflexivity|intros H; contradiction H; reflexivity].
  - change (is_zero (S754_zero false)) with true. cbv iota. cbn [fst snd].
    split; [left; reflexivity|]. split; [reflexivity|].
    split; [intros H; discriminate|intros _; split; reflexivity].
  - change (is_zero (S754_zero false)) with true. cbv iota. cbn [fst snd].
    split; [left; reflexivity|]. split; [reflexivity|].
    split; [intros H; discriminate|intros _; split; reflexivity].
Qed.

(** ** The run of [main] *)

Lemma main_run w total :
  virtual_memory_total w = Ret total -> native_sizes w ->
  exit_status w = 0 /\
  (forall output_path, result (main w output_path) = Ret tt) /\
  (forall output_path html e,
     report_of w = Ret html -> path_write_text w output_path html = Raise e ->
     incl (console (main_handler e)) (console (main w output_path))) /\
  (forall output_path html shown,
     report_of w = Ret html -> path_write_text w output_path html = Ret tt ->
     path_absolute w output_path = Ret shown ->
     In (join [nl; "✅ HTML report generated: "; shown]) (console (main w output_path))).
Proof.
  intros Hv Hs. split; [|split; [|split]].
  - unfold exit_status.
    rewrite (proj1 (main_returns w total default_output_path Hv Hs)). reflexivity.
  - intros output_path. exact (proj1 (main_returns w total output_path Hv Hs)).
  - intros output_path html e Hr Hw.
    destruct (main_console w output_path html Hr) as [before ->].
    rewrite Hw. intros x Hx. apply in_or_app. right.
    rewrite console_try_except. cbn [lift bind result console fst snd app]. exact Hx.
  - intros output_path html shown Hr Hw Ha.
    destruct (main_console w output_path html Hr) as [before ->].
    rewrite Hw, Ha. apply in_or_app. right.
    rewrite console_try_except. apply in_or_app. left.
    unfold lift, print, ret. cbn [bind app].
    destruct (webbrowser_open w _); cbn [console fst]; left; reflexivity.
Qed.

End CoverageFacts.

(* ================================================================== *)
(** * Properties of the program                                        *)
(* ================================================================== *)

Import Py.
Import Report.
Import Selection.
Import Binary.
Import BinaryFacts.
Import Float64.
Import Float64Facts.
Import SelectionSpec.
Import SelectionFacts.
Import ReportSpec.
Import ReportFacts.
Import ProbeSpec.
Import ProbeFacts.
Import ConsoleSpec.
Import ConsoleFacts.
Import CoverageSpec.
Import CoverageFacts.
Local Open Scope string_scope.

(** C1 (amended): for every finite memory size below 2^51,
    [recommend_models] returns as [max_params] the floor of
    [(vram_gb - 2.0) / 0.75], computed exactly, raised to 2 when it is
    smaller.  For every memory size of magnitude at most 2^1023 it returns
    the floor of the binary64 quotient [(vram_gb - 2.0) / 0.75], raised to 2
    when it is smaller; the result is at least 2; for 18.0 it is 21. *)
Theorem max_params_floor_clamped :
  (forall (v : float) (d : string),
     valid v = true -> is_finite v = true -> flt v exact_bound = true ->
     result (recommend_models v d)
     = Ret (Z.max 2 (Qfloor ((value v - 2) / (3 # 4))), tier_models (tier_of v))) /\
  (forall (v : float) (d : string),
     valid v = true -> fle (SFabs v) memory_bound = true ->
     exists n,
       result (recommend_models v d) = Ret (n, tier_models (tier_of v)) /\
       is_finite (quotient v) = true /\
       n = Z.max 2 (Qfloor (value (quotient v))) /\
       2 <= n) /\
  (forall d, result (recommend_models (of_int 18) d) = Ret (21, tier_models Advanced)).
Proof.
  split; [|split].
  - intros v d V F B.
    rewrite recommend_models_result, (max_params_exact v V F B). reflexivity.
  - intros v d V B. destruct (bounded_memory v V B) as [N Hq].
    destruct (quotient_spec v V N) as [Vq [Nq Uq]].
    assert (is_finite (quotient v) = true) as Fq.
    { apply finite_of_units; try assumption. rewrite Uq. exact Hq. }
    rewrite recommend_models_result, (max_params_units v V N).
    replace (quotient_units (units v) <? infinity)%Z with true
      by (symmetry; apply Z.ltb_lt; lia).
    eexists. split; [reflexivity|]. split; [exact Fq|].
    rewrite (floor_value _ Vq Fq), Uq. split; [reflexivity|lia].
  - intros d. rewrite recommend_models_result. reflexivity.
Qed.

(** C1 (amended) at 12.5: fourteen billion parameters. *)
Lemma max_params_floor_clamped_witness :
  result (recommend_models (of_decimal 125 1) "mps") = Ret (14, tier_models Standard).
Proof.
  rewrite (proj1 max_params_floor_clamped (of_decimal 125 1) "mps" eq_refl eq_refl eq_refl).
  vm_compute. reflexivity.
Defined.

(** C1 as stated fails.  Positive infinity is a float, it is at least 0, and
    [recommend_models] raises [OverflowError] on it instead of returning.
    And at [3 * 2^50 + 4], a float, the quotient [2^52 + 8/3] is rounded
    to [2^52 + 3], one more than the floor of [(v - 2) / 0.75]. *)
Lemma max_params_off_formula :
  (valid (S754_infinity false) = true /\
   fge (S754_infinity false) (of_int 0) = true /\
   result (recommend_models (S754_infinity false) "cuda") = Raise overflow_error) /\
  (let v := of_int (3 * 2 ^ 50 + 4) in
   valid v = true /\ is_finite v = true /\
   (value v == inject_Z (3 * 2 ^ 50 + 4))%Q /\
   result (recommend_models v "cuda") = Ret (2 ^ 52 + 3, tier_models Enterprise) /\
   Z.max 2 (Qfloor ((value v - 2) / (3 # 4))) = 2 ^ 52 + 2).
Proof.
  split; [repeat split; reflexivity|].
  cbv zeta. split; [reflexivity|]. split; [reflexivity|].
  split; [vm_compute; reflexivity|].
  split; [|vm_compute; reflexivity].
  rewrite recommend_models_result.
  assert (max_params (of_int (3 * 2 ^ 50 + 4)) = Ret (2 ^ 52 + 3)) as ->
    by (vm_compute; reflexivity).
  assert (tier_of (of_int (3 * 2 ^ 50 + 4)) = Enterprise) as -> by (vm_compute; reflexivity).
  reflexivity.
Qed.

(** C2: the tier thresholds 48, 24, 16, 8 cut the memory sizes into right-open
    intervals, each mapped to its tier by [recommend_models] and to the badge
    of the same name by [generate_html_report]; 48.0 is Enterprise, 47.99 and
    24.0 are Professional, 8.0 is Standard and 7.99 is Entry. *)
Theorem tier_boundaries :
  (forall v : float,
     (fge v (of_int 48) = true -> tier_of v = Enterprise) /\
     (fge v (of_int 24) = true -> flt v (of_int 48) = true -> tier_of v = Professional) /\
     (fge v (of_int 16) = true -> flt v (of_int 24) = true -> tier_of v = Advanced) /\
     (fge v (of_int 8) = true -> flt v (of_int 16) = true -> tier_of v = Standard) /\
     (flt v (of_int 8) = true -> tier_of v = Entry)) /\
  tier_of (of_int 48) = Enterprise /\
  tier_of (of_decimal 4799 2) = Professional /\
  tier_of (of_int 24) = Professional /\
  tier_of (of_int 8) = Standard /\
  tier_of (of_decimal 799 2) = Entry /\
  fst (tier_badge (of_int 48)) = "Enterprise" /\
  fst (tier_badge (of_decimal 4799 2)) = "Professional" /\
  fst (tier_badge (of_int 24)) = "Professional" /\
  fst (tier_badge (of_int 8)) = "Standard" /\
  fst (tier_badge (of_decimal 799 2)) = "Entry".
Proof.
  split; [|repeat split; reflexivity].
  intros v.
  assert (flt (of_int 8) (of_int 16) = true) as H1 by reflexivity.
  assert (flt (of_int 16) (of_int 24) = true) as H2 by reflexivity.
  assert (flt (of_int 24) (of_int 48) = true) as H3 by reflexivity.
  unfold tier_of, VRAM_TIER_ENTERPRISE, VRAM_TIER_PROFESSIONAL, VRAM_TIER_ADVANCED,
    VRAM_TIER_STANDARD.
  repeat split.
  - intros ->. reflexivity.
  - intros G L. rewrite (flt_not_fge _ _ L), G. reflexivity.
  - intros G L.
    rewrite (flt_not_fge _ _ (flt_trans _ _ _ L H3)), (flt_not_fge _ _ L), G. reflexivity.
  - intros G L. pose proof (flt_trans _ _ _ L H2) as L24.
    rewrite (flt_not_fge _ _ (flt_trans _ _ _ L24 H3)), (flt_not_fge _ _ L24),
      (flt_not_fge _ _ L), G. reflexivity.
  - intros L. pose proof (flt_trans _ _ _ L H1) as L16.
    pose proof (flt_trans _ _ _ L16 H2) as L24.
    rewrite (flt_not_fge _ _ (flt_trans _ _ _ L24 H3)), (flt_not_fge _ _ L24),
      (flt_not_fge _ _ L16), (flt_not_fge _ _ L). reflexivity.
Qed.

(** C3: when neither [torch.cuda.is_available()] nor
    [torch.backends.mps.is_available()] returns [True] (each returns
    [False] or raises), [get_hardware_capacity] returns the device type
    ["cpu"], an empty list of devices and [ram_gb * 0.5] as usable memory;
    the product is exact, the usable memory is half the RAM as a number.
    With 16 GiB of RAM the RAM is 16.0 and the usable memory 8.0, for which
    [recommend_models] returns 8 as [max_params] with the models of the
    Standard tier. *)
Theorem cpu_fallback (w : world) (total : N) :
  virtual_memory_total w = Ret total -> (total < 2 ^ 64)%N ->
  ~ detected (cuda_is_available w) -> ~ detected (mps_is_available w) ->
  let ram_gb := gib total in
  let usable := fmul ram_gb CPU_USABLE_MEMORY_RATIO in
  get_hardware_capacity w
  = (cpu_console w total
       (warning_of cuda_handler (cuda_is_available w)
        ++ warning_of mps_handler (mps_is_available w)),
     Ret (mk_capacity usable "cpu" ram_gb (platform_system w) [])) /\
  is_finite usable = true /\
  (value usable == value ram_gb * (1 # 2))%Q /\
  (total = (16 * GiB)%N ->
   ram_gb = of_int 16 /\ usable = of_int 8 /\
   (forall d, result (recommend_models usable d) = Ret (8, tier_models Standard)) /\
   tier_of usable = Standard).
Proof.
  intros Hv Ht Hc Hm ram_gb usable.
  split; [|split; [|split]].
  - rewrite (get_hardware_capacity_eq w total Hv Ht).
    fold ram_gb. rewrite (probe_cpu w ram_gb Hc Hm).
    cbn [fst snd vram_gb device_type gpu_details].
    unfold cpu_console. fold ram_gb. cbn [app]. rewrite <- app_assoc. reflexivity.
  - apply (ratio_within ram_gb CPU_USABLE_MEMORY_RATIO (gib_within total Ht)).
    right. reflexivity.
  - destruct (gib_within total Ht) as [V [F [L _]]].
    pose proof (fmul_half ram_gb V F L (gib_even total Ht)) as U.
    destruct (ratio_within ram_gb CPU_USABLE_MEMORY_RATIO (gib_within total Ht)
                (or_intror eq_refl)) as [V' [F' _]].
    rewrite (value_units usable V' F'), (value_units ram_gb V F).
    fold usable in U. rewrite U.
    pose proof (gib_even total Ht) as E. apply Z.div_exact in E; [|lia].
    fold ram_gb in E. rewrite E at 2. rewrite inject_Z_mult.
    assert (~ (inject_Z (2 ^ 1074) == 0)%Q) as Hn.
    { change 0%Q with (inject_Z 0). rewrite inject_Z_injective.
      apply Z.pow_nonzero; lia. }
    set (h := inject_Z (units ram_gb / 2)). set (c := inject_Z (2 ^ 1074)) in *.
    change (inject_Z 2) with 2%Q. field. exact Hn.
  - intros ->. subst usable ram_gb.
    assert (gib (16 * GiB) = of_int 16) as -> by (vm_compute; reflexivity).
    assert (fmul (of_int 16) CPU_USABLE_MEMORY_RATIO = of_int 8) as ->
      by (vm_compute; reflexivity).
    split; [reflexivity|]. split; [reflexivity|]. split; [|vm_compute; reflexivity].
    intros d. rewrite recommend_models_result.
    assert (max_params (of_int 8) = Ret 8) as -> by (vm_compute; reflexivity).
    reflexivity.
Qed.

(** C3 on a machine with 16 GiB of RAM and no accelerator. *)
Lemma cpu_fallback_witness :
  result (get_hardware_capacity cpu_machine)
  = Ret (mk_capacity (of_int 8) "cpu" (of_int 16) "Linux" []).
Proof.
  pose proof (cpu_fallback cpu_machine (16 * GiB)%N eq_refl eq_refl
                ltac:(discriminate) ltac:(discriminate)) as [H [_ [_ G]]].
  destruct (G eq_refl) as [R [U _]].
  rewrite H. cbn [result snd]. rewrite U, R. reflexivity.
Defined.

(** C4 fails on the code where the GPUs that are found report no memory.
    Steps 2 and 3 are guarded by [vram_gb == 0], under the comment "Only
    check if CUDA wasn't found": when [torch.cuda.is_available()] returns
    [True] and every device counted is read and reports 0 bytes, step 1
    announces CUDA and lists the devices in [gpu_details], and the run
    still goes on to the unified-memory and CPU steps and returns their
    device type and memory, never ["cuda"]. *)
Theorem gpu_without_memory_is_bypassed (w : world) (total : N)
  (props : list device_properties) :
  virtual_memory_total w = Ret total -> (total < 2 ^ 64)%N ->
  detected (cuda_is_available w) ->
  cuda_device_count w = Ret (Z.of_nat (List.length props)) ->
  props <> [] ->
  (forall i p, nth_error props i = Some p -> cuda_get_device_properties w i = Ret p) ->
  no_memory props ->
  exists cap,
    result (get_hardware_capacity w) = Ret cap /\
    In (cuda_found_line (Z.of_nat (List.length props))) (console (get_hardware_capacity w)) /\
    cap_gpu_details cap = map gpu_of props /\
    cap_device_type cap <> "cuda" /\
    (detected (mps_is_available w) -> (0 < total)%N ->
     cap_device_type cap = "mps" /\
     cap_vram_gb cap = fmul (gib total) MPS_USABLE_MEMORY_RATIO) /\
    (~ detected (mps_is_available w) ->
     cap_device_type cap = "cpu" /\
     cap_vram_gb cap = fmul (gib total) CPU_USABLE_MEMORY_RATIO).
Proof.
  intros Hv Ht Ha Hc Hne Hp Hz.
  rewrite (get_hardware_capacity_eq w total Hv Ht).
  destruct (probe_no_memory w (gib total) props Ha Hc Hp Hz) as [L [D [M C]]].
  eexists. split; [reflexivity|].
  cbn [console fst cap_gpu_details cap_device_type cap_vram_gb].
  split; [right; right; exact L|]. split; [exact D|].
  assert ((0 < total)%N -> is_zero (fmul (gib total) MPS_USABLE_MEMORY_RATIO) = false) as Hm.
  { intros T. apply fmul_mps_positive. split; assumption. }
  split; [|split].
  - pose proof (probe_settled w (gib total)) as S. cbv zeta in S.
    destruct S as [[S1 [_ [S3 S4]]]|[[S1 _]|[S1 _]]];
      cbn [cap_device_type cap_gpu_details cap_vram_gb] in *.
    + rewrite D, gpu_vram_of, (float_sum_no_memory props Hz) in S3.
      rewrite S3 in S4. discriminate.
    + rewrite S1. discriminate.
    + rewrite S1. discriminate.
  - intros Hd T. exact (M Hd (Hm T)).
  - exact C.
Qed.

(** C4 on a machine whose only GPU reports 0 bytes: the GPU is listed, and
    the result is the CPU with half of the RAM. *)
Lemma gpu_without_memory_is_bypassed_witness :
  result (get_hardware_capacity zero_memory_machine)
  = Ret (mk_capacity (of_int 8) "cpu" (of_int 16) "Linux"
           [mk_gpu "Virtual GPU" (S754_zero false)]).
Proof.
  destruct (gpu_without_memory_is_bypassed zero_memory_machine (16 * GiB)%N
              [mk_props "Virtual GPU" 0%N] eq_refl eq_refl eq_refl eq_refl
              ltac:(discriminate)) as [cap [R [_ [D [_ [_ C]]]]]].
  - intros [|i] p H; [injection H as <-; reflexivity|destruct i; discriminate].
  - intros p [<-|[]]. reflexivity.
  - rewrite R. destruct (C ltac:(discriminate)) as [C1 C2].
    destruct cap as [v d r sy g]. cbn [cap_gpu_details cap_device_type cap_vram_gb] in *.
    subst. vm_compute in R. injection R as <- <-. vm_compute. reflexivity.
Defined.



(** C5 as stated fails, in two ways.  On a machine with two GPUs where
    [get_device_properties(1)] raises, the exception is caught, but the
    first GPU has been counted by then, so the backend stays ["cuda"] with
    the memory of that GPU, while with the GPU backend absent the same
    machine ends on the CPU.  And on a machine whose driver fails at the
    first query, the exception is caught and the probe falls through to the
    CPU, but with an ASCII console the run does not complete: the note on
    CPU inference cannot be printed, the exception of [print] leaves
    [main], and no report is produced. *)
Lemma partial_devices_kept :
  cuda_failure faulty_gpu_machine = Some cuda_error /\
  result (get_hardware_capacity faulty_gpu_machine)
  = Ret (mk_capacity (of_int 8) "cuda" (of_int 16) "Linux"
           [mk_gpu "NVIDIA GeForce RTX 3070" (of_int 8)]) /\
  result (get_hardware_capacity (without_cuda faulty_gpu_machine))
  = Ret (mk_capacity (of_int 8) "cpu" (of_int 16) "Linux" []) /\
  result (get_hardware_capacity faulty_gpu_machine)
  <> result (get_hardware_capacity (without_cuda faulty_gpu_machine)) /\
  cuda_failure broken_driver_machine = Some cuda_error /\
  result (Console.get_hardware_capacity ascii_console broken_driver_machine)
  = Ret (mk_capacity (of_int 8) "cpu" (of_int 16) "Linux" []) /\
  Console.report_of ascii_console broken_driver_machine
  = Raise (codec_error "characters in position 1-2") /\
  Console.exit_status ascii_console broken_driver_machine = 1.
Proof.
  assert (result (get_hardware_capacity faulty_gpu_machine)
          = Ret (mk_capacity (of_int 8) "cuda" (of_int 16) "Linux"
                   [mk_gpu "NVIDIA GeForce RTX 3070" (of_int 8)])) as H1
    by (vm_compute; reflexivity).
  assert (result (get_hardware_capacity (without_cuda faulty_gpu_machine))
          = Ret (mk_capacity (of_int 8) "cpu" (of_int 16) "Linux" [])) as H2
    by (vm_compute; reflexivity).
  split; [reflexivity|]. split; [exact H1|]. split; [exact H2|].
  split; [rewrite H1, H2; discriminate|].
  split; [reflexivity|]. split; [vm_compute; reflexivity|].
  split; vm_compute; reflexivity.
Qed.

(** C5 (amended): on a console that takes every line, once the RAM has
    been read, no exception of a GPU or unified-memory query leaves
    [get_hardware_capacity]: the [try] block of the probe ends, the warning
    of its handler is printed, and the run goes on to a report and to exit
    status 0.  An exception of [torch.backends.mps.is_available()], and an
    exception raised in step 1 before the memory of any device has been
    read, leave the result that the machine gives with that backend not
    available; an exception raised by [get_device_properties] later in
    step 1 keeps the devices read so far: they are the devices of the
    result, and when one of them holds memory the result is ["cuda"] with
    the sum of their memories. *)
Theorem probe_exceptions_caught (out : Console.stdout) (w : world) (total : N) :
  encodes_all out ->
  virtual_memory_total w = Ret total -> native_sizes w ->
  (exists cap, result (Console.get_hardware_capacity out w) = Ret cap) /\
  (forall e, cuda_failure w = Some e ->
     incl (cuda_handler e) (console (Console.get_hardware_capacity out w))) /\
  (forall e, mps_failure w (gib total) = Some e ->
     incl (mps_handler e) (console (Console.get_hardware_capacity out w))) /\
  (forall e, fails_early w e ->
     cuda_failure w = Some e /\
     result (Console.get_hardware_capacity out w)
     = result (Console.get_hardware_capacity out (without_cuda w))) /\
  (forall e, mps_is_available w = Raise e ->
     result (Console.get_hardware_capacity out w)
     = result (Console.get_hardware_capacity out (without_mps w))) /\
  (forall e props, fails_after w props e ->
     cuda_failure w = Some e /\
     exists cap,
       result (Console.get_hardware_capacity out w) = Ret cap /\
       cap_gpu_details cap = map gpu_of props /\
       ((exists p, In p props /\ (0 < total_memory p)%N) ->
        cap_device_type cap = "cuda" /\
        cap_vram_gb cap = float_sum (device_gb props))) /\
  Console.exit_status out w = 0 /\
  (exists html, Console.report_of out w = Ret html).
Proof.
  intros All Hv Hs. pose proof (proj1 Hs total Hv) as Ht.
  rewrite !(get_hardware_capacity_utf8 out All), (exit_status_utf8 out All),
    (report_of_utf8 out All).
  pose proof (get_hardware_capacity_eq w total Hv Ht) as E.
  destruct (main_returns w total default_output_path Hv Hs) as [M R].
  split; [|split; [|split; [|split; [|split; [|split; [|split]]]]]].
  - rewrite E. eexists. reflexivity.
  - intros e He. rewrite E. cbn [console fst].
    intros x Hx. right. right. exact (cuda_failure_logged w (gib total) e He x Hx).
  - intros e He. rewrite E. cbn [console fst].
    intros x Hx. right. right. exact (mps_failure_logged w (gib total) e He x Hx).
  - intros e He. split; [exact (proj1 (fails_early_block w e He))|].
    rewrite E.
    rewrite (get_hardware_capacity_eq (without_cuda w) total Hv Ht).
    cbn [result snd]. rewrite <- (probe_without_cuda w (gib total) e He). reflexivity.
  - intros e He. rewrite E.
    rewrite (get_hardware_capacity_eq (without_mps w) total Hv Ht).
    cbn [result snd]. rewrite <- (probe_without_mps w (gib total) e He). reflexivity.
  - intros e props Hf. destruct Hs as [_ [S2 S3]].
    destruct (fails_after_block w props e S2 Hf) as [Hcf Hst].
    split; [exact Hcf|]. rewrite E. eexists. split; [reflexivity|].
    cbn [cap_gpu_details cap_device_type cap_vram_gb].
    split; [rewrite probe_keeps_devices, Hst; reflexivity|].
    intros Hex. destruct Hf as [_ [[n [Hn Hlt]] [_ [Hp _]]]].
    rewrite (probe_stops_at_cuda w (gib total)); rewrite Hst; cbn [vram_gb device_type];
      [split; reflexivity|].
    apply float_sum_nonzero; [pose proof (S3 n Hn); lia| |exact Hex].
    apply Forall_forall. intros p Hin. apply In_nth_error in Hin. destruct Hin as [i Hi].
    exact (S2 i p (Hp i p Hi)).
  - unfold exit_status. rewrite M. reflexivity.
  - exact R.
Qed.

(** C5 (amended) on a machine whose driver fails at the first query, with a
    UTF-8 console: the run ends on the CPU as if there were no GPU backend. *)
Lemma probe_exceptions_caught_witness :
  result (Console.get_hardware_capacity utf8 broken_driver_machine)
  = result (Console.get_hardware_capacity utf8 (without_cuda broken_driver_machine)) /\
  Console.exit_status utf8 broken_driver_machine = 0.
Proof.
  assert (native_sizes broken_driver_machine) as Hs.
  { split; [|split].
    - intros total H. injection H as <-. reflexivity.
    - intros i p H. discriminate.
    - intros n H. injection H as <-. reflexivity. }
  pose proof (probe_exceptions_caught utf8 broken_driver_machine (16 * GiB)%N
                (fun _ => eq_refl) eq_refl Hs)
    as [_ [_ [_ [H [_ [_ [X _]]]]]]].
  split; [|exact X].
  exact (proj2 (H cuda_error (fails_is_available broken_driver_machine cuda_error eq_refl))).
Defined.

(** C6 fails where [psutil.virtual_memory()] raises: the call is outside
    every [try] statement, so the exception leaves [get_hardware_capacity]
    and [main] before anything is printed, and the interpreter ends with
    status 1. *)
Theorem ram_query_failure_is_fatal (w : world) (e : exn) :
  virtual_memory_total w = Raise e ->
  (forall output_path, main w output_path = ([], Raise e)) /\
  exit_status w = 1.
Proof.
  intros H.
  assert (get_hardware_capacity w = ([], Raise e)) as G.
  { unfold get_hardware_capacity. rewrite H. reflexivity. }
  split.
  - intros output_path. unfold main. rewrite G. reflexivity.
  - unfold exit_status, main. rewrite G. reflexivity.
Qed.

(** C6 on a machine where [/proc/meminfo] cannot be read. *)
Lemma ram_query_failure_is_fatal_witness :
  main no_meminfo_machine default_output_path = ([], Raise meminfo_error) /\
  exit_status no_meminfo_machine = 1.
Proof.
  destruct (ram_query_failure_is_fatal no_meminfo_machine meminfo_error eq_refl) as [M X].
  split; [exact (M default_output_path)|exact X].
Defined.

(** X1: on a console that takes every line, once the RAM has been read
    the run ends with exit status 0 whatever the GPU and unified-memory
    queries, the file system and the viewer do: an exception of
    [write_text], of [absolute()] or of [webbrowser.open] is caught by
    [main] and its message printed; and the line that announces the report
    is printed when it has been written. *)
Theorem main_exits_zero (out : Console.stdout) (w : world) (total : N) :
  encodes_all out ->
  virtual_memory_total w = Ret total -> native_sizes w ->
  Console.exit_status out w = 0 /\
  (forall output_path, result (Console.main out w output_path) = Ret tt) /\
  (forall output_path html e,
     Console.report_of out w = Ret html -> path_write_text w output_path html = Raise e ->
     incl (console (Console.main_handler out e)) (console (Console.main out w output_path))) /\
  (forall output_path html shown,
     Console.report_of out w = Ret html -> path_write_text w output_path html = Ret tt ->
     path_absolute w output_path = Ret shown ->
     In (join [nl; "✅ HTML report generated: "; shown])
        (console (Console.main out w output_path))).
Proof.
  intros All Hv Hs.
  rewrite (exit_status_utf8 out All), (report_of_utf8 out All).
  destruct (main_run w total Hv Hs) as [A [B [C D]]].
  split; [exact A|]. split; [|split].
  - intros output_path. rewrite (main_utf8 out All). exact (B output_path).
  - intros output_path html e Hr Hw.
    rewrite (main_utf8 out All), (main_handler_utf8 out All). exact (C output_path html e Hr Hw).
  - intros output_path html shown Hr Hw Ha.
    rewrite (main_utf8 out All). exact (D output_path html shown Hr Hw Ha).
Qed.

(** X1 on the machine with two GPUs, with a UTF-8 console. *)
Lemma main_exits_zero_witness : Console.exit_status utf8 gpu_machine = 0.
Proof.
  assert (native_sizes gpu_machine) as Hs.
  { split; [|split].
    - intros total H. injection H as <-. reflexivity.
    - intros [|[|i]] p H; cbn in H; try (injection H as <-; reflexivity).
      destruct i; discriminate.
    - intros n H. injection H as <-. reflexivity. }
  exact (proj1 (main_exits_zero utf8 gpu_machine (64 * GiB)%N (fun _ => eq_refl) eq_refl Hs)).
Defined.

(** C7: when [v1 <= v2] and [recommend_models] returns for [v2], it returns
    for [v1] too, and with a [max_params] that is not larger. *)
Theorem max_params_monotone (v1 v2 : float) (d1 d2 : string) (n2 : Z)
  (models2 : list (string * string)) :
  valid v1 = true -> valid v2 = true -> fle v1 v2 = true ->
  result (recommend_models v2 d2) = Ret (n2, models2) ->
  exists n1,
    result (recommend_models v1 d1) = Ret (n1, tier_models (tier_of v1)) /\ n1 <= n2.
Proof.
  intros V1 V2 Hle R2. rewrite recommend_models_result in *.
  destruct (max_params v2) as [m2|] eqn:E2; [|discriminate].
  injection R2 as <- _.
  destruct (max_params_mono v1 v2 m2 V1 V2 Hle E2) as [n1 [E1 Hn]].
  exists n1. rewrite E1. split; [reflexivity|exact Hn].
Qed.

Lemma max_params_monotone_witness :
  exists n1,
    result (recommend_models (of_int 8) "cpu") = Ret (n1, tier_models (tier_of (of_int 8))) /\
    n1 <= 21.
Proof.
  apply (max_params_monotone (of_int 8) (of_int 18) "cpu" "cuda" 21 (tier_models Advanced));
    reflexivity.
Defined.

(** C8 as stated fails: the strings passed in are inserted as they are,
    so with no devices at all a document whose operating-system name is the
    text of a device section contains that section, opening tag included. *)
Lemma device_section_from_a_name :
  contains device_section_text
    (generate_html_report "January 21, 2026 at 10:00 AM" device_section_text (of_int 16)
       "cpu" (of_int 8) 8 None (Some (tier_models Standard))) /\
  contains gpu_grid_tag
    (generate_html_report "January 21, 2026 at 10:00 AM" device_section_text (of_int 16)
       "cpu" (of_int 8) 8 None (Some (tier_models Standard))).
Proof.
  assert (contains device_section_text
            (generate_html_report "January 21, 2026 at 10:00 AM" device_section_text
               (of_int 16) "cpu" (of_int 8) 8 None (Some (tier_models Standard)))) as H.
  { rewrite generate_html_report_segments.
    refine (contains_segment _ 23 _ _). reflexivity. }
  split; [exact H|].
  refine (contains_trans _ _ _ _ H).
  unfold device_section_text. rewrite gpu_section_present by reflexivity.
  apply contains_append_l, contains_refl.
Qed.

(** C8 (amended): whatever it is given, [generate_html_report] returns a
    document that shows the name of the operating system in the box
    labelled Operating System and the RAM, formatted with one decimal, in
    the box labelled Total RAM.  When the list of devices is absent or
    empty the field of the device section is the empty string, so that the
    document is the template without that section; and as long as the
    strings given carry no markup, the opening tag of the device section
    occurs nowhere in it.  With a device in the list the section is
    there. *)
Theorem report_shows_system_and_ram
  (timestamp system : string) (ram_gb : float) (device_type : string) (vram_gb : float)
  (max_params : Z) (gpu_details : option (list gpu_info))
  (recommended_models : option (list (string * string))) :
  let doc := generate_html_report timestamp system ram_gb device_type vram_gb
               max_params gpu_details recommended_models in
  contains (stat_box "Operating System" system ++ "</div>") doc /\
  contains (stat_box "Total RAM" (format_fixed 1 ram_gb) ++ unit_GB) doc /\
  contains system doc /\
  contains (format_fixed 1 ram_gb) doc /\
  (gpu_details = None \/ gpu_details = Some [] ->
     gpu_section (build_gpu_html gpu_details) = "" /\
     doc = document timestamp system ram_gb device_type vram_gb max_params
             recommended_models "" (warning_section device_type) /\
     (plain system = true -> plain timestamp = true ->
      plain_models recommended_models = true ->
      ~ contains gpu_grid_tag doc)) /\
  (truthy gpu_details = true -> contains gpu_grid_tag doc).
Proof.
  intros doc. subst doc. rewrite generate_html_report_document.
  pose proof (document_system timestamp system ram_gb device_type vram_gb max_params
                recommended_models (gpu_section (build_gpu_html gpu_details))
                (warning_section device_type)) as Hs.
  pose proof (document_ram timestamp system ram_gb device_type vram_gb max_params
                recommended_models (gpu_section (build_gpu_html gpu_details))
                (warning_section device_type)) as Hr.
  split; [exact Hs|]. split; [exact Hr|].
  split.
  { refine (contains_trans _ _ _ _ Hs). rewrite stat_box_value.
    apply contains_append_l, contains_append_r, contains_refl. }
  split.
  { refine (contains_trans _ _ _ _ Hr). rewrite stat_box_value.
    apply contains_append_l, contains_append_r, contains_refl. }
  split.
  - intros Hg.
    assert (T : truthy gpu_details = false) by (destruct Hg; subst; reflexivity).
    rewrite (gpu_section_absent _ T).
    split; [reflexivity|]. split; [reflexivity|].
    apply no_device_section.
  - intros T.
    refine (contains_trans _ _ _ _ (proj1 (document_fields _ _ _ _ _ _ _ _ _))).
    rewrite (gpu_section_present _ T). apply contains_append_l, contains_refl.
Qed.

(** C8 (amended) at one input: a report for a machine without devices. *)
Lemma report_shows_system_and_ram_witness :
  ~ contains gpu_grid_tag
      (generate_html_report "January 21, 2026 at 10:00 AM" "Linux" (of_int 16) "cpu" (of_int 8) 8
         None (Some (tier_models Standard))).
Proof.
  refine (proj2 (proj2 (proj1 (proj2 (proj2 (proj2 (proj2
    (report_shows_system_and_ram "January 21, 2026 at 10:00 AM" "Linux" (of_int 16) "cpu"
       (of_int 8) 8 None (Some (tier_models Standard)))))))
    (or_introl eq_refl))) _ _ _); reflexivity.
Defined.

(** C9 as stated fails: a report for the device type ["cuda"] in which
    the name of a model is the text of the warning panel contains the
    panel. *)
Lemma warning_panel_from_a_name :
  "cuda" <> "cpu" /\
  contains warning_box
    (generate_html_report "January 21, 2026 at 10:00 AM" "Linux" (of_int 64) "cuda"
       (of_int 24) 29 (Some [mk_gpu "NVIDIA GeForce RTX 4090" (of_int 24)])
       (Some [(warning_box, "Optimized for RAG and tool use")])).
Proof.
  split; [discriminate|].
  refine (contains_trans _ _ _ _ (report_models_field _ _ _ _ _ _ _ _)).
  rewrite build_models_html_join. cbn [items map join].
  apply contains_append_l.
  refine (contains_trans _ _ _ _ (proj1 (model_card_fields _ _))).
  unfold div. apply contains_append_r, contains_append_l, contains_refl.
Qed.

(** C9 (amended): the field of the warning panel is the panel when
    [device_type] is ["cpu"] and the empty string otherwise, so that the
    document contains the panel in the first case and is the template
    without it in the second: for ["cuda"], for ["mps"] and for any other
    backend the tag of the panel occurs nowhere in a report made from
    strings without markup.  On the console, [recommend_models] prints its
    two lines of advice on CPU inference exactly when [device_type] is
    ["cpu"]. *)
Theorem warning_panel_iff_cpu
  (timestamp system : string) (ram_gb : float) (device_type : string) (vram_gb : float)
  (max_params : Z) (gpu_details : option (list gpu_info))
  (recommended_models : option (list (string * string))) :
  let doc := generate_html_report timestamp system ram_gb device_type vram_gb
               max_params gpu_details recommended_models in
  (device_type = "cpu" -> contains warning_box doc) /\
  (device_type <> "cpu" ->
     warning_section device_type = "" /\
     doc = document timestamp system ram_gb device_type vram_gb max_params
             recommended_models (gpu_section (build_gpu_html gpu_details)) "" /\
     (plain system = true -> plain timestamp = true ->
      plain_models recommended_models = true -> plain_gpus gpu_details = true ->
      ~ contains warning_box_tag doc /\ ~ contains warning_box doc)) /\
  (forall n models, result (recommend_models vram_gb device_type) = Ret (n, models) ->
     (incl cpu_note (console (recommend_models vram_gb device_type))
      <-> device_type = "cpu")).
Proof.
  intros doc. subst doc. rewrite generate_html_report_document.
  split; [|split].
  - intros ->.
    exact (proj2 (document_fields _ _ _ _ _ _ _ _ _)).
  - intros Hd. apply String.eqb_neq in Hd.
    rewrite warning_section_cpu, Hd.
    split; [reflexivity|]. split; [reflexivity|].
    intros Ps Pt Pm Pg.
    pose proof (no_warning_panel timestamp system ram_gb device_type vram_gb max_params
                  gpu_details recommended_models Ps Pt Pm Pg) as N.
    split; [exact N|].
    intros C. apply N. exact (contains_trans _ _ _ warning_box_tagged C).
  - intros n models R. exact (cpu_note_printed vram_gb device_type n models R).
Qed.

(** C9 (amended) at one input: a report for a machine with one GPU. *)
Lemma warning_panel_iff_cpu_witness :
  ~ contains warning_box
      (generate_html_report "January 21, 2026 at 10:00 AM" "Linux" (of_int 64) "cuda" (of_int 24)
         29 (Some [mk_gpu "NVIDIA GeForce RTX 4090" (of_int 24)])
         (Some (tier_models Professional))).
Proof.
  refine (proj2 (proj2 (proj2 (proj1 (proj2
    (warning_panel_iff_cpu "January 21, 2026 at 10:00 AM" "Linux" (of_int 64) "cuda" (of_int 24)
       29 (Some [mk_gpu "NVIDIA GeForce RTX 4090" (of_int 24)])
       (Some (tier_models Professional)))) _)) _ _ _ _)); try reflexivity.
  discriminate.
Defined.

(** C10: the badge computed by [generate_html_report] names the tier whose
    model list [recommend_models] returns for the same memory size. *)
Theorem badge_agrees_with_models (v : float) :
  fst (tier_badge v) = tier_label (tier_of v) /\
  (forall d n models,
     result (recommend_models v d) = Ret (n, models) -> models = tier_models (tier_of v)).
Proof.
  split.
  - unfold tier_badge, tier_of, VRAM_TIER_ENTERPRISE, VRAM_TIER_PROFESSIONAL,
      VRAM_TIER_ADVANCED, VRAM_TIER_STANDARD.
    destruct (fge v (of_int 48)); [reflexivity|].
    destruct (fge v (of_int 24)); [reflexivity|].
    destruct (fge v (of_int 16)); [reflexivity|].
    destruct (fge v (of_int 8)); reflexivity.
  - intros d n models H. rewrite recommend_models_result in H.
    destruct (max_params v); [|discriminate]. injection H as _ <-. reflexivity.
Qed.

(** X2: the tier never goes down when the memory goes up: for well-formed
    sizes [v1 <= v2] the tier that [recommend_models] picks for [v1] is at
    most the one it picks for [v2], in the order Entry, Standard, Advanced,
    Professional, Enterprise. *)
Theorem tier_monotone (v1 v2 : float) :
  valid v1 = true -> valid v2 = true -> fle v1 v2 = true ->
  (tier_rank (tier_of v1) <= tier_rank (tier_of v2))%nat.
Proof. exact (tier_of_mono v1 v2). Qed.

(** X2 between 12.5 and 18.0: Standard, then Advanced. *)
Lemma tier_monotone_witness :
  (tier_rank (tier_of (of_decimal 125 1)) <= tier_rank (tier_of (of_int 18)))%nat.
Proof.
  exact (tier_monotone (of_decimal 125 1) (of_int 18) eq_refl eq_refl eq_refl).
Defined.



(** X4: the parameter count that [recommend_models] returns lies in the
    range of the tier whose models it returns: 2 to 7 for Entry, 8 to 18
    for Standard, 18 to 29 for Advanced, 29 to 61 for Professional, and 61 or
    more for Enterprise. *)
Theorem max_params_by_tier (v : float) (d : string) (n : Z)
  (models : list (string * string)) :
  valid v = true -> result (recommend_models v d) = Ret (n, models) ->
  models = tier_models (tier_of v) /\ in_range n (params_range (tier_of v)).
Proof.
  intros V R. rewrite recommend_models_result in R.
  destruct (max_params v) as [k|e] eqn:M; [|discriminate].
  injection R as <- <-. split; [reflexivity|].
  exact (max_params_in_range v k V M).
Qed.

(** X4 at 12.5: Standard, fourteen billion parameters. *)
Lemma max_params_by_tier_witness :
  in_range 14 (params_range (tier_of (of_decimal 125 1))).
Proof.
  refine (proj2 (max_params_by_tier (of_decimal 125 1) "mps" 14 (tier_models Standard)
                   eq_refl _)).
  vm_compute. reflexivity.
Defined.

(** X5: the unified-memory step.  When [torch.cuda.is_available()] does not
    return [True] and [torch.backends.mps.is_available()] does, on a
    machine with RAM, [get_hardware_capacity] returns the device type
    ["mps"], [ram_gb * 0.75] as usable memory and no devices, after
    printing the two lines of the step; the usable memory is not zero, so
    the CPU step is not run, and up to 2^51 bytes of RAM it is three
    quarters of the RAM exactly. *)
Theorem unified_memory_step (w : world) (total : N) :
  virtual_memory_total w = Ret total -> (0 < total < 2 ^ 64)%N ->
  ~ detected (cuda_is_available w) -> detected (mps_is_available w) ->
  let ram_gb := gib total in
  let usable := fmul ram_gb MPS_USABLE_MEMORY_RATIO in
  get_hardware_capacity w
  = (mps_console w total (warning_of cuda_handler (cuda_is_available w)),
     Ret (mk_capacity usable "mps" ram_gb (platform_system w) [])) /\
  is_finite usable = true /\
  is_zero usable = false /\
  ((total < 2 ^ 51)%N ->
   (value usable == inject_Z (3 * Z.of_N total) / inject_Z (2 ^ 32))%Q).
Proof.
  intros Hv Ht Hc Hm ram_gb usable.
  pose proof (fmul_mps_positive total Ht) as Hz.
  destruct (fmul_mps_units (gib total) (gib_within total (proj2 Ht))) as [[V [F _]] _].
  split; [|split; [exact F|split; [exact Hz|]]].
  - rewrite (get_hardware_capacity_eq w total Hv (proj2 Ht)).
    rewrite (probe_mps w (gib total) Hc Hm Hz).
    cbn [fst snd vram_gb device_type gpu_details].
    unfold mps_console. cbn [app]. reflexivity.
  - intros T. fold ram_gb in V, F. fold usable in V, F.
    rewrite (value_units usable V F). unfold usable, ram_gb.
    rewrite (fmul_mps_exact total T).
    change (2 ^ 1074) with (2 ^ 1042 * 2 ^ 32). rewrite !inject_Z_mult.
    assert (~ (inject_Z (2 ^ 1042) == 0)%Q) as H1.
    { change 0%Q with (inject_Z 0). rewrite inject_Z_injective. apply Z.pow_nonzero; lia. }
    assert (~ (inject_Z (2 ^ 32) == 0)%Q) as H2.
    { change 0%Q with (inject_Z 0). rewrite inject_Z_injective. apply Z.pow_nonzero; lia. }
    set (a := inject_Z (Z.of_N total)).
    set (b := inject_Z (2 ^ 1042)) in *. set (c := inject_Z (2 ^ 32)) in *.
    change (inject_Z 3) with 3%Q. field. split; assumption.
Qed.

(** X5 on a machine with 32 GiB of unified memory: 24.0 GB are usable. *)
Lemma unified_memory_step_witness :
  result (get_hardware_capacity mac_machine)
  = Ret (mk_capacity (of_int 24) "mps" (of_int 32) "Darwin" []).
Proof.
  pose proof (unified_memory_step mac_machine (32 * GiB)%N eq_refl
                (conj eq_refl eq_refl) ltac:(discriminate) eq_refl) as [H _].
  rewrite H. vm_compute. reflexivity.
Defined.

(** X6: whatever the queries answer, a result of [get_hardware_capacity]
    hangs together.  Its device type is ["cuda"], ["mps"] or ["cpu"].  When
    it is ["cuda"] the list of devices is not empty and the usable memory
    is the sum of the memories listed, and is not zero: also when an
    exception has cut the loop over the devices short.  When it is ["mps"]
    the usable memory is [ram_gb * 0.75] and not zero, when it is ["cpu"]
    it is [ram_gb * 0.5]; in these two cases the list of devices need not
    be empty, but the memories listed add up to zero: GPUs that were read
    and reported no memory stay in the list.  With the sizes of a real
    machine the RAM and the usable memory are finite and not negative. *)
Theorem capacity_settled (w : world) (cap : capacity) :
  result (get_hardware_capacity w) = Ret cap ->
  settled cap /\
  cap_system cap = platform_system w /\
  (native_sizes w ->
   is_finite (cap_ram_gb cap) = true /\ fge (cap_ram_gb cap) (of_int 0) = true /\
   is_finite (cap_vram_gb cap) = true /\ fge (cap_vram_gb cap) (of_int 0) = true).
Proof.
  intros R. destruct (get_hardware_capacity_inv w cap R) as [total [ram [Hv [Ht ->]]]].
  split; [exact (probe_settled w ram)|]. split; [reflexivity|].
  intros [S1 [S2 S3]]. pose proof (S1 total Hv) as B.
  rewrite (truediv_gib_returns total B) in Ht. injection Ht as <-.
  pose proof (gib_within total B) as Wr.
  pose proof (probe_within w (gib total) S2 S3 Wr) as Wv.
  cbn [cap_ram_gb cap_vram_gb].
  split; [exact (proj1 (proj2 Wr))|]. split; [exact (within_nonneg _ _ Wr)|].
  split; [exact (proj1 (proj2 Wv))|exact (within_nonneg _ _ Wv)].
Qed.

(** X6 on the machine whose second GPU cannot be queried: the one GPU read
    is listed and its memory is the usable memory. *)
Lemma capacity_settled_witness :
  settled (mk_capacity (of_int 8) "cuda" (of_int 16) "Linux"
             [mk_gpu "NVIDIA GeForce RTX 3070" (of_int 8)]).
Proof.
  refine (proj1 (capacity_settled faulty_gpu_machine _ _)).
  vm_compute. reflexivity.
Defined.

(** X7: what [main] prints once the report is made, on a console that
    takes every line.  If [write_text] raises, the message of the handler is
    the only line that follows the recommendations: nothing announces a
    report.  If the report is written, the line that announces it and the
    line about the browser follow; an exception of [webbrowser.open] is then
    caught by the same handlers, so that an [OSError] of the viewer is
    reported as an error saving the report, after the line that says it was
    generated.  In every case [main] returns. *)
Theorem main_after_the_report (out : Console.stdout) (w : world)
  (output_path html : string) :
  encodes_all out ->
  Console.report_of out w = Ret html ->
  result (Console.main out w output_path) = Ret tt /\
  (forall e, path_write_text w output_path html = Raise e ->
     console (Console.main out w output_path)
     = (analysis_console w ++ console (Console.main_handler out e))%list) /\
  (forall e, path_write_text w output_path html = Ret tt ->
     path_absolute w output_path = Raise e ->
     console (Console.main out w output_path)
     = (analysis_console w ++ console (Console.main_handler out e))%list) /\
  (forall shown e, path_write_text w output_path html = Ret tt ->
     path_absolute w output_path = Ret shown ->
     webbrowser_open w (join ["file://"; shown]) = Raise e ->
     console (Console.main out w output_path)
     = (analysis_console w ++ saved_lines shown
        ++ console (Console.main_handler out e))%list) /\
  (forall shown opened, path_write_text w output_path html = Ret tt ->
     path_absolute w output_path = Ret shown ->
     webbrowser_open w (join ["file://"; shown]) = Ret opened ->
     console (Console.main out w output_path)
     = (analysis_console w ++ saved_lines shown)%list) /\
  (forall msg, console (Console.main_handler out (mk_exn OSError msg))
               = [join [nl; "❌ Error saving report: "; msg]]).
Proof.
  intros All R. rewrite (report_of_utf8 out All) in R.
  rewrite (main_utf8 out All).
  destruct (main_lines_after_report w output_path html R) as [A [B [C [D [E F]]]]].
  split; [exact A|]. split; [|split; [|split; [|split]]].
  - intros e Hw. rewrite (main_handler_utf8 out All). exact (B e Hw).
  - intros e Hw Ha. rewrite (main_handler_utf8 out All). exact (C e Hw Ha).
  - intros shown e Hw Ha Ho. rewrite (main_handler_utf8 out All). exact (D shown e Hw Ha Ho).
  - exact E.
  - intros msg. rewrite (main_handler_utf8 out All). exact (F msg).
Qed.

(** X7 on a machine without a viewer, with a UTF-8 console: the report is
    announced, and then an error saving it. *)
Lemma main_after_the_report_witness :
  exists before,
    console (Console.main utf8 headless_machine default_output_path)
    = (before
       ++ [join [nl; "✅ HTML report generated: /home/user/hardware_report.html"];
           "   Opening in browser...";
           join [nl; "❌ Error saving report: could not locate runnable browser"]])%list.
Proof.
  assert (exists html, Console.report_of utf8 headless_machine = Ret html) as [html R]
    by (eexists; vm_compute; reflexivity).
  destruct (main_after_the_report utf8 headless_machine default_output_path html
              (fun _ => eq_refl) R) as [_ [_ [_ [H _]]]].
  exists (analysis_console headless_machine).
  exact (H "/home/user/hardware_report.html" no_viewer eq_refl eq_refl eq_refl).
Defined.

(** X8: the model cards and the device cards of the report are the cards
    of the entries given, in the order given and without a separator: the
    report contains the cards of all the models one after the other, each
    name and each description verbatim inside its own box, each device with
    its name and its memory formatted with two decimals, and, as soon as
    there is one device, the cards of all the devices inside the grid of
    the device section.  Nothing is escaped on the way. *)
Theorem report_lists_cards
  (timestamp system : string) (ram_gb : float) (device_type : string) (vram_gb : float)
  (max_params : Z) (gpu_details : option (list gpu_info))
  (recommended_models : option (list (string * string))) :
  let doc := generate_html_report timestamp system ram_gb device_type vram_gb
               max_params gpu_details recommended_models in
  contains (join (map model_card (items recommended_models))) doc /\
  (forall model_name description, In (model_name, description) (items recommended_models) ->
     contains (div "model-name" model_name) doc /\
     contains (div "model-desc" description) doc) /\
  (forall gpu, In gpu (items gpu_details) ->
     contains (div "gpu-name" (gpu_name gpu)) doc /\
     contains (div "gpu-vram" (format_fixed 2 (gpu_vram gpu) ++ " GB VRAM")) doc) /\
  (items gpu_details <> [] ->
     contains (div "gpu-grid" (join (map gpu_card (items gpu_details)))) doc).
Proof.
  intros doc.
  pose proof (report_models_field timestamp system ram_gb device_type vram_gb max_params
                gpu_details recommended_models) as Hm.
  pose proof (report_device_field timestamp system ram_gb device_type vram_gb max_params
                gpu_details recommended_models) as Hg.
  fold doc in Hm, Hg. rewrite build_models_html_join in Hm.
  split; [exact Hm|]. split; [|split].
  - intros n d Hin.
    pose proof (contains_card model_card _ _ Hin) as Hc.
    destruct (model_card_fields n d) as [H1 H2].
    split; eapply contains_trans; try exact Hm; eapply contains_trans; try exact Hc;
      assumption.
  - intros gpu Hin.
    assert (items gpu_details <> []) as Hne by (intros E; rewrite E in Hin; exact Hin).
    rewrite (gpu_section_div _ Hne) in Hg.
    assert (contains (join (map gpu_card (items gpu_details))) doc) as Hj.
    { eapply contains_trans; [|exact Hg]. unfold div.
      apply contains_append_r, contains_append_l, contains_refl. }
    pose proof (contains_card gpu_card _ _ Hin) as Hc.
    destruct (gpu_card_fields gpu) as [H1 H2].
    split; eapply contains_trans; try exact Hj; eapply contains_trans; try exact Hc;
      assumption.
  - intros Hne. rewrite (gpu_section_div _ Hne) in Hg. exact Hg.
Qed.

(** X8 at one input: a report for two GPUs. *)
Lemma report_lists_cards_witness :
  contains (div "gpu-grid" (join (map gpu_card (map gpu_of gpu_cards))))
    (generate_html_report "January 21, 2026 at 10:00 AM" "Linux" (of_int 64) "cuda"
       (of_int 48) 61 (Some (map gpu_of gpu_cards)) (Some (tier_models Enterprise))).
Proof.
  refine (proj2 (proj2 (proj2
    (report_lists_cards "January 21, 2026 at 10:00 AM" "Linux" (of_int 64) "cuda"
       (of_int 48) 61 (Some (map gpu_of gpu_cards)) (Some (tier_models Enterprise))))) _).
  discriminate.
Defined.

(** X9: the backend box of the report shows the name and the icon that
    the table of backends gives for the device type, and a device type that
    is not one of the three keys, which are compared exactly, is shown as
    Unknown; the lookup has a default and never fails. *)
Theorem backend_box_with_default
  (timestamp system : string) (ram_gb : float) (device_type : string) (vram_gb : float)
  (max_params : Z) (gpu_details : option (list gpu_info))
  (recommended_models : option (list (string * string))) :
  let doc := generate_html_report timestamp system ram_gb device_type vram_gb
               max_params gpu_details recommended_models in
  contains (div "backend-name" (backend_name device_type)) doc /\
  contains (div "backend-icon" (backend_icon device_type)) doc /\
  In (backend_name device_type) ["NVIDIA CUDA"; "Apple Metal (MPS)"; "CPU Only"; "Unknown"] /\
  (backend_name device_type = "Unknown"
   <-> device_type <> "cuda" /\ device_type <> "mps" /\ device_type <> "cpu") /\
  backend_name "CUDA" = "Unknown".
Proof.
  intros doc. split; [apply report_backend_name|]. split; [apply report_backend_icon|].
  split; [|split; [apply backend_name_unknown|reflexivity]].
  unfold backend_name, backend_info.
  destruct (device_type =? "cuda"); [left; reflexivity|].
  destruct (device_type =? "mps"); [right; left; reflexivity|].
  destruct (device_type =? "cpu"); [right; right; left; reflexivity|].
  right; right; right; left; reflexivity.
Qed.

(** X10: whatever the arguments, the report is one complete document: it
    begins with the document type and ends with the closing tag of the
    page, and between them it shows the tier of the badge, the usable
    memory with one decimal in its box, the largest model size after a
    tilde in its box, and the time of generation in the footer. *)
Theorem report_is_complete
  (timestamp system : string) (ram_gb : float) (device_type : string) (vram_gb : float)
  (max_params : Z) (gpu_details : option (list gpu_info))
  (recommended_models : option (list (string * string))) :
  let doc := generate_html_report timestamp system ram_gb device_type vram_gb
               max_params gpu_details recommended_models in
  starts_with "<!DOCTYPE html>" doc /\
  ends_with "</html>" doc /\
  contains (div "badge tier-badge" (fst (tier_badge vram_gb) ++ " Tier")) doc /\
  contains (stat_box "Usable AI Memory" (format_fixed 1 vram_gb) ++ unit_GB) doc /\
  contains (stat_box "Max Model Size" ("~" ++ str_of_int max_params) ++ unit_B) doc /\
  contains ("Generated on " ++ timestamp ++ " | ") doc.
Proof.
  intros doc.
  split; [apply report_starts|]. split; [apply report_ends|].
  split; [apply report_badge|]. split; [apply report_usable|].
  split; [apply report_max_params|apply report_footer].
Qed.

(** X11: on a console that takes every line, a run on a machine on which
    neither accelerator is detected hands to [write_text] a report for the
    backend CPU Only: half of the RAM as usable memory, the models of the
    tier of that half, the warning panel on CPU inference and no device
    section. *)
Theorem cpu_run_report (out : Console.stdout) (w : world) (total : N) :
  encodes_all out ->
  virtual_memory_total w = Ret total -> (total < 2 ^ 64)%N ->
  ~ detected (cuda_is_available w) -> ~ detected (mps_is_available w) ->
  let usable := fmul (gib total) CPU_USABLE_MEMORY_RATIO in
  exists n html,
    result (Console.recommend_models out usable "cpu")
    = Ret (n, tier_models (tier_of usable)) /\
    Console.report_of out w = Ret html /\
    html = generate_html_report (now_strftime w) (platform_system w) (gib total) "cpu"
             usable n None (Some (tier_models (tier_of usable))) /\
    contains (div "backend-name" "CPU Only") html /\
    contains (stat_box "Usable AI Memory" (format_fixed 1 usable) ++ unit_GB) html /\
    contains warning_box html /\
    (plain (platform_system w) = true -> plain (now_strftime w) = true ->
     ~ contains gpu_grid_tag html).
Proof.
  intros All Hv Ht Hc Hm usable.
  destruct (cpu_report w total Hv Ht Hc Hm) as [n [html H]].
  exists n, html.
  rewrite (recommend_models_utf8 out All), (report_of_utf8 out All). exact H.
Qed.

(** X11 on a machine with 16 GiB of RAM and a UTF-8 console: the report has
    the warning panel. *)
Lemma cpu_run_report_witness :
  exists html, Console.report_of utf8 cpu_machine = Ret html /\ contains warning_box html.
Proof.
  destruct (cpu_run_report utf8 cpu_machine (16 * GiB)%N (fun _ => eq_refl) eq_refl eq_refl
              ltac:(discriminate) ltac:(discriminate))
    as [n [html [_ [H [_ [_ [_ [W _]]]]]]]].
  exists html. split; [exact H|exact W].
Defined.



(** X14: the console condition is needed.  On a machine on which neither
    accelerator is detected, a console that takes the lines printed up to
    the note for CPU inference and refuses the note ends the run there:
    the exception of [print] leaves [recommend_models] and [main], which
    sit outside every [try] statement at that point, the exit status is 1
    and no report is handed to [write_text]. *)
Theorem refused_note_is_fatal (out : Console.stdout) (w : world) (total : N) (e : exn) :
  virtual_memory_total w = Ret total -> (total < 2 ^ 64)%N ->
  ~ detected (cuda_is_available w) -> ~ detected (mps_is_available w) ->
  let usable := fmul (gib total) CPU_USABLE_MEMORY_RATIO in
  accepts out (console (get_hardware_capacity w)) ->
  (forall n, max_params usable = Ret n -> accepts out (recommendation_lines usable n)) ->
  out note_line = Raise e ->
  exists n,
    max_params usable = Ret n /\
    (forall output_path,
       Console.main out w output_path
       = ((console (get_hardware_capacity w) ++ recommendation_lines usable n)%list,
          Raise e)) /\
    Console.exit_status out w = 1 /\
    Console.report_of out w = Raise e.
Proof.
  intros Hv Ht Hc Hm usable A1 A2 He.
  assert (within (2 ^ 31) usable) as Hw.
  { apply (within_weaken 1); [lia|].
    apply ratio_within; [apply gib_within; exact Ht|right; reflexivity]. }
  destruct (recommend_models_returns usable "cpu" Hw) as [n Hr].
  rewrite recommend_models_result in Hr.
  destruct (max_params usable) as [m|e'] eqn:M; [|discriminate].
  injection Hr as ->. exists n. split; [reflexivity|].
  pose proof (get_hardware_capacity_accepted out w A1) as G.
  pose proof (get_hardware_capacity_eq w total Hv Ht) as E.
  rewrite (probe_cpu w (gib total) Hc Hm) in E. cbn [fst snd vram_gb device_type gpu_details] in E.
  pose proof (recommend_models_refused_note out usable n e M (A2 n eq_refl) He) as R.
  assert (analysis out w
          = ((console (get_hardware_capacity w) ++ recommendation_lines usable n)%list,
             Raise e)) as An.
  { unfold analysis. rewrite G. rewrite E at 1. cbn [bind cap_vram_gb cap_device_type].
    fold usable. rewrite R. rewrite E. reflexivity. }
  assert (forall output_path,
            Console.main out w output_path
            = ((console (get_hardware_capacity w) ++ recommendation_lines usable n)%list,
               Raise e)) as Mn.
  { intros output_path. rewrite (main_refused out w output_path e); rewrite An; reflexivity. }
  split; [exact Mn|]. split.
  - unfold Console.exit_status. rewrite Mn. reflexivity.
  - unfold Console.report_of. rewrite G. rewrite E. cbn [result snd cap_vram_gb cap_device_type].
    fold usable. rewrite R. reflexivity.
Qed.

(** X14 on a machine with 16 GiB of RAM and an ASCII console: the run ends
    with the error of the codec and exit status 1. *)
Lemma refused_note_is_fatal_witness :
  Console.exit_status ascii_console cpu_machine = 1 /\
  Console.report_of ascii_console cpu_machine
  = Raise (codec_error "characters in position 1-2").
Proof.
  destruct (refused_note_is_fatal ascii_console cpu_machine (16 * GiB)%N
              (codec_error "characters in position 1-2") eq_refl eq_refl
              ltac:(discriminate) ltac:(discriminate)) as [n [_ [_ H]]].
  - vm_compute. repeat constructor.
  - intros n H. vm_compute in H. injection H as <-. vm_compute. repeat constructor.
  - reflexivity.
  - exact H.
Defined.

(** X15: when the report has been written and the console refuses the
    line that announces it, the exception of [print] is raised inside the
    [try] statement of [main] and goes to its last handler, whose own line
    the console may refuse as well: then the second exception leaves
    [main], although the report is on disk; otherwise the run ends by
    reporting an unexpected error. *)
Theorem refused_announcement (out : Console.stdout) (w : world)
  (output_path html shown : string) (e : exn) :
  Console.report_of out w = Ret html ->
  path_write_text w output_path html = Ret tt ->
  path_absolute w output_path = Ret shown ->
  out (announcement shown) = Raise e -> exn_cls e <> OSError ->
  (forall e', out (unexpected_error e) = Raise e' ->
     Console.main out w output_path = (console (analysis out w), Raise e')) /\
  (out (unexpected_error e) = Ret tt ->
     Console.main out w output_path
     = ((console (analysis out w) ++ [unexpected_error e])%list, Ret tt)).
Proof.
  intros R Hw Ha He Hc.
  rewrite (main_saving out w output_path html R).
  rewrite (saving_refused out w output_path html shown e Hw Ha He).
  assert (Console.main_handler out e = Console.print out (unexpected_error e)) as ->.
  { unfold Console.main_handler. destruct (exn_cls e); try reflexivity.
    contradiction Hc. reflexivity. }
  split.
  - intros e' H. rewrite (print_refused _ _ _ H). cbn [console result fst snd].
    rewrite app_nil_r. reflexivity.
  - intros H. rewrite (print_accepted _ _ H). reflexivity.
Qed.

(** X15 on the machine with two GPUs and an ASCII console: the run ends
    with the error of the codec at the line of the handler. *)
Lemma refused_announcement_witness :
  result (Console.main ascii_console gpu_machine default_output_path)
  = Raise (codec_error "character '\u274c' in position 1").
Proof.
  assert (exists html, Console.report_of ascii_console gpu_machine = Ret html) as [html R]
    by (eexists; vm_compute; reflexivity).
  destruct (refused_announcement ascii_console gpu_machine default_output_path html
              "/home/user/hardware_report.html"
              (codec_error "character '\u2705' in position 1") R eq_refl eq_refl eq_refl
              ltac:(discriminate)) as [H _].
  rewrite (H (codec_error "character '\u274c' in position 1") eq_refl). reflexivity.
Defined.
